(** * Request hand-off and streaming coordination of the Dynamo workers

    A shallow embedding of the request handlers of the two inference
    back-ends of the repository:

    - [trtllm/request_handlers/handler_base.py]
      ([HandlerBase.calculate_kv_perf_metrics], [HandlerBase.generate_locally]);
    - [sglang/request_handlers/handler_base.py]
      ([BaseWorkerHandler._get_input_param], [_generate_bootstrap_room],
      [_get_bootstrap_info], [_handle_cancellation], [_cancellation_monitor]);
    - [sglang/request_handlers/decode_handler.py]
      ([DecodeWorkerHandler._build_sampling_params], [generate],
      [_process_token_stream], [_process_text_stream]);
    - [sglang/request_handlers/llm/prefill_handler.py]
      ([PrefillWorkerHandler.__init__], [generate], [_consume_results]);

    and of the mock statistics server of the examples
    ([examples/custom_backend/nim/mock_nim_server.py],
    [handle_stats_request]).

    Asynchronous generators are embedded as functions that compute the
    whole run of the generator under a consumer that drains it: the run
    is the ordered list of the observable events (items yielded, calls
    made to the engine, to the paired handler and to the publisher,
    monitor tasks entered and left) together with the way the run ended
    (normal return or a raised exception). *)

From Stdlib Require Import ZArith QArith Qround List Ascii String Bool Lia.
From Stdlib Require PrimFloat SpecFloat FloatOps.
From stdpp Require Import base option list strings gmap.
Import ListNotations.

Local Open Scope Z_scope.
Local Open Scope string_scope.
Local Open Scope list_scope.

(** ** KV transfer metrics (trtllm [HandlerBase.calculate_kv_perf_metrics]) *)

Module KvMetrics.

(** The operations of the body whose evaluation is observable: the
    [assert start < end], the subtraction and the true division. *)
Inductive op : Type :=
| OpAssert
| OpSub
| OpDiv.

(** How a call ends: with the returned tuple, or with the exception
    raised by the [assert] or by [/]. *)
Inductive outcome : Type :=
| Returned (latency bytes_per_second : Q)
| AssertionError
| ZeroDivisionError.

(** Python's [start < end] on numbers. *)
Definition py_lt (x y : Q) : bool := negb (Qle_bool y x).

(** [calculate_kv_perf_metrics(self, bytes, start, end)], over exact
    rational numbers; the first component is the list of operations
    evaluated, in order.

    <<
      if bytes == 0:
          return (-1, -1)
      assert start < end, "..."
      total_time = end - start
      return (total_time, bytes / total_time)
    >> *)
Definition calculate_kv_perf_metrics (bytes start end_ : Q) : list op * outcome :=
  if Qeq_bool bytes 0 then
    ([], Returned (-1) (-1))
  else if negb (py_lt start end_) then
    ([OpAssert], AssertionError)
  else
    let total_time := (end_ - start)%Q in
    if Qeq_bool total_time 0 then
      ([OpAssert; OpSub; OpDiv], ZeroDivisionError)
    else
      ([OpAssert; OpSub; OpDiv], Returned total_time (bytes / total_time)%Q).

Definition evaluated (bytes start end_ : Q) : list op :=
  fst (calculate_kv_perf_metrics bytes start end_).

Definition result (bytes start end_ : Q) : outcome :=
  snd (calculate_kv_perf_metrics bytes start end_).

(** Python's [==] between two results: tuples are compared
    component-wise and numbers by value. *)
Definition py_eq (a b : outcome) : Prop :=
  match a, b with
  | Returned l1 t1, Returned l2 t2 => (l1 == l2)%Q /\ (t1 == t2)%Q
  | AssertionError, AssertionError => True
  | ZeroDivisionError, ZeroDivisionError => True
  | _, _ => False
  end.

Definition returns (o : outcome) : Prop :=
  exists l t, o = Returned l t.

End KvMetrics.

(** ** Python values carried by the request dictionaries *)

Module Py.

(** The values found in the option dictionaries of a request. A
    Python [float] is carried as a rational; [VObj] stands for an
    object without [__bool__] or [__len__], which is always true. *)
#[warnings="-register-all"] Inductive value : Type :=
| VNone
| VBool (b : bool)
| VInt (z : Z)
| VFloat (q : Q)
| VStr (s : string)
| VList (l : list value)
| VObj (tag : string).

(** Truth value testing, as done by [if value:] and [not value]. *)
Definition truthy (v : value) : bool :=
  match v with
  | VNone => false
  | VBool b => b
  | VInt z => negb (Z.eqb z 0)
  | VFloat q => negb (Qeq_bool q 0)
  | VStr s => negb (String.eqb s "")
  | VList l => match l with [] => false | _ :: _ => true end
  | VObj _ => true
  end.

(** [v is not None]. *)
Definition is_not_None (v : value) : bool :=
  match v with
  | VNone => false
  | _ => true
  end.

(** [d.get(key)] on a dictionary whose missing keys read as [None]. *)
Definition get (d : gmap string value) (key : string) : value :=
  default VNone (d !! key).

(** Truth value of an optional string ([None] and [""] are false). *)
Definition str_truthy (s : option string) : bool :=
  match s with
  | Some s => negb (String.eqb s "")
  | None => false
  end.

(** The exceptions raised by the handlers. *)
Inductive exn : Type :=
| ValueError (msg : string)
| RuntimeError (msg : string)
| KeyError (key : string)
| IndexError
| AttributeError (attr : string)
| TypeError (msg : string)
| AssertionError
| ZeroDivisionError
| PublisherError (msg : string).

End Py.

(** ** The TensorRT-LLM handler ([trtllm/request_handlers/handler_base.py]) *)

Module Trtllm.
Import Py.

Inductive DisaggregationMode : Type :=
| AGGREGATED
| PREFILL
| DECODE
| ENCODE.

Definition is_prefill (m : DisaggregationMode) : bool :=
  match m with PREFILL => true | _ => false end.

Definition is_decode (m : DisaggregationMode) : bool :=
  match m with DECODE => true | _ => false end.

(** [tensorrt_llm.llmapi.DisaggregatedParams], the engine's own form. *)
Record LlmDisaggregatedParams : Type := {
  request_type : string;
  ctx_request_id : option Z;
  opaque_state : option string
}.

(** [dynamo.trtllm.utils.disagg_utils.DisaggregatedParams], the form
    carried in requests and responses. *)
Record DisaggregatedParams : Type := {
  wire_request_type : string;
  wire_ctx_request_id : option Z;
  wire_opaque_state : option string
}.

(** [DisaggregatedParamsCodec] is imported from
    [dynamo.trtllm.utils.disagg_utils]; the handler only calls it, so
    its two functions are taken as they come. [codec_encode] is given
    whatever [output.disaggregated_params] holds, [None] included; when
    it answers [None] the following [asdict] raises [TypeError]. *)
Record DisaggregatedParamsCodec : Type := {
  codec_decode : DisaggregatedParams -> LlmDisaggregatedParams;
  codec_encode : option LlmDisaggregatedParams -> option DisaggregatedParams
}.

(** The attributes of a [tensorrt_llm.SamplingParams] object:
    [hasattr] is membership, [setattr] is insertion. *)
Abbreviation SamplingParams := (gmap string value).

(** [request["stop_conditions"]]. [max_tokens] is read with
    [["max_tokens"]], so its absence ([None] here) raises [KeyError];
    the other two are read with [.get]. *)
Record StopConditions : Type := {
  max_tokens : option value;
  ignore_eos : option value;
  min_tokens : option value
}.

(** The request dictionary: each key is present or not.
    [stop_conditions] and [sampling_options] are read with
    [request["stop_conditions"]] and [request["sampling_options"]], so
    their absence ([None] here) raises [KeyError]; when present they
    are dictionaries. [sampling_options] lists the items of its
    dictionary in iteration order; [req_id] is the ["id"] key. *)
Record Request : Type := {
  token_ids : option (list Z);
  stop_conditions : option StopConditions;
  sampling_options : option (list (string * value));
  disaggregated_params : option DisaggregatedParams;
  req_id : option string;
  request_id : option string;
  model : option string
}.

Definition with_max_tokens (v : value) (sc : StopConditions) : StopConditions :=
  {| max_tokens := Some v; ignore_eos := ignore_eos sc; min_tokens := min_tokens sc |}.

Definition with_stop_conditions (sc : StopConditions) (request : Request) : Request :=
  {| token_ids := token_ids request;
     stop_conditions := Some sc;
     sampling_options := sampling_options request;
     disaggregated_params := disaggregated_params request;
     req_id := req_id request;
     request_id := request_id request;
     model := model request |}.

(** [request["stop_conditions"]["max_tokens"] = v]: the one place where
    the handler writes into the request it was given. The write goes
    into the dictionary under ["stop_conditions"], which has to be
    there. *)
Definition set_max_tokens (v : value) (request : Request) : exn + Request :=
  match stop_conditions request with
  | None => inl (KeyError "stop_conditions")
  | Some sc => inr (with_stop_conditions (with_max_tokens v sc) request)
  end.

(** What the engine streams: [res.finished], [res.outputs] and, on an
    output, the cumulative [token_ids] and the optional fields. The
    times are already in seconds ([.total_seconds()]). *)
Record TimingMetrics : Type := {
  kv_cache_size : Q;
  kv_cache_transfer_start : Q;
  kv_cache_transfer_end : Q;
  first_token_time : Q
}.

Record RequestPerfMetrics : Type := {
  timing_metrics : option TimingMetrics
}.

Record CompletionOutput : Type := {
  out_token_ids : list Z;
  out_finish_reason : option string;
  out_stop_reason : value;
  out_disaggregated_params : option LlmDisaggregatedParams;
  request_perf_metrics : option RequestPerfMetrics
}.

Record RequestOutput : Type := {
  finished : bool;
  outputs : list CompletionOutput
}.

(** A response dictionary: each key is present or not. *)
Record Chunk : Type := {
  chunk_token_ids : option (list Z);
  chunk_finish_reason : option string;
  chunk_stop_reason : option value;
  chunk_disaggregated_params : option DisaggregatedParams;
  chunk_ctx_request_id : option (option Z);
  chunk_extra : list (string * value)
}.

Definition empty_chunk : Chunk :=
  {| chunk_token_ids := None; chunk_finish_reason := None;
     chunk_stop_reason := None; chunk_disaggregated_params := None;
     chunk_ctx_request_id := None; chunk_extra := [] |}.

Definition or_else {A : Type} (new old : option A) : option A :=
  match new with Some _ => new | None => old end.

(** [a.update(b)]: the keys of [b] win. *)
Definition update (a b : Chunk) : Chunk :=
  {| chunk_token_ids := or_else (chunk_token_ids b) (chunk_token_ids a);
     chunk_finish_reason := or_else (chunk_finish_reason b) (chunk_finish_reason a);
     chunk_stop_reason := or_else (chunk_stop_reason b) (chunk_stop_reason a);
     chunk_disaggregated_params :=
       or_else (chunk_disaggregated_params b) (chunk_disaggregated_params a);
     chunk_ctx_request_id := or_else (chunk_ctx_request_id b) (chunk_ctx_request_id a);
     chunk_extra := chunk_extra a ++ chunk_extra b |}.

Definition set_token_ids (t : list Z) (c : Chunk) : Chunk :=
  update c {| chunk_token_ids := Some t; chunk_finish_reason := None;
              chunk_stop_reason := None; chunk_disaggregated_params := None;
              chunk_ctx_request_id := None; chunk_extra := [] |}.

Definition set_finish_reason (r : string) (c : Chunk) : Chunk :=
  update c {| chunk_token_ids := None; chunk_finish_reason := Some r;
              chunk_stop_reason := None; chunk_disaggregated_params := None;
              chunk_ctx_request_id := None; chunk_extra := [] |}.

Definition set_stop_reason (r : value) (c : Chunk) : Chunk :=
  update c {| chunk_token_ids := None; chunk_finish_reason := None;
              chunk_stop_reason := Some r; chunk_disaggregated_params := None;
              chunk_ctx_request_id := None; chunk_extra := [] |}.

Definition set_disaggregated_params (d : DisaggregatedParams) (c : Chunk) : Chunk :=
  update c {| chunk_token_ids := None; chunk_finish_reason := None;
              chunk_stop_reason := None; chunk_disaggregated_params := Some d;
              chunk_ctx_request_id := None; chunk_extra := [] |}.

Definition set_ctx_request_id (i : option Z) (c : Chunk) : Chunk :=
  update c {| chunk_token_ids := None; chunk_finish_reason := None;
              chunk_stop_reason := None; chunk_disaggregated_params := None;
              chunk_ctx_request_id := Some i; chunk_extra := [] |}.

(** What is handed to [generate_async] as [inputs]: the token ids of
    the request ([request.get("token_ids")]) or what the multimodal
    processor made of the request. *)
Inductive EngineInputs : Type :=
| TokenIds (t : option (list Z))
| Processed (p : value).

(** [MultimodalRequestProcessor] is imported from
    [dynamo.trtllm.multimodal_processor]: the three methods the handler
    calls are taken as they come. *)
Record MultimodalRequestProcessor : Type := {
  process_openai_request : Request -> option value -> EngineInputs;
  get_stop_response : string -> string -> Chunk;
  create_response_chunk : CompletionOutput -> nat -> string -> string -> Chunk
}.

(** The publisher, as far as the handler looks into it. *)
Record Publisher : Type := {
  check_error_queue : option exn
}.

Record HandlerBase : Type := {
  default_sampling_params : SamplingParams;
  publisher : option Publisher;
  disaggregation_mode : DisaggregationMode;
  multimodal_processor : option MultimodalRequestProcessor;
  first_generation : bool
}.

Definition set_first_generation (b : bool) (h : HandlerBase) : HandlerBase :=
  {| default_sampling_params := default_sampling_params h;
     publisher := publisher h;
     disaggregation_mode := disaggregation_mode h;
     multimodal_processor := multimodal_processor h;
     first_generation := b |}.

(** What surrounds the handler: the engine (the snapshots it streams
    for a call), the codec, the environment variable of the test-only
    logits processor and the adapters installed when it is set. *)
Record Environment : Type := {
  generate_async :
    EngineInputs -> SamplingParams -> option LlmDisaggregatedParams -> bool ->
    list RequestOutput;
  codec : DisaggregatedParamsCodec;
  DYNAMO_ENABLE_TEST_LOGITS_PROCESSOR : option string;
  test_logits_adapters : value
}.

(** The observable steps of one run of [generate_locally]. *)
Inductive event : Type :=
| EngineCall (inputs : EngineInputs) (sampling_params : SamplingParams)
    (dp : option LlmDisaggregatedParams) (streaming : bool)
| PublisherStart
| PublishKvPerf (transfer_latency : Q)
| Yield (c : Chunk).

Record Run : Type := {
  events : list event;
  raised : option exn;
  request_after : Request;
  handler_after : HandlerBase
}.

(** [check_error]: whether a result ends the request. *)
Definition check_error (h : HandlerBase) (finish_reason : string) : bool :=
  if is_prefill (disaggregation_mode h) then
    String.eqb finish_reason "error"
  else
    String.eqb finish_reason "stop" || String.eqb finish_reason "error".

(** [LlmDisaggregatedParams(request_type="context_only")]. *)
Definition context_only : LlmDisaggregatedParams :=
  {| request_type := "context_only"; ctx_request_id := None; opaque_state := None |}.

(** [disaggregated_params.request_type = t]. *)
Definition set_request_type (t : string) (d : LlmDisaggregatedParams) :
  LlmDisaggregatedParams :=
  {| request_type := t; ctx_request_id := ctx_request_id d;
     opaque_state := opaque_state d |}.

(** Lines 186-205 of [generate_locally]: the request as the handler
    leaves it and the disaggregated parameters for the engine, or the
    exception raised.

    <<
      disaggregated_params = None
      if self.disaggregation_mode == DisaggregationMode.PREFILL:
          request["stop_conditions"]["max_tokens"] = 1
          disaggregated_params = LlmDisaggregatedParams(request_type="context_only")
      if "disaggregated_params" in request:
          if self.disaggregation_mode == DisaggregationMode.PREFILL:
              raise ValueError("Cannot provide disaggregated_params in prefill mode")
          disaggregated_params = DisaggregatedParamsCodec.decode(...)
          disaggregated_params.request_type = "generation_only"
      if (self.disaggregation_mode == DisaggregationMode.DECODE
              and disaggregated_params is None):
          raise ValueError("Disaggregated params are required for decode mode")
    >> *)
Definition decode_disaggregated_params (c : DisaggregatedParamsCodec)
  (mode : DisaggregationMode) (request : Request) :
  Request * (exn + option LlmDisaggregatedParams) :=
  match (if is_prefill mode then set_max_tokens (VInt 1) request else inr request) with
  | inl e => (request, inl e)
  | inr request1 =>
      let dp0 := if is_prefill mode then Some context_only else None in
      match disaggregated_params request1 with
      | Some wire =>
          if is_prefill mode then
            (request1,
             inl (ValueError "Cannot provide disaggregated_params in prefill mode"))
          else
            (request1,
             inr (Some (set_request_type "generation_only" (codec_decode c wire))))
      | None =>
          if is_decode mode then
            (request1,
             inl (ValueError "Disaggregated params are required for decode mode"))
          else
            (request1, inr dp0)
      end
  end.

(** One turn of the loop over [request["sampling_options"].items()]:

    <<
      if not value:
          continue
      if hasattr(sampling_params, key):
          setattr(sampling_params, key, value)
    >> *)
Definition merge_option (sampling_params : SamplingParams) (item : string * value) :
  SamplingParams :=
  let '(key, v) := item in
  if negb (truthy v) then sampling_params
  else if decide (is_Some (sampling_params !! key)) then <[key := v]> sampling_params
  else sampling_params.

Definition merge_sampling_options (defaults : SamplingParams)
  (items : list (string * value)) : SamplingParams :=
  fold_left merge_option items defaults.

(** [x = stop_conditions...; if x: sampling_params.attr = x]. *)
Definition override_if_supplied (attr : string) (v : value)
  (sampling_params : SamplingParams) : SamplingParams :=
  if truthy v then <[attr := v]> sampling_params else sampling_params.

(** Lines 209-227: the sampling parameters of the engine call, from a
    copy of the defaults of the handler, or [KeyError] when the
    request has no ["sampling_options"], no ["stop_conditions"], or
    stop conditions without ["max_tokens"]. *)
Definition derive_sampling_params (defaults : SamplingParams) (request : Request) :
  exn + SamplingParams :=
  match sampling_options request with
  | None => inl (KeyError "sampling_options")
  | Some items =>
      let sampling_params := merge_sampling_options defaults items in
      match stop_conditions request with
      | None => inl (KeyError "stop_conditions")
      | Some sc =>
          match max_tokens sc with
          | None => inl (KeyError "max_tokens")
          | Some mt =>
              let sampling_params := override_if_supplied "max_tokens" mt sampling_params in
              let ie := default VNone (ignore_eos sc) in
              let sampling_params := override_if_supplied "ignore_eos" ie sampling_params in
              let mn := default VNone (min_tokens sc) in
              let sampling_params := override_if_supplied "min_tokens" mn sampling_params in
              inr sampling_params
          end
      end
  end.

(** [request.get("id") or request.get("request_id", "unknown-id")]. *)
Definition request_id_of (request : Request) : string :=
  if str_truthy (req_id request) then default "" (req_id request)
  else default "unknown-id" (request_id request).

Definition model_name_of (request : Request) : string :=
  default "unknown_model" (model request).

(** Lines 253-255: the publisher is started by the first snapshot of
    the first engine call. *)
Definition start_publisher (h : HandlerBase) : list event * HandlerBase :=
  if first_generation h && bool_decide (is_Some (publisher h)) then
    ([PublisherStart], set_first_generation false h)
  else ([], h).

(** Lines 262-271: the KV transfer metrics of a finished output. *)
Definition publish_kv_metrics (h : HandlerBase) (output : CompletionOutput) :
  exn + list event :=
  match request_perf_metrics output with
  | None => inr []
  | Some pm =>
      match timing_metrics pm with
      | None => inr []
      | Some tm =>
          match KvMetrics.result (kv_cache_size tm) (kv_cache_transfer_start tm)
                  (kv_cache_transfer_end tm) with
          | KvMetrics.AssertionError => inl AssertionError
          | KvMetrics.ZeroDivisionError => inl ZeroDivisionError
          | KvMetrics.Returned latency _ =>
              match publisher h with
              | None => inl (AttributeError "publish_kv_perf")
              | Some _ => inr [PublishKvPerf latency]
              end
          end
      end
  end.

(** Lines 260-283: the final chunk of a finished stream. *)
Definition final_chunk (h : HandlerBase) (output : CompletionOutput)
  (request_id model_name : string) : Chunk :=
  let final_out := empty_chunk in
  let final_out :=
    match out_disaggregated_params output with
    | Some d => set_ctx_request_id (ctx_request_id d) final_out
    | None => final_out
    end in
  match multimodal_processor h with
  | Some mp => update final_out (get_stop_response mp request_id model_name)
  | None => update final_out (set_finish_reason "stop" (set_token_ids [] empty_chunk))
  end.

(** Lines 290-308: the chunk of a snapshot that does not end the
    stream, or the [TypeError] of [asdict] when the codec has encoded
    nothing in PREFILL mode. *)
Definition delta_chunk (c : DisaggregatedParamsCodec) (h : HandlerBase)
  (output : CompletionOutput) (num_output_tokens_so_far : nat)
  (request_id model_name : string) : exn + Chunk :=
  let out :=
    match multimodal_processor h with
    | Some mp =>
        create_response_chunk mp output num_output_tokens_so_far request_id model_name
    | None => set_token_ids (drop num_output_tokens_so_far (out_token_ids output)) empty_chunk
    end in
  let out :=
    if str_truthy (out_finish_reason output)
    then set_finish_reason (default "" (out_finish_reason output)) out else out in
  let out :=
    if truthy (out_stop_reason output)
    then set_stop_reason (out_stop_reason output) out else out in
  if is_prefill (disaggregation_mode h) then
    match codec_encode c (out_disaggregated_params output) with
    | Some wire => inr (set_disaggregated_params wire out)
    | None => inl (TypeError "asdict() should be called on dataclass instances")
    end
  else inr out.

(** The body of [async for res in self.engine.llm.generate_async(...)],
    lines 245-311, over the snapshots the engine streams. *)
Fixpoint stream_loop (c : DisaggregatedParamsCodec) (h : HandlerBase)
  (request_id model_name : string) (num_output_tokens_so_far : nat)
  (stream : list RequestOutput) : list event * option exn * HandlerBase :=
  match stream with
  | [] => ([], None, h)
  | res :: rest =>
      let '(started, h) := start_publisher h in
      if finished res && negb (is_prefill (disaggregation_mode h)) then
        match outputs res with
        | [] => (started, Some IndexError, h)
        | output :: _ =>
            match publish_kv_metrics h output with
            | inl e => (started, Some e, h)
            | inr published =>
                (started ++ published ++
                   [Yield (final_chunk h output request_id model_name)], None, h)
            end
        end
      else
        match outputs res with
        | [] =>
            (started ++
               [Yield (set_token_ids [] (set_finish_reason "error" empty_chunk))],
             None, h)
        | output :: _ =>
            let next_total_toks := length (out_token_ids output) in
            match delta_chunk c h output num_output_tokens_so_far request_id model_name with
            | inl e => (started, Some e, h)
            | inr out =>
                let '(evs, r, h') :=
                  stream_loop c h request_id model_name next_total_toks rest in
                (started ++ Yield out :: evs, r, h')
            end
        end
  end.

(** Lines 238-242: the test-only logits processor. *)
Definition install_test_logits_processor (env : Environment)
  (sampling_params : SamplingParams) : SamplingParams :=
  match DYNAMO_ENABLE_TEST_LOGITS_PROCESSOR env with
  | Some flag =>
      if String.eqb flag "1"
      then <["logits_processor" := test_logits_adapters env]> sampling_params
      else sampling_params
  | None => sampling_params
  end.

(** Lines 180-182:
    [self.publisher.check_error_queue() if self.publisher else None]. *)
Definition publishers_error (h : HandlerBase) : option exn :=
  match publisher h with
  | Some p => check_error_queue p
  | None => None
  end.

(** Lines 167-177: the inputs of the engine call. *)
Definition processed_input_of (h : HandlerBase) (request : Request)
  (embeddings : option value) : EngineInputs :=
  match multimodal_processor h with
  | Some mp => process_openai_request mp request embeddings
  | None => TokenIds (token_ids request)
  end.


(** [HandlerBase.generate_locally(self, request, embeddings)]. *)
Definition generate_locally (env : Environment) (h : HandlerBase) (request : Request)
  (embeddings : option value) : Run :=
  let processed_input := processed_input_of h request embeddings in
  match publishers_error h with
  | Some e =>
      {| events := []; raised := Some e; request_after := request; handler_after := h |}
  | None =>
      match decode_disaggregated_params (codec env) (disaggregation_mode h) request with
      | (request, inl e) =>
          {| events := []; raised := Some e; request_after := request;
             handler_after := h |}
      | (request, inr disaggregated_params) =>
          match derive_sampling_params (default_sampling_params h) request with
          | inl e =>
              {| events := []; raised := Some e; request_after := request;
                 handler_after := h |}
          | inr sampling_params =>
              let streaming := negb (is_prefill (disaggregation_mode h)) in
              let request_id := request_id_of request in
              let model_name := model_name_of request in
              let sampling_params := install_test_logits_processor env sampling_params in
              let stream :=
                generate_async env processed_input sampling_params
                  disaggregated_params streaming in
              let '(evs, r, h') :=
                stream_loop (codec env) h request_id model_name 0 stream in
              {| events :=
                   EngineCall processed_input sampling_params disaggregated_params
                     streaming :: evs;
                 raised := r; request_after := request; handler_after := h' |}
          end
      end
  end.

(** The request as the handler leaves it. *)
Definition request_left (env : Environment) (h : HandlerBase) (request : Request)
  (embeddings : option value) : Request :=
  request_after (generate_locally env h request embeddings).

(** The value of attribute [key] of the sampling parameters as the
    description of the derivation has it: the default, overridden by
    the sampling option of that name when one is supplied and true in
    Python's sense (not [None], [False], [0], [0.0], [""] or [[]]),
    and then by [max_tokens], [ignore_eos] and [min_tokens] of the stop
    conditions when those are. A sampling option that names no
    attribute of the parameters is dropped. *)
Definition described_attribute (defaults : SamplingParams)
  (options : gmap string value) (mt ie mn : value) (key : string) : option value :=
  if String.eqb key "min_tokens" && truthy mn then Some mn
  else if String.eqb key "ignore_eos" && truthy ie then Some ie
  else if String.eqb key "max_tokens" && truthy mt then Some mt
  else
    match defaults !! key, options !! key with
    | Some d, Some v => if truthy v then Some v else Some d
    | d, _ => d
    end.

(** What a consumer of the stream receives. *)
Definition yielded (evs : list event) : list Chunk :=
  omap (fun e => match e with Yield c => Some c | _ => None end) evs.

Definition is_engine_call (e : event) : bool :=
  match e with EngineCall _ _ _ _ => true | _ => false end.

Definition engine_calls (evs : list event) : list event :=
  List.filter is_engine_call evs.


(** The stream the engine answered the call of a run with. *)
Definition engine_stream (env : Environment) (evs : list event) : list RequestOutput :=
  match evs with
  | EngineCall inputs sampling_params dp streaming :: _ =>
      generate_async env inputs sampling_params dp streaming
  | _ => []
  end.

(** **** The engine's stream, as the loop reads it *)

(** A snapshot ends the stream when it is finished, outside PREFILL
    mode. *)
Definition ends_stream (mode : DisaggregationMode) (res : RequestOutput) : bool :=
  finished res && negb (is_prefill mode).







End Trtllm.

(** ** The SGLang handlers ([sglang/request_handlers]) *)

Module Sglang.
Import Py.

(** Modelled from the spec: [DisaggregationMode] is imported from
    [dynamo.sglang.args]; the serving modes are those the spec lists. *)
Inductive DisaggregationMode : Type :=
| AGGREGATED
| PREFILL
| DECODE
| ENCODE.

Definition serves_decode (m : DisaggregationMode) : bool :=
  match m with DECODE => true | _ => false end.

(** The cancellation handle of the transport layer. The handlers only
    observe it: the [n]-th observation of a run reads [is_stopped n]
    and, if that is false, [is_killed n]. *)
Record Context : Type := {
  context_id : string;
  is_stopped : nat -> bool;
  is_killed : nat -> bool
}.

(** [context and (context.is_stopped() or context.is_killed())]. *)
Definition cancelled (context : option Context) (tick : nat) : bool :=
  match context with
  | Some c => is_stopped c tick || is_killed c tick
  | None => false
  end.

(** A key of a dictionary that may hold [None]: the key is missing,
    it holds [None], or it holds a value. *)
Inductive entry (A : Type) : Type :=
| Missing
| Null
| Value (a : A).

Arguments Missing {A}.
Arguments Null {A}.
Arguments Value {A} a.

(** The dictionary under ["finish_reason"]: its ["type"], when it has
    one, and the names of its other keys, which the handlers never
    read. As any dictionary it is true in Python's sense when it has a
    key. *)
Record FinishReason : Type := {
  fr_type : option string;
  fr_other_keys : list string
}.

Definition finish_reason_truthy (fr : FinishReason) : bool :=
  match fr_type fr, fr_other_keys fr with
  | None, [] => false
  | _, _ => true
  end.

(** One item of the engine's stream: [res["meta_info"]] with its ["id"]
    and ["finish_reason"], [res["output_ids"]], [res["text"]] and
    [res["index"]]. For ["id"], ["output_ids"], ["text"] and ["index"]
    [None] is an absent key; ["meta_info"] and ["finish_reason"] may
    also be there and hold [None]. *)
Record MetaInfo : Type := {
  meta_id : option string;
  meta_finish_reason : entry FinishReason
}.

Record EngineResponse : Type := {
  meta_info : entry MetaInfo;
  output_ids : option (list Z);
  text : option string;
  index : option Z
}.

(** What an engine call answers with: the snapshots its generator
    yields and the way the generator ends, exhausted ([None]) or with
    an exception raised at the next read. *)
Record EngineStream : Type := {
  snapshots : list EngineResponse;
  failure : option exn
}.

Record BootstrapInfo : Type := {
  bootstrap_host : string;
  bootstrap_port : Z;
  bootstrap_room : Z
}.

(** The request dictionary: token-based ([token_ids],
    [sampling_options], [stop_conditions]) or OpenAI-shaped
    ([messages] and the keys read by [request.get], in [fields]). *)
Record Request : Type := {
  token_ids : option (list Z);
  messages : option value;
  sampling_options : option (gmap string value);
  stop_conditions : option (gmap string value);
  fields : gmap string value
}.

(** [DisaggPreprocessedRequest(request=..., sampling_params=...)]. *)
Record DisaggPreprocessedRequest : Type := {
  dpr_request : Request;
  dpr_sampling_params : gmap string value
}.

Inductive InputParam : Type :=
| InputIds (ids : list Z)
| Prompt (prompt : string).

(** The keyword arguments of [engine.async_generate]. *)
Record GenerateArgs : Type := {
  input_param : InputParam;
  sampling_params : gmap string value;
  stream : bool;
  bootstrap : option BootstrapInfo
}.

(** The two shapes of a response chunk, and what a handler yields. *)
Record TokenChunk : Type := {
  chunk_token_ids : list Z;
  chunk_finish_reason : option string
}.

Record ChatCompletionChunk : Type := {
  chat_id : string;
  created : Z;
  choice_index : Z;
  delta_role : string;
  delta_content : string;
  choice_finish_reason : option string;
  chat_model : string;
  object : string
}.

Inductive item : Type :=
| TokenItem (c : TokenChunk)
| ChatItem (c : ChatCompletionChunk)
| BootstrapItem (info : BootstrapInfo).

(** The observable steps of a run of a handler. [MonitorEnter] is the
    [__aenter__] of [_cancellation_monitor] (the monitor task is
    created); [MonitorExit] is its [__aexit__] (the [finally] block:
    the task is cancelled and awaited unless it is already done). *)
Inductive event : Type :=
| PrefillCall (r : DisaggPreprocessedRequest)
| PrefillRead (info : BootstrapInfo)
| EngineCall (args : GenerateArgs)
| MonitorEnter (sglang_request_id : string)
| MonitorExit (sglang_request_id : string)
| CreateTask (results : EngineStream)
| Yield (i : item).

Record Run : Type := {
  events : list event;
  raised : option exn
}.

(** The configuration and what surrounds a handler: the engine, the
    client of the paired prefill worker (the data of the items of the
    stream it answers with), the chat template of the tokenizer and the
    wall clock, read once per text chunk. *)
Record Config : Type := {
  serving_mode : DisaggregationMode;
  skip_tokenizer_init : bool;
  served_model_name : string
}.

Record Environment : Type := {
  async_generate : GenerateArgs -> EngineStream;
  prefill_client_generate : DisaggPreprocessedRequest -> list BootstrapInfo;
  apply_chat_template : value -> string;
  time : nat -> Z
}.

(** [text[count:]]. *)
Fixpoint str_drop (n : nat) (s : string) : string :=
  match n, s with
  | O, _ => s
  | S n, String _ s => str_drop n s
  | S _, EmptyString => EmptyString
  end.

(** [BaseWorkerHandler._get_input_param]. *)
Definition _get_input_param (env : Environment) (config : Config) (request : Request) :
  exn + InputParam :=
  if skip_tokenizer_init config then
    match token_ids request with
    | Some ids => inr (InputIds ids)
    | None => inl (KeyError "token_ids")
    end
  else
    match messages request with
    | Some m => inr (Prompt (apply_chat_template env m))
    | None => inl (KeyError "messages")
    end.

(** Python's [random] module: a source of raw integers and the number
    drawn so far. [random.randint(a, b)] answers an integer [N] with
    [a <= N <= b]: the next raw integer, reduced into the range. *)
Record RandomState : Type := {
  raw : nat -> Z;
  cursor : nat
}.

Definition randint (a b : Z) (st : RandomState) : Z * RandomState :=
  (a + raw st (cursor st) mod (b - a + 1),
   {| raw := raw st; cursor := S (cursor st) |}).

(** [BaseWorkerHandler._generate_bootstrap_room]:
    [return random.randint(0, 2**63 - 1)]. *)
Definition _generate_bootstrap_room (st : RandomState) : Z * RandomState :=
  randint 0 (2 ^ 63 - 1) st.

(** [_cancellation_monitor]: entering creates the monitor task, unless
    there is no context; leaving joins it. *)
Definition monitor_enter (sglang_request_id : string) (context : option Context) :
  list event * option string :=
  match context with
  | None => ([], None)
  | Some _ => ([MonitorEnter sglang_request_id], Some sglang_request_id)
  end.

(** The head of each loop body:

    <<
      if context and cancellation_task is None:
          meta_info = res.get("meta_info", {})
          sglang_request_id = meta_info.get("id")
          if sglang_request_id:
              cancellation_context = self._cancellation_monitor(sglang_request_id, context)
              cancellation_task = await cancellation_context.__aenter__()
    >>

    A ["meta_info"] that holds [None] has no [get]. *)
Definition start_monitor (context : option Context) (cancellation_task : option string)
  (res : EngineResponse) : exn + (list event * option string) :=
  match context, cancellation_task with
  | Some _, None =>
      match meta_info res with
      | Null => inl (AttributeError "get")
      | Missing => inr ([], None)
      | Value mi =>
          let sglang_request_id := meta_id mi in
          if str_truthy sglang_request_id
          then inr (monitor_enter (default "" sglang_request_id) context)
          else inr ([], None)
      end
  | _, _ => inr ([], cancellation_task)
  end.

(** The tail of each stream function:

    <<
      if cancellation_task is not None:
          try:
              await cancellation_context.__aexit__(None, None, None)
          except Exception as e:
              logging.error(...)
    >> *)
Definition cleanup (cancellation_task : option string) : list event :=
  match cancellation_task with
  | Some rid => [MonitorExit rid]
  | None => []
  end.

(** What the consumer of a run receives. *)
Definition yielded_items (evs : list event) : list item :=
  omap (fun e => match e with Yield i => Some i | _ => None end) evs.

Definition token_chunks (evs : list event) : list TokenChunk :=
  omap (fun e => match e with Yield (TokenItem c) => Some c | _ => None end) evs.

Definition chat_chunks (evs : list event) : list ChatCompletionChunk :=
  omap (fun e => match e with Yield (ChatItem c) => Some c | _ => None end) evs.




Definition is_engine_call_event (e : event) : bool :=
  match e with EngineCall _ => true | _ => false end.

Definition is_prefill_read (e : event) : bool :=
  match e with PrefillRead _ => true | _ => false end.

Definition engine_call_events (evs : list event) : list event :=
  List.filter is_engine_call_event evs.

Definition prefill_reads (evs : list event) : list event :=
  List.filter is_prefill_read evs.

(** The monitor task that is alive after a sequence of events, given
    the one alive before it. *)
Fixpoint running_monitor (task : option string) (evs : list event) : option string :=
  match evs with
  | [] => task
  | MonitorEnter rid :: evs => running_monitor (Some rid) evs
  | MonitorExit _ :: evs => running_monitor None evs
  | _ :: evs => running_monitor task evs
  end.

(** **** The engine's stream, as the stream functions read it *)

(** [res["meta_info"]["finish_reason"]]. *)
Definition read_finish_reason (res : EngineResponse) : exn + option FinishReason :=
  match meta_info res with
  | Missing => inl (KeyError "meta_info")
  | Null => inl (TypeError "'NoneType' object is not subscriptable")
  | Value mi =>
      match meta_finish_reason mi with
      | Missing => inl (KeyError "finish_reason")
      | Null => inr None
      | Value fr => inr (Some fr)
      end
  end.

(** [if finish_reason:]. *)
Definition if_finish_reason (finish_reason : option FinishReason) : option FinishReason :=
  match finish_reason with
  | Some fr => if finish_reason_truthy fr then Some fr else None
  | None => None
  end.

(** [finish_reason["type"] if finish_reason else None]. *)
Definition finish_reason_type_of (finish_reason : option FinishReason) :
  exn + option string :=
  match if_finish_reason finish_reason with
  | Some fr =>
      match fr_type fr with
      | Some t => inr (Some t)
      | None => inl (KeyError "type")
      end
  | None => inr None
  end.

(** [res["meta_info"]["id"]], [None] when there is no such key. *)
Definition read_id (res : EngineResponse) : option string :=
  match meta_info res with
  | Value mi => meta_id mi
  | _ => None
  end.













(** *** [DecodeWorkerHandler] *)

Module DecodeWorkerHandler.

(** [DecodeWorkerHandler._build_sampling_params]: the dictionary
    [{k: v for k, v in param_mapping.items() if v is not None}]. *)
Definition param_mapping (config : Config) (request : Request) : list (string * value) :=
  if skip_tokenizer_init config then
    let sampling_opts := default ∅ (sampling_options request) in
    let stop_conditions := default ∅ (stop_conditions request) in
    [ ("temperature", get sampling_opts "temperature");
      ("top_p", get sampling_opts "top_p");
      ("top_k", get sampling_opts "top_k");
      ("max_new_tokens", get stop_conditions "max_tokens");
      ("ignore_eos", get stop_conditions "ignore_eos") ]
  else
    [ ("temperature", get (fields request) "temperature");
      ("top_p", get (fields request) "top_p");
      ("top_k", get (fields request) "top_k");
      ("max_new_tokens", get (fields request) "max_tokens") ].

Definition _build_sampling_params (config : Config) (request : Request) :
  gmap string value :=
  list_to_map (List.filter (fun kv => is_not_None (snd kv)) (param_mapping config request)).

(** [DecodeWorkerHandler._process_token_stream], from the [tick]-th
    observation of the context on, over the snapshots the engine's
    generator yields and the way it ends. *)
Fixpoint token_loop (context : option Context) (failure : option exn) (tick : nat)
  (num_output_tokens_so_far : nat) (cancellation_task : option string)
  (stream_source : list EngineResponse) : Run :=
  match stream_source with
  | [] =>
      match failure with
      | Some e => {| events := []; raised := Some e |}
      | None => {| events := cleanup cancellation_task; raised := None |}
      end
  | res :: rest =>
      match start_monitor context cancellation_task res with
      | inl e => {| events := []; raised := Some e |}
      | inr (entered, cancellation_task) =>
          if cancelled context tick then
            {| events := entered ++ cleanup cancellation_task; raised := None |}
          else
            match read_finish_reason res with
            | inl e => {| events := entered; raised := Some e |}
            | inr finish_reason =>
                match if_finish_reason finish_reason with
                | Some finish_reason =>
                    match fr_type finish_reason with
                    | None => {| events := entered; raised := Some (KeyError "type") |}
                    | Some finish_reason_type =>
                        let out :=
                          {| chunk_token_ids := [];
                             chunk_finish_reason := Some finish_reason_type |} in
                        let r := token_loop context failure (S tick)
                                   num_output_tokens_so_far cancellation_task rest in
                        {| events := entered ++ Yield (TokenItem out) :: events r;
                           raised := raised r |}
                    end
                | None =>
                    match output_ids res with
                    | None =>
                        {| events := entered;
                           raised :=
                             Some (ValueError "Missing 'output_ids' in response.") |}
                    | Some ids =>
                        let next_total_toks := length ids in
                        let out :=
                          {| chunk_token_ids := drop num_output_tokens_so_far ids;
                             chunk_finish_reason := None |} in
                        let r := token_loop context failure (S tick) next_total_toks
                                   cancellation_task rest in
                        {| events := entered ++ Yield (TokenItem out) :: events r;
                           raised := raised r |}
                    end
                end
            end
      end
  end.

Definition _process_token_stream (context : option Context) (tick : nat)
  (stream_source : EngineStream) : Run :=
  token_loop context (failure stream_source) tick 0 None (snapshots stream_source).

(** [DecodeWorkerHandler._process_text_stream]. *)
Fixpoint text_loop (env : Environment) (config : Config) (context : option Context)
  (failure : option exn) (tick : nat) (count : nat) (cancellation_task : option string)
  (stream_source : list EngineResponse) : Run :=
  match stream_source with
  | [] =>
      match failure with
      | Some e => {| events := []; raised := Some e |}
      | None => {| events := cleanup cancellation_task; raised := None |}
      end
  | res :: rest =>
      match start_monitor context cancellation_task res with
      | inl e => {| events := []; raised := Some e |}
      | inr (entered, cancellation_task) =>
          if cancelled context tick then
            {| events := entered ++ cleanup cancellation_task; raised := None |}
          else
            let index := default 0 (index res) in
            let text := default "" (text res) in
            match read_finish_reason res with
            | inl e => {| events := entered; raised := Some e |}
            | inr finish_reason =>
                match finish_reason_type_of finish_reason with
                | inl e => {| events := entered; raised := Some e |}
                | inr finish_reason_type =>
                    let next_count := String.length text in
                    let delta := str_drop count text in
                    match read_id res with
                    | Some rid =>
                        let response :=
                          {| chat_id := rid;
                             created := time env tick;
                             choice_index := index;
                             delta_role := "assistant";
                             delta_content := delta;
                             choice_finish_reason := finish_reason_type;
                             chat_model := served_model_name config;
                             object := "chat.completion.chunk" |} in
                        let r := text_loop env config context failure (S tick) next_count
                                   cancellation_task rest in
                        {| events := entered ++ Yield (ChatItem response) :: events r;
                           raised := raised r |}
                    | None => {| events := entered; raised := Some (KeyError "id") |}
                    end
                end
            end
      end
  end.

Definition _process_text_stream (env : Environment) (config : Config)
  (context : option Context) (tick : nat) (stream_source : EngineStream) : Run :=
  text_loop env config context (failure stream_source) tick 0 None
    (snapshots stream_source).

Definition process_stream (env : Environment) (config : Config)
  (context : option Context) (tick : nat) (stream_source : EngineStream) : Run :=
  if skip_tokenizer_init config
  then _process_token_stream context tick stream_source
  else _process_text_stream env config context tick stream_source.

(** What is sent to the paired prefill worker:
    [DisaggPreprocessedRequest(request=request,
    sampling_params=sampling_params).model_dump()]. *)
Definition prefill_request_of (config : Config) (request : Request) :
  DisaggPreprocessedRequest :=
  {| dpr_request := request;
     dpr_sampling_params := _build_sampling_params config request |}.

(** [DecodeWorkerHandler.generate]. In DECODE mode the context is
    observed once before the engine is called (observation [0]); the
    stream functions carry on from the next observation. *)
Definition generate (env : Environment) (config : Config) (request : Request)
  (context : option Context) : Run :=
  let sampling_params := _build_sampling_params config request in
  match _get_input_param env config request with
  | inl e => {| events := []; raised := Some e |}
  | inr input_param =>
      if serves_decode (serving_mode config) then
        let prefill_request := prefill_request_of config request in
        let prefill_stream := prefill_client_generate env prefill_request in
        let '(reads, bootstrap_info) :=
          match prefill_stream with
          | info :: _ => ([PrefillRead info], Some info)
          | [] => ([], None)
          end in
        if cancelled context 0 then
          {| events := PrefillCall prefill_request :: reads; raised := None |}
        else
          match bootstrap_info with
          | None =>
              {| events := PrefillCall prefill_request :: reads;
                 raised := Some (RuntimeError "No bootstrap info received from prefill worker") |}
          | Some info =>
              let args :=
                {| input_param := input_param; sampling_params := sampling_params;
                   stream := true; bootstrap := Some info |} in
              let r := process_stream env config context 1 (async_generate env args) in
              {| events := PrefillCall prefill_request :: reads ++ EngineCall args :: events r;
                 raised := raised r |}
          end
      else
        let args :=
          {| input_param := input_param; sampling_params := sampling_params;
             stream := true; bootstrap := None |} in
        let r := process_stream env config context 0 (async_generate env args) in
        {| events := EngineCall args :: events r; raised := raised r |}
  end.

End DecodeWorkerHandler.

(** *** [PrefillWorkerHandler] *)

Module PrefillWorkerHandler.

Record PrefillWorkerHandler : Type := {
  config : Config;
  handler_bootstrap_host : string;
  handler_bootstrap_port : Z
}.

(** [PrefillWorkerHandler._consume_results]: the results are read and
    dropped; only the monitor and the cancellation check remain. The
    function raises what the look-up of the request id raises and
    what the engine's generator raises. *)
Fixpoint consume_loop (context : option Context) (failure : option exn) (tick : nat)
  (cancellation_task : option string) (results : list EngineResponse) : Run :=
  match results with
  | [] =>
      match failure with
      | Some e => {| events := []; raised := Some e |}
      | None => {| events := cleanup cancellation_task; raised := None |}
      end
  | res :: rest =>
      match start_monitor context cancellation_task res with
      | inl e => {| events := []; raised := Some e |}
      | inr (entered, cancellation_task) =>
          if cancelled context tick then
            {| events := entered ++ cleanup cancellation_task; raised := None |}
          else
            let r := consume_loop context failure (S tick) cancellation_task rest in
            {| events := entered ++ events r; raised := raised r |}
      end
  end.

Definition _consume_results (context : option Context) (results : EngineStream) : Run :=
  consume_loop context (failure results) 0 None (snapshots results).

(** A run of the prefill handler: what the generator itself does (its
    caller sees the items it yields), the run of the task it detaches
    with [asyncio.create_task], if it gets that far, and the state of
    the random source afterwards. *)
Record PrefillRun : Type := {
  foreground : Run;
  background : option Run;
  random_after : RandomState
}.

(** [PrefillWorkerHandler.generate]. *)
Definition generate (env : Environment) (h : PrefillWorkerHandler)
  (request : DisaggPreprocessedRequest) (context : option Context)
  (random : RandomState) : PrefillRun :=
  let '(room, random) := _generate_bootstrap_room random in
  let bootstrap_info :=
    {| bootstrap_host := handler_bootstrap_host h;
       bootstrap_port := handler_bootstrap_port h;
       bootstrap_room := room |} in
  match _get_input_param env (config h) (dpr_request request) with
  | inl e =>
      {| foreground :=
           {| events := [Yield (BootstrapItem bootstrap_info)]; raised := Some e |};
         background := None;
         random_after := random |}
  | inr input_param =>
      let args :=
        {| input_param := input_param;
           sampling_params := dpr_sampling_params request;
           stream := true;
           bootstrap := Some bootstrap_info |} in
      let results := async_generate env args in
      {| foreground :=
           {| events := [Yield (BootstrapItem bootstrap_info); EngineCall args;
                         CreateTask results];
              raised := None |};
         background := Some (_consume_results context results);
         random_after := random |}
  end.

End PrefillWorkerHandler.

End Sglang.

(** ** Sample handlers, requests and engines *)

Module Samples.
Import Py.

(** A codec that carries the three fields over unchanged. *)
Definition plain_codec : Trtllm.DisaggregatedParamsCodec :=
  {| Trtllm.codec_decode := fun w =>
       {| Trtllm.request_type := Trtllm.wire_request_type w;
          Trtllm.ctx_request_id := Trtllm.wire_ctx_request_id w;
          Trtllm.opaque_state := Trtllm.wire_opaque_state w |};
     Trtllm.codec_encode := fun d =>
       match d with
       | Some d =>
           Some {| Trtllm.wire_request_type := Trtllm.request_type d;
                   Trtllm.wire_ctx_request_id := Trtllm.ctx_request_id d;
                   Trtllm.wire_opaque_state := Trtllm.opaque_state d |}
       | None => None
       end |}.

Definition trt_output (tokens : list Z) (finish_reason : option string) :
  Trtllm.CompletionOutput :=
  {| Trtllm.out_token_ids := tokens;
     Trtllm.out_finish_reason := finish_reason;
     Trtllm.out_stop_reason := VNone;
     Trtllm.out_disaggregated_params := None;
     Trtllm.request_perf_metrics := None |}.

(** An engine that streams the cumulative snapshots [[4]] and then
    [[4; 5]], the second one finished with reason ["length"]. *)
Definition two_step_engine : Trtllm.Environment :=
  {| Trtllm.generate_async := fun _ _ _ _ =>
       [ {| Trtllm.finished := false; Trtllm.outputs := [trt_output [4] None] |};
         {| Trtllm.finished := true;
            Trtllm.outputs := [trt_output [4; 5] (Some "length")] |} ];
     Trtllm.codec := plain_codec;
     Trtllm.DYNAMO_ENABLE_TEST_LOGITS_PROCESSOR := None;
     Trtllm.test_logits_adapters := VObj "adapters" |}.

(** The engine of the scenario of the spec: cumulative [[4]], then
    [[4; 5]], then [[4; 5]] again, finished. *)
Definition scenario_engine : Trtllm.Environment :=
  {| Trtllm.generate_async := fun _ _ _ _ =>
       [ {| Trtllm.finished := false; Trtllm.outputs := [trt_output [4] None] |};
         {| Trtllm.finished := false; Trtllm.outputs := [trt_output [4; 5] None] |};
         {| Trtllm.finished := true;
            Trtllm.outputs := [trt_output [4; 5] (Some "stop")] |} ];
     Trtllm.codec := plain_codec;
     Trtllm.DYNAMO_ENABLE_TEST_LOGITS_PROCESSOR := None;
     Trtllm.test_logits_adapters := VObj "adapters" |}.

(** A finished output with the timing of a transfer of [size] bytes
    from second [start] to second [stop]. *)
Definition trt_timed_output (size start stop : Q) : Trtllm.CompletionOutput :=
  {| Trtllm.out_token_ids := [4];
     Trtllm.out_finish_reason := Some "stop";
     Trtllm.out_stop_reason := VNone;
     Trtllm.out_disaggregated_params := None;
     Trtllm.request_perf_metrics :=
       Some {| Trtllm.timing_metrics :=
                 Some {| Trtllm.kv_cache_size := size;
                         Trtllm.kv_cache_transfer_start := start;
                         Trtllm.kv_cache_transfer_end := stop;
                         Trtllm.first_token_time := stop |} |} |}.

Definition trt_publishing_handler (mode : Trtllm.DisaggregationMode) :
  Trtllm.HandlerBase :=
  {| Trtllm.default_sampling_params := ∅;
     Trtllm.publisher := Some {| Trtllm.check_error_queue := None |};
     Trtllm.disaggregation_mode := mode;
     Trtllm.multimodal_processor := None;
     Trtllm.first_generation := true |}.

(** An engine serving a prefill: one finished snapshot with the
    first token and the parameters of the context phase. *)
Definition prefill_engine : Trtllm.Environment :=
  {| Trtllm.generate_async := fun _ _ _ _ =>
       [ {| Trtllm.finished := true;
            Trtllm.outputs :=
              [ {| Trtllm.out_token_ids := [4];
                   Trtllm.out_finish_reason := Some "length";
                   Trtllm.out_stop_reason := VNone;
                   Trtllm.out_disaggregated_params :=
                     Some {| Trtllm.request_type := "context_only";
                             Trtllm.ctx_request_id := Some 7;
                             Trtllm.opaque_state := Some "state" |};
                   Trtllm.request_perf_metrics := None |} ] |} ];
     Trtllm.codec := plain_codec;
     Trtllm.DYNAMO_ENABLE_TEST_LOGITS_PROCESSOR := None;
     Trtllm.test_logits_adapters := VObj "adapters" |}.

Definition trt_defaults : gmap string value :=
  <["temperature" := VFloat 1]> (<["top_k" := VInt 50]> (<["max_tokens" := VInt 16]>
    (<["ignore_eos" := VBool false]> (<["min_tokens" := VInt 0]> ∅)))).

Definition trt_handler (mode : Trtllm.DisaggregationMode) : Trtllm.HandlerBase :=
  {| Trtllm.default_sampling_params := trt_defaults;
     Trtllm.publisher := None;
     Trtllm.disaggregation_mode := mode;
     Trtllm.multimodal_processor := None;
     Trtllm.first_generation := true |}.

Definition trt_request (options : list (string * value)) (max_tokens : value)
  (dp : option Trtllm.DisaggregatedParams) : Trtllm.Request :=
  {| Trtllm.token_ids := Some [1; 2; 3];
     Trtllm.stop_conditions :=
       Some {| Trtllm.max_tokens := Some max_tokens;
               Trtllm.ignore_eos := None;
               Trtllm.min_tokens := None |};
     Trtllm.sampling_options := Some options;
     Trtllm.disaggregated_params := dp;
     Trtllm.req_id := Some "r1";
     Trtllm.request_id := None;
     Trtllm.model := None |}.


(** A request without ["stop_conditions"], with or without
    disaggregated parameters. *)
Definition trt_request_without_stop_conditions
  (dp : option Trtllm.DisaggregatedParams) : Trtllm.Request :=
  {| Trtllm.token_ids := Some [1; 2; 3];
     Trtllm.stop_conditions := None;
     Trtllm.sampling_options := Some [];
     Trtllm.disaggregated_params := dp;
     Trtllm.req_id := Some "r3";
     Trtllm.request_id := None;
     Trtllm.model := None |}.

(** A handler whose publisher has an error waiting in its queue. *)
Definition trt_failing_publisher_handler (mode : Trtllm.DisaggregationMode) :
  Trtllm.HandlerBase :=
  {| Trtllm.default_sampling_params := trt_defaults;
     Trtllm.publisher :=
       Some {| Trtllm.check_error_queue := Some (PublisherError "publisher failed") |};
     Trtllm.disaggregation_mode := mode;
     Trtllm.multimodal_processor := None;
     Trtllm.first_generation := true |}.

Definition wire_params : Trtllm.DisaggregatedParams :=
  {| Trtllm.wire_request_type := "context_only";
     Trtllm.wire_ctx_request_id := Some 7;
     Trtllm.wire_opaque_state := Some "state" |}.

(** A context that never signals, and one that is stopped from its
    [n]-th observation on. *)
Definition quiet_context : Sglang.Context :=
  {| Sglang.context_id := "ctx-1";
     Sglang.is_stopped := fun _ => false;
     Sglang.is_killed := fun _ => false |}.

Definition stopped_from (n : nat) : Sglang.Context :=
  {| Sglang.context_id := "ctx-1";
     Sglang.is_stopped := fun tick => Nat.leb n tick;
     Sglang.is_killed := fun _ => false |}.

Definition sg_meta (finish_reason : option string) : Sglang.entry Sglang.MetaInfo :=
  Sglang.Value
    {| Sglang.meta_id := Some "rid-1";
       Sglang.meta_finish_reason :=
         match finish_reason with
         | Some t =>
             Sglang.Value {| Sglang.fr_type := Some t; Sglang.fr_other_keys := [] |}
         | None => Sglang.Null
         end |}.

(** A snapshot of a token stream and one of a text stream. *)
Definition sg_tokens (ids : option (list Z)) (finish_reason : option string) :
  Sglang.EngineResponse :=
  {| Sglang.meta_info := sg_meta finish_reason;
     Sglang.output_ids := ids;
     Sglang.text := None;
     Sglang.index := Some 0 |}.

Definition sg_text (text : string) (finish_reason : option string) :
  Sglang.EngineResponse :=
  {| Sglang.meta_info := sg_meta finish_reason;
     Sglang.output_ids := None;
     Sglang.text := Some text;
     Sglang.index := Some 0 |}.

Definition sg_bootstrap : Sglang.BootstrapInfo :=
  {| Sglang.bootstrap_host := "10.0.0.1";
     Sglang.bootstrap_port := 8998;
     Sglang.bootstrap_room := 42 |}.

(** An engine stream that yields the snapshots [l] and is then
    exhausted, and one that raises after them. *)
Definition sg_stream (l : list Sglang.EngineResponse) : Sglang.EngineStream :=
  {| Sglang.snapshots := l; Sglang.failure := None |}.

Definition sg_failing_stream (l : list Sglang.EngineResponse) : Sglang.EngineStream :=
  {| Sglang.snapshots := l; Sglang.failure := Some (RuntimeError "engine failed") |}.

(** A snapshot whose ["meta_info"] holds [None], and one whose
    ["meta_info"] has no ["finish_reason"]. *)
Definition sg_null_meta : Sglang.EngineResponse :=
  {| Sglang.meta_info := Sglang.Null;
     Sglang.output_ids := Some [4];
     Sglang.text := None;
     Sglang.index := Some 0 |}.


Definition sg_env (prefill_stream : list Sglang.BootstrapInfo)
  (stream : list Sglang.EngineResponse) : Sglang.Environment :=
  {| Sglang.async_generate := fun _ => sg_stream stream;
     Sglang.prefill_client_generate := fun _ => prefill_stream;
     Sglang.apply_chat_template := fun _ => "<prompt>";
     Sglang.time := fun tick => 1700000000 + Z.of_nat tick |}.

Definition sg_config (mode : Sglang.DisaggregationMode) (skip_tokenizer_init : bool) :
  Sglang.Config :=
  {| Sglang.serving_mode := mode;
     Sglang.skip_tokenizer_init := skip_tokenizer_init;
     Sglang.served_model_name := "model-1" |}.

Definition sg_request : Sglang.Request :=
  {| Sglang.token_ids := Some [1; 2; 3];
     Sglang.messages := Some (VStr "hello");
     Sglang.sampling_options := Some (<["temperature" := VInt 0]> ∅);
     Sglang.stop_conditions := Some (<["max_tokens" := VInt 5]> ∅);
     Sglang.fields := ∅ |}.

(** A token-based request that asks for [top_k = 0]. *)
Definition sg_zero_request : Sglang.Request :=
  {| Sglang.token_ids := Some [1; 2; 3];
     Sglang.messages := None;
     Sglang.sampling_options := Some (<["top_k" := VInt 0]> ∅);
     Sglang.stop_conditions := Some (<["max_tokens" := VInt 5]> ∅);
     Sglang.fields := ∅ |}.

(** A request without [token_ids]. *)
Definition sg_request_without_input : Sglang.Request :=
  {| Sglang.token_ids := None;
     Sglang.messages := None;
     Sglang.sampling_options := None;
     Sglang.stop_conditions := None;
     Sglang.fields := ∅ |}.

Definition sg_prefill_handler : Sglang.PrefillWorkerHandler.PrefillWorkerHandler :=
  {| Sglang.PrefillWorkerHandler.config := sg_config Sglang.PREFILL true;
     Sglang.PrefillWorkerHandler.handler_bootstrap_host := "10.0.0.1";
     Sglang.PrefillWorkerHandler.handler_bootstrap_port := 8998 |}.

Definition sg_random : Sglang.RandomState :=
  {| Sglang.raw := fun n => 2 ^ 63 + 5 + Z.of_nat n; Sglang.cursor := 0 |}.

End Samples.

(** ** Observations on a run of the TensorRT-LLM handler *)

Module TrtllmView.
Import Py Trtllm.

Definition is_publisher_start (e : event) : bool :=
  match e with PublisherStart => true | _ => false end.

(** The calls of [self.publisher.start()] in a run. *)
Definition publisher_starts (evs : list event) : list event :=
  List.filter is_publisher_start evs.

(** The latencies handed to [self.publisher.publish_kv_perf], in
    order. *)
Definition kv_perf_published (evs : list event) : list Q :=
  omap (fun e => match e with PublishKvPerf latency => Some latency | _ => None end) evs.

(** The loop goes past a snapshot when it has outputs and does not end
    the stream. *)
Definition passed (mode : DisaggregationMode) (res : RequestOutput) : bool :=
  negb (ends_stream mode res) && negb (bool_decide (outputs res = [])).

(** [num_output_tokens_so_far] once the loop is past the snapshots
    [pre], from the count [n]. *)
Fixpoint count_after (n : nat) (pre : list RequestOutput) : nat :=
  match pre with
  | [] => n
  | res :: pre =>
      count_after
        (match outputs res with
         | output :: _ => length (out_token_ids output)
         | [] => n
         end) pre
  end.

(** [{"finish_reason": "error", "token_ids": []}]. *)
Definition error_chunk : Chunk :=
  set_token_ids [] (set_finish_reason "error" empty_chunk).

(** [output.request_perf_metrics and
    output.request_perf_metrics.timing_metrics]. *)
Definition timing_of (output : CompletionOutput) : option TimingMetrics :=
  match request_perf_metrics output with
  | Some pm => timing_metrics pm
  | None => None
  end.


End TrtllmView.

(** ** Observations on a run of an SGLang handler *)

Module SglangView.
Import Py Sglang.

Definition is_monitor_event (e : event) : bool :=
  match e with MonitorEnter _ | MonitorExit _ => true | _ => false end.

(** The entries into and exits from [_cancellation_monitor] in a run,
    in order. *)
Definition monitor_events (evs : list event) : list event :=
  List.filter is_monitor_event evs.

Definition is_monitor_exit (e : event) : bool :=
  match e with MonitorExit _ => true | _ => false end.



(** The bootstrap infos among the items a handler yields. *)
Definition bootstrap_items (items : list item) : list BootstrapInfo :=
  omap (fun i => match i with BootstrapItem info => Some info | _ => None end) items.

(** The arguments of the engine calls of a run. *)
Definition engine_call_args (evs : list event) : list GenerateArgs :=
  omap (fun e => match e with EngineCall args => Some args | _ => None end) evs.

(** The context does not signal at the observations [tick], ...,
    [tick + n - 1]. *)
Definition quiet_for (context : option Context) (tick n : nat) : Prop :=
  forall i, (i < n)%nat -> cancelled context (tick + i) = false.

(** The entries and exits a loop can add when it starts with the
    monitor task [task]: with a task, at most its exit; without one,
    at most an entry and the exit that matches it. *)
Definition monitor_shape (task : option string) (l : list event) : Prop :=
  match task with
  | Some rid => l = [] \/ l = [MonitorExit rid]
  | None =>
      l = [] \/ exists rid, l = [MonitorEnter rid] \/ l = [MonitorEnter rid; MonitorExit rid]
  end.

(** Whether a run ended without an exception. *)
Definition ended_normally (r : Run) : bool :=
  match raised r with
  | None => true
  | Some _ => false
  end.

(** What a loop over the engine's stream can do when it starts with
    the monitor task [task]: yield; enter the monitor when none is
    running; and at the end either run the clean-up (a normal end,
    [true]) or stop where it is (an exception, [false]). *)
Inductive loop_trace : option string -> list event -> bool -> Prop :=
| trace_end task : loop_trace task (cleanup task) true
| trace_raise task : loop_trace task [] false
| trace_yield task i evs b :
    loop_trace task evs b -> loop_trace task (Yield i :: evs) b
| trace_enter rid evs b :
    loop_trace (Some rid) evs b -> loop_trace None (MonitorEnter rid :: evs) b.


(** A key of a request dictionary that is present with a value other
    than [None]. *)
Definition supplied (d : gmap string value) (key : string) : option value :=
  match d !! key with
  | Some v => if is_not_None v then Some v else None
  | None => None
  end.

(** The dictionaries [_build_sampling_params] reads the sampling
    options and the stop conditions from: those of a token-based
    request, the request itself when it is OpenAI-shaped. *)
Definition sampling_source (config : Config) (request : Request) : gmap string value :=
  if skip_tokenizer_init config then default ∅ (sampling_options request)
  else fields request.

Definition stop_source (config : Config) (request : Request) : gmap string value :=
  if skip_tokenizer_init config then default ∅ (stop_conditions request)
  else fields request.

(** How a run that raised leaves the monitor, starting with the
    monitor task [task]: untouched, or entered and not left. *)
Definition monitor_left_running (task : option string) (evs : list event) : Prop :=
  (monitor_events evs = [] /\ running_monitor task evs = task)
  \/ (task = None
      /\ exists rid, monitor_events evs = [MonitorEnter rid]
                     /\ running_monitor task evs = Some rid).

(** The names under which [_build_sampling_params] hands parameters
    to the engine. *)
Definition engine_parameter_names : list string :=
  ["temperature"; "top_p"; "top_k"; "max_new_tokens"; "ignore_eos"].

End SglangView.

(** ** The rest of the SGLang base handler

    [BaseWorkerHandler._get_bootstrap_info], the constructor of the
    prefill handler that calls it, and the monitor task itself:
    [_handle_cancellation] and the exit of [_cancellation_monitor].
    Logging is left out. *)

Module SglangBase.
Import Py Sglang.

(** [s.split(":")[0]]: the part of [s] before its first colon, all of
    [s] when it has none. *)
Fixpoint before_colon (s : string) : string :=
  match s with
  | EmptyString => EmptyString
  | String c s => if Ascii.eqb c ":"%char then EmptyString else String c (before_colon s)
  end.

Fixpoint has_colon (s : string) : bool :=
  match s with
  | EmptyString => false
  | String c s => Ascii.eqb c ":"%char || has_colon s
  end.

(** [engine.tokenizer_manager.server_args], as far as it is read. *)
Record ServerArgs : Type := {
  disaggregation_bootstrap_port : Z;
  dist_init_addr : option string
}.

(** [socket.gethostbyname] and sglang's [get_ip]; each answers an
    address or raises, and nothing here catches what they raise. *)
Record Network (E : Type) : Type := {
  gethostbyname : string -> E + string;
  get_ip : E + string
}.

Arguments gethostbyname {E} _ _.
Arguments get_ip {E} _.

(** [BaseWorkerHandler._get_bootstrap_info]. *)
Definition _get_bootstrap_info {E : Type} (net : Network E) (server_args : ServerArgs) :
  E + (string * Z) :=
  let bootstrap_port := disaggregation_bootstrap_port server_args in
  if str_truthy (dist_init_addr server_args) then
    match gethostbyname net (before_colon (default "" (dist_init_addr server_args))) with
    | inl e => inl e
    | inr bootstrap_host => inr (bootstrap_host, bootstrap_port)
    end
  else
    match get_ip net with
    | inl e => inl e
    | inr bootstrap_host => inr (bootstrap_host, bootstrap_port)
    end.

(** [PrefillWorkerHandler.__init__]: the bootstrap host and port are
    read from the engine, then the base class stores the
    configuration. *)
Definition __init__ {E : Type} (net : Network E) (server_args : ServerArgs)
  (config : Config) : E + PrefillWorkerHandler.PrefillWorkerHandler :=
  match _get_bootstrap_info net server_args with
  | inl e => inl e
  | inr (bootstrap_host, bootstrap_port) =>
      inr {| PrefillWorkerHandler.config := config;
             PrefillWorkerHandler.handler_bootstrap_host := bootstrap_host;
             PrefillWorkerHandler.handler_bootstrap_port := bootstrap_port |}
  end.

(** *** The monitor task *)

(** What can leave a coroutine: an exception of class [Exception], or
    [asyncio.CancelledError], which is not of that class. *)
Inductive signal : Type :=
| Raise (e : exn)
| CancelledError.

(** [tokenizer_manager.abort_request(rid=..., abort_all=...)]. *)
Inductive effect : Type :=
| AbortRequest (rid : string) (abort_all : bool).

Record Outcome : Type := {
  effects : list effect;
  propagated : option signal
}.

Definition nothing : Outcome := {| effects := []; propagated := None |}.

(** [a; b]. *)
Definition and_then (a b : Outcome) : Outcome :=
  match propagated a with
  | Some _ => a
  | None => {| effects := effects a ++ effects b; propagated := propagated b |}
  end.

(** [try: body except Exception: (log)]. *)
Definition except_Exception (body : Outcome) : Outcome :=
  match propagated body with
  | Some (Raise _) => {| effects := effects body; propagated := None |}
  | _ => body
  end.

(** [try: body except asyncio.CancelledError: pass]. *)
Definition except_CancelledError (body : Outcome) : Outcome :=
  match propagated body with
  | Some CancelledError => {| effects := effects body; propagated := None |}
  | _ => body
  end.

(** The tokenizer manager's [abort_request] answers or raises. The
    engine's [tokenizer_manager] is [None] when the attribute is
    missing or not true. *)
Record TokenizerManager : Type := {
  abort_request : string -> bool -> option signal
}.

Record Engine : Type := {
  tokenizer_manager : option TokenizerManager
}.

(** How [await context.async_killed_or_stopped()] ends: the context
    signals, or the task is cancelled while it waits. *)
Inductive wake : Type :=
| Signalled
| TaskCancelled.

Definition async_killed_or_stopped (w : wake) : Outcome :=
  match w with
  | Signalled => nothing
  | TaskCancelled => {| effects := []; propagated := Some CancelledError |}
  end.

(** [BaseWorkerHandler._handle_cancellation]. *)
Definition _handle_cancellation (engine : Engine) (sglang_request_id : string)
  (context : option Context) (w : wake) : Outcome :=
  match context with
  | None => nothing
  | Some _ =>
      except_CancelledError
        (and_then (async_killed_or_stopped w)
           match tokenizer_manager engine with
           | Some tm =>
               except_Exception
                 {| effects := [AbortRequest sglang_request_id false];
                    propagated := abort_request tm sglang_request_id false |}
           | None => nothing
           end)
  end.

(** Where the monitor task stands when the monitor is left: not yet
    run, waiting for the signal, or done. *)
Inductive task_state : Type :=
| NotStarted
| Waiting
| Done.

(** Awaiting the monitor task after [cancel()]: a task that never ran
    ends cancelled; a waiting one receives [CancelledError] at its
    [await]. *)
Definition await_cancelled (engine : Engine) (sglang_request_id : string)
  (context : option Context) (st : task_state) : Outcome :=
  match st with
  | NotStarted => {| effects := []; propagated := Some CancelledError |}
  | _ => _handle_cancellation engine sglang_request_id context TaskCancelled
  end.

(** The [finally] block of [_cancellation_monitor]:

    <<
      if not cancellation_task.done():
          cancellation_task.cancel()
          try:
              await cancellation_task
          except asyncio.CancelledError:
              pass
    >>

    Without a context the monitor creates no task and its exit does
    nothing. *)
Definition monitor_exit (engine : Engine) (sglang_request_id : string)
  (context : option Context) (st : task_state) : Outcome :=
  match context with
  | None => nothing
  | Some _ =>
      match st with
      | Done => nothing
      | _ => except_CancelledError (await_cancelled engine sglang_request_id context st)
      end
  end.

End SglangBase.

(** ** The mock NIM statistics server ([examples/custom_backend/nim/mock_nim_server.py])

    [handle_stats_request] with the global [request_count] passed in
    and out. Python's [float] is the IEEE 754 binary64 format, here the
    primitive [float]: [+] and [*] are its addition and multiplication,
    rounded to the nearest float, and a decimal literal denotes the
    float nearest to it. The handler yields the statistics that it
    then encodes as JSON; the [print] is left out. *)

Module MockNim.
Import PrimFloat SpecFloat FloatOps.

#[local] Set Warnings "-inexact-float".

Record Gauges : Type := {
  kv_cache_usage_perc : float;
  gpu_utilization_perc : float;
  active_requests : Z;
  memory_used_gb : float
}.

Record Counters : Type := {
  total_requests : Z;
  total_tokens_generated : Z
}.

Record Stats : Type := {
  schema_version : Z;
  worker_id : string;
  backend : string;
  ts : Z;
  gauges : Gauges;
  counters : Counters
}.

(** The float nearest to the rational [numerator / denominator] with
    the given sign, ties to the even mantissa. *)
Definition nearest (sign : bool) (numerator denominator : positive) : float :=
  SF2Prim (SFdiv prec emax (S754_finite sign numerator 0)
             (S754_finite false denominator 0)).

(** [float(n)] for an [int], as the arithmetic converts the integer
    operand of a mixed operation. The [OverflowError] of an integer
    beyond the range of [float] does not arise for [50], [2] and the
    remainders that the handler converts. *)
Definition float_of_int (n : Z) : float :=
  match n with
  | Z0 => 0%float
  | Z.pos p => nearest false p 1
  | Z.neg p => nearest true p 1
  end.

(** Rounding to the nearest integer, ties to the even one. *)
Definition round_half_even (x : Q) : Z :=
  let f := Qfloor x in
  match Qcompare (x - inject_Z f)%Q (1 # 2)%Q with
  | Lt => f
  | Gt => (f + 1)%Z
  | Eq => if Z.even f then f else (f + 1)%Z
  end.

(** [round(x, ndigits)] for a float and [ndigits >= 0]: the exact
    value of [x] is rounded to [ndigits] decimal places, ties to the
    even digit, and the decimal number obtained is read back as the
    float nearest to it. Zeros, infinities and NaN round to
    themselves, and so does every float when [ndigits] is above
    323. *)
Definition round (x : float) (ndigits : nat) : float :=
  if (323 <? ndigits)%nat then x
  else
    match Prim2SF x with
    | S754_finite sign m e =>
        let scale := (10 ^ Z.of_nat ndigits)%Z in
        match round_half_even (inject_Z (Z.pos m) * Qpower 2 e * inject_Z scale)%Q with
        | Z.pos r => nearest sign r (Z.to_pos scale)
        | _ => if sign then (-0)%float else 0%float
        end
    | _ => x
    end.

(** [int(x)], for the exact value [x] of a finite float: truncation
    toward zero. *)
Definition int (x : Q) : Z := Z.quot (Qnum x) (Z.pos (Qden x)).

(** The local variables [kv_cache_usage] and [gpu_utilization] of the
    handler, for the incremented [request_count]. *)
Definition kv_cache_usage (request_count : Z) : float :=
  (0.3 + float_of_int (request_count mod 10) * 0.07)%float.

Definition gpu_utilization (request_count : Z) : float :=
  (float_of_int 50 + float_of_int (request_count mod 20) * 2.5)%float.

(** [handle_stats_request]: [time] is the exact value of the float
    that [time.time()] answers and [random] what [random.random()]
    answers. The result is the new value of [request_count] and the
    statistics yielded. *)
Definition handle_stats_request (request_count : Z) (time : Q) (random : float) :
  Z * Stats :=
  let request_count := (request_count + 1)%Z in
  let active_requests := (request_count mod 15)%Z in
  (request_count,
   {| schema_version := 1;
      worker_id := "mock-worker-1";
      backend := "vllm";
      ts := int time;
      gauges :=
        {| kv_cache_usage_perc := round (kv_cache_usage request_count) 2;
           gpu_utilization_perc := round (gpu_utilization request_count) 1;
           active_requests := active_requests;
           memory_used_gb := round (12.5 + random * float_of_int 2)%float 2 |};
      counters :=
        {| total_requests := request_count;
           total_tokens_generated := (request_count * 127)%Z |} |}).

(** The endpoint serving one request after another: each is given the
    clock and the random number it reads. *)
Fixpoint serve (request_count : Z) (requests : list (Q * float)) : Z * list Stats :=
  match requests with
  | [] => (request_count, [])
  | (time, random) :: rest =>
      let '(request_count, stats) := handle_stats_request request_count time random in
      let '(request_count, more) := serve request_count rest in
      (request_count, stats :: more)
  end.

(** The values the source's comments announce for the two cycling
    gauges: from 0.3 to 0.93 in steps of 0.07, and from 50 to 97.5 in
    steps of 2.5. *)
Definition kv_cache_usage_cycle : list float :=
  [0.3; 0.37; 0.44; 0.51; 0.58; 0.65; 0.72; 0.79; 0.86; 0.93]%float.

Definition gpu_utilization_cycle : list float :=
  [50; 52.5; 55; 57.5; 60; 62.5; 65; 67.5; 70; 72.5;
   75; 77.5; 80; 82.5; 85; 87.5; 90; 92.5; 95; 97.5]%float.

End MockNim.

(** * Properties *)

(** ** KV transfer metrics *)

Module KvMetricsFacts.
Import KvMetrics.

Lemma py_lt_iff (x y : Q) : py_lt x y = true <-> (x < y)%Q.
Proof.
  unfold py_lt. rewrite negb_true_iff.
  split.
  - intros H. apply Qnot_le_lt. intros Hle.
    apply Qle_bool_iff in Hle. congruence.
  - intros H. destruct (Qle_bool y x) eqn:E; [|reflexivity].
    apply Qle_bool_iff in E. exfalso. exact (Qlt_not_le _ _ H E).
Qed.

Lemma py_lt_false_iff (x y : Q) : py_lt x y = false <-> ~ (x < y)%Q.
Proof.
  rewrite <- py_lt_iff. destruct (py_lt x y); split; intros; congruence.
Qed.

Lemma Qeq_bool_false_iff (x y : Q) : Qeq_bool x y = false <-> ~ (x == y)%Q.
Proof.
  rewrite <- Qeq_bool_iff. destruct (Qeq_bool x y); split; intros; congruence.
Qed.

Lemma total_time_nonzero (start end_ : Q) :
  (start < end_)%Q -> Qeq_bool (end_ - start) 0 = false.
Proof.
  intros H. apply Qeq_bool_false_iff. intros E.
  apply (Qlt_minus_iff start end_) in H.
  unfold Qminus in E. rewrite E in H. exact (Qlt_irrefl 0 H).
Qed.

Lemma result_zero (bytes start end_ : Q) :
  (bytes == 0)%Q ->
  calculate_kv_perf_metrics bytes start end_ = ([], Returned (-1) (-1)).
Proof.
  intros H. unfold calculate_kv_perf_metrics.
  apply Qeq_bool_iff in H. now rewrite H.
Qed.

Lemma result_transfer (bytes start end_ : Q) :
  ~ (bytes == 0)%Q -> (start < end_)%Q ->
  calculate_kv_perf_metrics bytes start end_ =
    ([OpAssert; OpSub; OpDiv],
     Returned (end_ - start) (bytes / (end_ - start))%Q).
Proof.
  intros Hb Hlt. unfold calculate_kv_perf_metrics.
  apply Qeq_bool_false_iff in Hb. rewrite Hb.
  apply py_lt_iff in Hlt. rewrite Hlt. cbn [negb].
  apply py_lt_iff in Hlt. now rewrite (total_time_nonzero _ _ Hlt).
Qed.

Lemma result_assert (bytes start end_ : Q) :
  ~ (bytes == 0)%Q -> ~ (start < end_)%Q ->
  calculate_kv_perf_metrics bytes start end_ = ([OpAssert], AssertionError).
Proof.
  intros Hb Hlt. unfold calculate_kv_perf_metrics.
  apply Qeq_bool_false_iff in Hb. rewrite Hb.
  apply py_lt_false_iff in Hlt. now rewrite Hlt.
Qed.

Lemma result_cases (bytes start end_ : Q) :
  calculate_kv_perf_metrics bytes start end_ = ([], Returned (-1) (-1)) /\ (bytes == 0)%Q
  \/ calculate_kv_perf_metrics bytes start end_ = ([OpAssert], AssertionError)
     /\ ~ (bytes == 0)%Q /\ ~ (start < end_)%Q
  \/ calculate_kv_perf_metrics bytes start end_ =
       ([OpAssert; OpSub; OpDiv], Returned (end_ - start) (bytes / (end_ - start))%Q)
     /\ ~ (bytes == 0)%Q /\ (start < end_)%Q.
Proof.
  destruct (Qeq_dec bytes 0) as [Hb|Hb].
  - left. split; [now apply result_zero | exact Hb].
  - destruct (Qlt_le_dec start end_) as [Hlt|Hle].
    + right; right. split; [now apply result_transfer | tauto].
    + right; left.
      assert (Hn : ~ (start < end_)%Q) by (intros H; exact (Qlt_not_le _ _ H Hle)).
      split; [now apply result_assert | tauto].
Qed.

(** C2. [calculate_kv_perf_metrics(bytes, start, end)] returns the
    sentinel pair [(-1, -1)] when [bytes == 0]; when [bytes != 0] it
    needs [start < end] (the [assert] fails otherwise) and returns
    [(end - start, bytes / (end - start))]. In particular
    [calculate_kv_perf_metrics(1024, 0, 2) == (2, 512)], and
    [calculate_kv_perf_metrics(0, t0, t1) == (-1, -1)] for any
    [t0 < t1]. *)
Theorem calculate_kv_perf_metrics_spec (bytes start end_ : Q) :
  ((bytes == 0)%Q -> result bytes start end_ = Returned (-1) (-1)) /\
  (~ (bytes == 0)%Q -> (start < end_)%Q ->
   result bytes start end_ = Returned (end_ - start) (bytes / (end_ - start))%Q) /\
  (~ (bytes == 0)%Q -> ~ (start < end_)%Q ->
   result bytes start end_ = AssertionError) /\
  py_eq (result 1024 0 2) (Returned 2 512) /\
  (forall t0 t1 : Q, (t0 < t1)%Q -> py_eq (result 0 t0 t1) (Returned (-1) (-1))).
Proof.
  unfold result. split; [|split; [|split; [|split]]].
  - intros H. now rewrite result_zero.
  - intros Hb Hlt. now rewrite result_transfer.
  - intros Hb Hlt. now rewrite result_assert.
  - split; reflexivity.
  - intros t0 t1 _. rewrite result_zero by reflexivity. split; reflexivity.
Qed.

Lemma calculate_kv_perf_metrics_spec_witness :
  result 1024 0 2 = Returned (2 - 0) (1024 / (2 - 0))%Q
  /\ result 0 5 3 = Returned (-1) (-1)
  /\ result 7 5 3 = AssertionError.
Proof.
  split; [|split].
  - apply (proj1 (proj2 (calculate_kv_perf_metrics_spec 1024 0 2))).
    + discriminate.
    + reflexivity.
  - apply (proj1 (calculate_kv_perf_metrics_spec 0 5 3)). reflexivity.
  - apply (proj1 (proj2 (proj2 (calculate_kv_perf_metrics_spec 7 5 3)))).
    + discriminate.
    + discriminate.
Defined.

(** C10. With [bytes == 0] the call returns [(-1, -1)] for all [start]
    and [end], [start >= end] included, and evaluates neither the
    [assert] nor the division; the [AssertionError] and the division
    are reached only when [bytes != 0]; the call returns a pair
    whenever [bytes == 0] or [start < end]. *)
Theorem calculate_kv_perf_metrics_zero_bytes (bytes start end_ : Q) :
  calculate_kv_perf_metrics 0 start end_ = ([], Returned (-1) (-1)) /\
  ((bytes == 0)%Q ->
   calculate_kv_perf_metrics bytes start end_ = ([], Returned (-1) (-1))) /\
  (In OpAssert (evaluated bytes start end_) -> ~ (bytes == 0)%Q) /\
  (In OpDiv (evaluated bytes start end_) -> ~ (bytes == 0)%Q) /\
  (result bytes start end_ = AssertionError ->
   ~ (bytes == 0)%Q /\ ~ (start < end_)%Q) /\
  result bytes start end_ <> ZeroDivisionError /\
  ((bytes == 0)%Q \/ (start < end_)%Q -> returns (result bytes start end_)).
Proof.
  unfold evaluated, result, returns.
  split; [apply result_zero; reflexivity|].
  split; [apply result_zero|].
  destruct (result_cases bytes start end_) as [[E Hb]|[[E [Hb Hlt]]|[E [Hb Hlt]]]];
    rewrite E; cbn [fst snd In];
    (split; [|split; [|split; [|split]]]);
    try discriminate; try tauto; intros _; eauto.
Qed.

Lemma calculate_kv_perf_metrics_zero_bytes_witness :
  calculate_kv_perf_metrics 0 9 4 = ([], Returned (-1) (-1))
  /\ returns (result 0 9 4)
  /\ returns (result 1024 0 2)
  /\ ~ (7 == 0)%Q.
Proof.
  split; [|split; [|split]].
  - apply (proj1 (proj2 (calculate_kv_perf_metrics_zero_bytes 0 9 4))). reflexivity.
  - apply (proj2 (proj2 (proj2 (proj2 (proj2 (proj2
      (calculate_kv_perf_metrics_zero_bytes 0 9 4))))))).
    left. reflexivity.
  - apply (proj2 (proj2 (proj2 (proj2 (proj2 (proj2
      (calculate_kv_perf_metrics_zero_bytes 1024 0 2))))))).
    right. reflexivity.
  - apply (proj1 (proj2 (proj2 (calculate_kv_perf_metrics_zero_bytes 7 5 3)))).
    left. reflexivity.
Defined.

End KvMetricsFacts.

(** ** The TensorRT-LLM handler *)

Module TrtllmFacts.
Import Py Trtllm.

(** *** The shape of a run *)

Lemma generate_locally_publisher_error env h request embeddings e :
  publishers_error h = Some e ->
  generate_locally env h request embeddings =
    {| events := []; raised := Some e; request_after := request; handler_after := h |}.
Proof. intros H. unfold generate_locally. now rewrite H. Qed.

Lemma generate_locally_rejected env h request embeddings request1 e :
  publishers_error h = None ->
  decode_disaggregated_params (codec env) (disaggregation_mode h) request
    = (request1, inl e) ->
  generate_locally env h request embeddings =
    {| events := []; raised := Some e; request_after := request1; handler_after := h |}.
Proof. intros Hp Hd. unfold generate_locally. now rewrite Hp, Hd. Qed.

Lemma generate_locally_no_max_tokens env h request embeddings request1 dp e :
  publishers_error h = None ->
  decode_disaggregated_params (codec env) (disaggregation_mode h) request
    = (request1, inr dp) ->
  derive_sampling_params (default_sampling_params h) request1 = inl e ->
  generate_locally env h request embeddings =
    {| events := []; raised := Some e; request_after := request1; handler_after := h |}.
Proof. intros Hp Hd Hs. unfold generate_locally. now rewrite Hp, Hd, Hs. Qed.

Lemma generate_locally_engine_call env h request embeddings request1 dp sp :
  publishers_error h = None ->
  decode_disaggregated_params (codec env) (disaggregation_mode h) request
    = (request1, inr dp) ->
  derive_sampling_params (default_sampling_params h) request1 = inr sp ->
  let inputs := processed_input_of h request embeddings in
  let sp' := install_test_logits_processor env sp in
  let streaming := negb (is_prefill (disaggregation_mode h)) in
  let loop :=
    stream_loop (codec env) h (request_id_of request1) (model_name_of request1) 0
      (generate_async env inputs sp' dp streaming) in
  generate_locally env h request embeddings =
    {| events := EngineCall inputs sp' dp streaming :: loop.1.1;
       raised := loop.1.2; request_after := request1; handler_after := loop.2 |}.
Proof.
  intros Hp Hd Hs. unfold generate_locally, processed_input_of.
  rewrite Hp, Hd, Hs. cbv zeta.
  now destruct (stream_loop _ _ _ _ _ _) as [[evs r] h'].
Qed.






Lemma start_publisher_no_engine_call h :
  engine_calls (start_publisher h).1 = [].
Proof. unfold start_publisher. now destruct (_ && _). Qed.

Lemma publish_kv_metrics_no_engine_call h output evs :
  publish_kv_metrics h output = inr evs -> engine_calls evs = [].
Proof.
  unfold publish_kv_metrics. intros H.
  repeat match type of H with
         | context [match ?x with _ => _ end] => destruct x
         end; inversion H; reflexivity.
Qed.

Lemma engine_calls_app (a b : list event) :
  engine_calls (a ++ b) = engine_calls a ++ engine_calls b.
Proof. apply List.filter_app. Qed.

(** The loop over the engine's stream never calls the engine again. *)
Lemma stream_loop_no_engine_call c request_id model_name stream :
  forall h n, engine_calls (stream_loop c h request_id model_name n stream).1.1 = [].
Proof.
  induction stream as [|res rest IH]; intros h n; [reflexivity|].
  cbn [stream_loop].
  pose proof (start_publisher_no_engine_call h) as Hs.
  destruct (start_publisher h) as [started h1]. cbn [fst] in Hs.
  destruct (finished res && negb (is_prefill (disaggregation_mode h1))).
  - destruct (outputs res) as [|output ?]; [exact Hs|].
    destruct (publish_kv_metrics h1 output) as [e|published] eqn:Hk; [exact Hs|].
    cbn [fst]. rewrite !engine_calls_app, Hs.
    now rewrite (publish_kv_metrics_no_engine_call _ _ _ Hk).
  - destruct (outputs res) as [|output ?].
    + cbn [fst]. now rewrite engine_calls_app, Hs.
    + destruct (delta_chunk _ _ _ _ _ _) as [e|out]; [exact Hs|].
      specialize (IH h1 (length (out_token_ids output))).
      destruct (stream_loop _ _ _ _ _ rest) as [[evs r] h'].
      cbn [fst] in *. rewrite engine_calls_app, Hs. exact IH.
Qed.

(** *** What the handler does to the request *)





(** *** Deriving the sampling parameters *)

Lemma merge_option_lookup_ne (sp : gmap string value) k v key :
  k <> key -> merge_option sp (k, v) !! key = sp !! key.
Proof.
  intros Hne. unfold merge_option.
  destruct (negb (truthy v)); [reflexivity|].
  destruct (decide (is_Some (sp !! k))); [|reflexivity].
  now rewrite lookup_insert_ne.
Qed.

Lemma merge_option_lookup_eq (sp : gmap string value) k v :
  merge_option sp (k, v) !! k =
    match sp !! k with
    | Some d => if truthy v then Some v else Some d
    | None => None
    end.
Proof.
  unfold merge_option. destruct (truthy v); cbn [negb].
  - destruct (decide (is_Some (sp !! k))) as [[d Hd]|Hn].
    + now rewrite lookup_insert_eq, Hd.
    + destruct (sp !! k) eqn:E; [|reflexivity]. exfalso. apply Hn. eauto.
  - now destruct (sp !! k).
Qed.

Lemma merge_sampling_options_notin items :
  forall (sp : gmap string value) key,
    key ∉ items.*1 -> merge_sampling_options sp items !! key = sp !! key.
Proof.
  unfold merge_sampling_options.
  induction items as [|[k v] items IH]; intros sp key Hnotin; [reflexivity|].
  cbn [fold_left]. rewrite fmap_cons, not_elem_of_cons in Hnotin.
  destruct Hnotin as [Hne Hnotin]. cbn [fst] in Hne.
  rewrite IH by exact Hnotin. apply merge_option_lookup_ne. congruence.
Qed.

(** The loop over the sampling options, attribute by attribute. *)
Lemma merge_sampling_options_lookup items :
  forall (sp : gmap string value) key,
    NoDup items.*1 ->
    merge_sampling_options sp items !! key =
      match sp !! key, (list_to_map items : gmap string value) !! key with
      | Some d, Some v => if truthy v then Some v else Some d
      | d, _ => d
      end.
Proof.
  induction items as [|[k v] items IH]; intros sp key Hnd.
  - cbn. rewrite lookup_empty. now destruct (sp !! key).
  - rewrite fmap_cons, NoDup_cons in Hnd. destruct Hnd as [Hk Hnd]. cbn [fst] in Hk.
    change (merge_sampling_options sp ((k, v) :: items))
      with (merge_sampling_options (merge_option sp (k, v)) items).
    cbn [list_to_map foldr]. cbn [uncurry fst snd].
    destruct (decide (k = key)) as [->|Hne].
    + rewrite merge_sampling_options_notin by exact Hk.
      rewrite merge_option_lookup_eq, lookup_insert_eq.
      now destruct (sp !! key).
    + rewrite IH by exact Hnd.
      rewrite merge_option_lookup_ne by exact Hne.
      now rewrite lookup_insert_ne.
Qed.

Lemma override_if_supplied_lookup attr v (sp : gmap string value) key :
  override_if_supplied attr v sp !! key =
    if String.eqb key attr && truthy v then Some v else sp !! key.
Proof.
  unfold override_if_supplied.
  destruct (truthy v); [|now rewrite andb_false_r].
  rewrite andb_true_r. destruct (String.eqb_spec key attr) as [->|Hne].
  - apply lookup_insert_eq.
  - apply lookup_insert_ne. congruence.
Qed.


Lemma derive_sampling_params_lookup defaults request items sc mt sp key :
  sampling_options request = Some items ->
  stop_conditions request = Some sc ->
  max_tokens sc = Some mt ->
  derive_sampling_params defaults request = inr sp ->
  sp !! key =
    if String.eqb key "min_tokens" && truthy (default VNone (min_tokens sc))
    then Some (default VNone (min_tokens sc))
    else if String.eqb key "ignore_eos" && truthy (default VNone (ignore_eos sc))
    then Some (default VNone (ignore_eos sc))
    else if String.eqb key "max_tokens" && truthy mt then Some mt
    else merge_sampling_options defaults items !! key.
Proof.
  intros Hitems Hsc Hmt. unfold derive_sampling_params.
  rewrite Hitems, Hsc, Hmt. intros [= <-].
  now rewrite !override_if_supplied_lookup.
Qed.

Lemma derive_sampling_params_returns defaults request items sc mt :
  sampling_options request = Some items ->
  stop_conditions request = Some sc ->
  max_tokens sc = Some mt ->
  exists sp, derive_sampling_params defaults request = inr sp.
Proof.
  intros Hitems Hsc Hmt. unfold derive_sampling_params.
  rewrite Hitems, Hsc, Hmt. eauto.
Qed.

(** The sampling parameters the handler derives, attribute by
    attribute, and the engine call that receives them. [request] is the
    request as validated ([max_tokens] forced to [1] in PREFILL
    mode). *)
Lemma derive_sampling_params_attributes defaults request items sc mt :
  sampling_options request = Some items ->
  NoDup items.*1 ->
  stop_conditions request = Some sc ->
  max_tokens sc = Some mt ->
  exists sp,
    derive_sampling_params defaults request = inr sp /\
    (forall key,
       sp !! key =
         described_attribute defaults (list_to_map items) mt
           (default VNone (ignore_eos sc)) (default VNone (min_tokens sc)) key) /\
    (forall env h embeddings request0 dp,
       default_sampling_params h = defaults ->
       publishers_error h = None ->
       decode_disaggregated_params (codec env) (disaggregation_mode h) request0
         = (request, inr dp) ->
       exists evs,
         events (generate_locally env h request0 embeddings) =
           EngineCall (processed_input_of h request0 embeddings)
             (install_test_logits_processor env sp) dp
             (negb (is_prefill (disaggregation_mode h))) :: evs
         /\ engine_calls evs = []).
Proof.
  intros Hitems Hnd Hsc Hmt.
  destruct (derive_sampling_params_returns defaults request items sc mt Hitems Hsc Hmt)
    as [sp Hs].
  exists sp. split; [exact Hs|]. split.
  - intros key. rewrite (derive_sampling_params_lookup _ _ _ _ _ _ key Hitems Hsc Hmt Hs).
    unfold described_attribute.
    now rewrite merge_sampling_options_lookup by exact Hnd.
  - intros env h embeddings request0 dp <- Hp Hd.
    rewrite (generate_locally_engine_call _ _ _ _ _ _ _ Hp Hd Hs). cbn [events].
    eexists. split; [reflexivity|]. apply stream_loop_no_engine_call.
Qed.

(** *** Validation by mode *)



(** C4 fails as stated. A PREFILL handler whose publisher has an error
    queued raises that error for a request that carries
    [disaggregated_params], not [ValueError], and leaves [max_tokens]
    as it was; and a request without stop conditions fails with
    [KeyError] before its [disaggregated_params] are looked at. *)
Lemma prefill_validation_is_not_reached :
  raised (generate_locally Samples.two_step_engine
            (Samples.trt_failing_publisher_handler PREFILL)
            (Samples.trt_request [] (VInt 5) (Some Samples.wire_params)) None)
    = Some (PublisherError "publisher failed")
  /\ max_tokens <$> stop_conditions
       (request_left Samples.two_step_engine
          (Samples.trt_failing_publisher_handler PREFILL)
          (Samples.trt_request [] (VInt 5) (Some Samples.wire_params)) None)
     = Some (Some (VInt 5))
  /\ raised (generate_locally Samples.two_step_engine (Samples.trt_handler PREFILL)
               (Samples.trt_request_without_stop_conditions (Some Samples.wire_params))
               None)
     = Some (KeyError "stop_conditions").
Proof. now repeat split. Qed.



(** C5 fails as stated. A DECODE handler whose publisher has an error
    queued raises that error for a request without
    [disaggregated_params], not [ValueError]. *)
Lemma decode_validation_is_not_reached :
  disaggregated_params (Samples.trt_request [] (VInt 5) None) = None
  /\ raised (generate_locally Samples.two_step_engine
               (Samples.trt_failing_publisher_handler DECODE)
               (Samples.trt_request [] (VInt 5) None) None)
     = Some (PublisherError "publisher failed")
  /\ raised (generate_locally Samples.two_step_engine
               (Samples.trt_failing_publisher_handler DECODE)
               (Samples.trt_request [] (VInt 5) None) None)
     <> Some (ValueError "Disaggregated params are required for decode mode").
Proof. repeat split; discriminate. Qed.

(** *** The stream of chunks *)

Lemma yielded_app (a b : list event) : yielded (a ++ b) = yielded a ++ yielded b.
Proof. apply omap_app. Qed.

Lemma start_publisher_yields h : yielded (start_publisher h).1 = [].
Proof. unfold start_publisher. now destruct (_ && _). Qed.

Lemma publish_kv_metrics_yields h output evs :
  publish_kv_metrics h output = inr evs -> yielded evs = [].
Proof.
  unfold publish_kv_metrics. intros H.
  repeat match type of H with
         | context [match ?x with _ => _ end] => destruct x
         end; inversion H; reflexivity.
Qed.

(** The chunk that ends a stream carries no token and the reason
    ["stop"], whatever the engine has put on the finished output. *)
Lemma final_chunk_fields h output request_id model_name :
  multimodal_processor h = None ->
  chunk_token_ids (final_chunk h output request_id model_name) = Some []
  /\ chunk_finish_reason (final_chunk h output request_id model_name) = Some "stop"
  /\ chunk_stop_reason (final_chunk h output request_id model_name) = None.
Proof.
  intros Hmm. unfold final_chunk. rewrite Hmm.
  now destruct (out_disaggregated_params output).
Qed.




End TrtllmFacts.

(** ** The SGLang handlers *)

Module SglangFacts.
Import Py Sglang Sglang.DecodeWorkerHandler.

(** *** The monitor *)

Lemma start_monitor_inr context task res entered task' :
  start_monitor context task res = inr (entered, task') ->
  (entered = [] /\ task' = task)
  \/ (task = None /\ is_Some context
      /\ exists rid, entered = [MonitorEnter rid] /\ task' = Some rid).
Proof.
  unfold start_monitor, monitor_enter.
  destruct context as [c|], task as [rid|]; try (intros [= <- <-]; now left).
  destruct (meta_info res) as [| |mi]; try (intros [= <- <-]; now left).
  destruct (str_truthy _); intros [= <- <-]; [|now left].
  right. repeat split; eauto.
Qed.

Lemma start_monitor_inl context task res e :
  start_monitor context task res = inl e ->
  e = AttributeError "get" /\ task = None /\ is_Some context /\ meta_info res = Null.
Proof.
  unfold start_monitor.
  destruct context as [c|], task as [rid|]; try discriminate.
  destruct (meta_info res) as [| |mi]; try discriminate.
  - intros [= <-]. repeat split; eauto.
  - destruct (str_truthy _); discriminate.
Qed.


Lemma running_monitor_app task a b :
  running_monitor task (a ++ b) = running_monitor (running_monitor task a) b.
Proof.
  revert task. induction a as [|e a IH]; intros task; [reflexivity|].
  destruct e; cbn; apply IH.
Qed.

Lemma start_monitor_running context task res entered task' :
  start_monitor context task res = inr (entered, task') ->
  running_monitor task entered = task'.
Proof.
  intros H. apply start_monitor_inr in H as [[-> ->]|[-> [_ [rid [-> ->]]]]];
    reflexivity.
Qed.

Lemma cleanup_running task : running_monitor task (cleanup task) = None.
Proof. now destruct task. Qed.

(** A token stream that ends without raising, by exhaustion of the
    engine's stream or by the cancellation check, leaves no monitor
    task behind. *)
Lemma token_loop_joins_monitor context failure stream :
  forall tick n task,
    raised (token_loop context failure tick n task stream) = None ->
    running_monitor task (events (token_loop context failure tick n task stream)) = None.
Proof.
  induction stream as [|res rest IH]; intros tick n task Hr.
  { cbn [token_loop] in *. destruct failure; [discriminate|apply cleanup_running]. }
  cbn [token_loop] in *.
  destruct (start_monitor context task res) as [e|[entered task']] eqn:Hsm;
    [discriminate|].
  pose proof (start_monitor_running _ _ _ _ _ Hsm) as Hm.
  destruct (cancelled context tick).
  { cbn [events]. rewrite running_monitor_app, Hm. apply cleanup_running. }
  destruct (read_finish_reason res) as [e|finish_reason]; [discriminate|].
  destruct (if_finish_reason finish_reason) as [fr|].
  - destruct (fr_type fr); [|discriminate].
    cbn [events raised] in *. rewrite running_monitor_app, Hm. cbn. now apply IH.
  - destruct (output_ids res); [|discriminate].
    cbn [events raised] in *. rewrite running_monitor_app, Hm. cbn. now apply IH.
Qed.

Lemma text_loop_joins_monitor env config context failure stream :
  forall tick n task,
    raised (text_loop env config context failure tick n task stream) = None ->
    running_monitor task
      (events (text_loop env config context failure tick n task stream)) = None.
Proof.
  induction stream as [|res rest IH]; intros tick n task Hr.
  { cbn [text_loop] in *. destruct failure; [discriminate|apply cleanup_running]. }
  cbn [text_loop] in *.
  destruct (start_monitor context task res) as [e|[entered task']] eqn:Hsm;
    [discriminate|].
  pose proof (start_monitor_running _ _ _ _ _ Hsm) as Hm.
  destruct (cancelled context tick).
  { cbn [events]. rewrite running_monitor_app, Hm. apply cleanup_running. }
  destruct (read_finish_reason res) as [e|finish_reason]; [discriminate|].
  destruct (finish_reason_type_of finish_reason) as [e|t]; [discriminate|].
  destruct (read_id res); [|discriminate].
  cbn [events raised] in *. rewrite running_monitor_app, Hm. cbn. now apply IH.
Qed.

(** C7 fails on the code. The second snapshot of the stream lacks its
    [output_ids]: the monitor task created at the first snapshot is
    still running when the [ValueError] leaves the stream function,
    because the clean-up after the loop is never reached. *)
Theorem token_stream_error_leaks_monitor :
  events (_process_token_stream (Some Samples.quiet_context) 0
            (Samples.sg_stream
               [Samples.sg_tokens (Some [4]) None; Samples.sg_tokens None None]))
    = [MonitorEnter "rid-1";
       Yield (TokenItem {| chunk_token_ids := [4]; chunk_finish_reason := None |})]
  /\ raised (_process_token_stream (Some Samples.quiet_context) 0
               (Samples.sg_stream
                  [Samples.sg_tokens (Some [4]) None; Samples.sg_tokens None None]))
     = Some (ValueError "Missing 'output_ids' in response.")
  /\ running_monitor None
       (events (_process_token_stream (Some Samples.quiet_context) 0
                  (Samples.sg_stream
                     [Samples.sg_tokens (Some [4]) None; Samples.sg_tokens None None])))
     = Some "rid-1"
  /\ ~ In (MonitorExit "rid-1")
       (events (_process_token_stream (Some Samples.quiet_context) 0
                  (Samples.sg_stream
                     [Samples.sg_tokens (Some [4]) None; Samples.sg_tokens None None]))).
Proof.
  repeat split; try reflexivity.
  cbn. intros [H|[H|[]]]; discriminate.
Qed.

(** *** The stream of chunks *)


Lemma chat_chunks_app (a b : list event) :
  chat_chunks (a ++ b) = chat_chunks a ++ chat_chunks b.
Proof. apply omap_app. Qed.

Lemma start_monitor_chunks context task res entered task' :
  start_monitor context task res = inr (entered, task') ->
  token_chunks entered = []
  /\ chat_chunks entered = []
  /\ engine_call_events entered = []
  /\ prefill_reads entered = []
  /\ yielded_items entered = [].
Proof.
  intros H. apply start_monitor_inr in H as [[-> ->]|[-> [_ [rid [-> ->]]]]];
    now repeat split.
Qed.

Lemma cleanup_chunks task :
  token_chunks (cleanup task) = []
  /\ chat_chunks (cleanup task) = []
  /\ engine_call_events (cleanup task) = []
  /\ prefill_reads (cleanup task) = [].
Proof. now destruct task. Qed.













(** *** The stream functions call neither the engine nor the prefill worker *)

Lemma engine_call_events_app (a b : list event) :
  engine_call_events (a ++ b) = engine_call_events a ++ engine_call_events b.
Proof. apply List.filter_app. Qed.

Lemma prefill_reads_app (a b : list event) :
  prefill_reads (a ++ b) = prefill_reads a ++ prefill_reads b.
Proof. apply List.filter_app. Qed.

Lemma token_loop_calls context failure stream :
  forall tick n task,
    engine_call_events (events (token_loop context failure tick n task stream)) = []
    /\ prefill_reads (events (token_loop context failure tick n task stream)) = [].
Proof.
  induction stream as [|res rest IH]; intros tick n task.
  { cbn [token_loop]. destruct failure; [now split|]. cbn [events].
    now destruct (cleanup_chunks task) as [_ [_ [-> ->]]]. }
  cbn [token_loop].
  destruct (start_monitor context task res) as [e|[entered task']] eqn:Hsm;
    [now split|].
  destruct (start_monitor_chunks _ _ _ _ _ Hsm) as [_ [_ [He [Hp _]]]].
  destruct (cancelled context tick).
  { cbn [events]. rewrite engine_call_events_app, prefill_reads_app, He, Hp.
    now destruct (cleanup_chunks task') as [_ [_ [-> ->]]]. }
  destruct (read_finish_reason res) as [e|finish_reason]; [now split|].
  destruct (if_finish_reason finish_reason) as [fr|].
  - destruct (fr_type fr); [|now split].
    cbn [events]. rewrite engine_call_events_app, prefill_reads_app, He, Hp. apply IH.
  - destruct (output_ids res); [|now split].
    cbn [events]. rewrite engine_call_events_app, prefill_reads_app, He, Hp. apply IH.
Qed.

Lemma text_loop_calls env config context failure stream :
  forall tick n task,
    engine_call_events (events (text_loop env config context failure tick n task stream))
      = []
    /\ prefill_reads (events (text_loop env config context failure tick n task stream))
       = [].
Proof.
  induction stream as [|res rest IH]; intros tick n task.
  { cbn [text_loop]. destruct failure; [now split|]. cbn [events].
    now destruct (cleanup_chunks task) as [_ [_ [-> ->]]]. }
  cbn [text_loop].
  destruct (start_monitor context task res) as [e|[entered task']] eqn:Hsm;
    [now split|].
  destruct (start_monitor_chunks _ _ _ _ _ Hsm) as [_ [_ [He [Hp _]]]].
  destruct (cancelled context tick).
  { cbn [events]. rewrite engine_call_events_app, prefill_reads_app, He, Hp.
    now destruct (cleanup_chunks task') as [_ [_ [-> ->]]]. }
  destruct (read_finish_reason res) as [e|finish_reason]; [now split|].
  destruct (finish_reason_type_of finish_reason) as [e|t]; [now split|].
  destruct (read_id res); [|now split].
  cbn [events]. rewrite engine_call_events_app, prefill_reads_app, He, Hp. apply IH.
Qed.

Lemma process_stream_calls env config context tick stream :
  engine_call_events (events (process_stream env config context tick stream)) = []
  /\ prefill_reads (events (process_stream env config context tick stream)) = [].
Proof.
  unfold process_stream, _process_token_stream, _process_text_stream.
  destruct (skip_tokenizer_init config);
    [apply token_loop_calls | apply text_loop_calls].
Qed.

(** *** The sampling parameters of the SGLang engine call *)

Lemma list_to_map_filter_not_None (l : list (string * value)) key :
  NoDup l.*1 ->
  (list_to_map (List.filter (fun kv => is_not_None kv.2) l) : gmap string value) !! key
  = match (list_to_map l : gmap string value) !! key with
    | Some v => if is_not_None v then Some v else None
    | None => None
    end.
Proof.
  induction l as [|[k v] l IH]; intros Hnd; [cbn; now rewrite lookup_empty|].
  rewrite fmap_cons, NoDup_cons in Hnd. destruct Hnd as [Hk Hnd]. cbn [fst] in Hk.
  specialize (IH Hnd). cbn [List.filter snd list_to_map foldr uncurry fst].
  destruct (decide (k = key)) as [->|Hne].
  - rewrite lookup_insert_eq.
    destruct (is_not_None v); [apply lookup_insert_eq|].
    rewrite IH. now rewrite (not_elem_of_list_to_map_1 _ _ Hk).
  - rewrite lookup_insert_ne by exact Hne.
    destruct (is_not_None v); [|exact IH].
    cbn [list_to_map foldr uncurry fst snd]. now rewrite lookup_insert_ne.
Qed.

(** The SGLang handler keeps no defaults of its own: what it hands to
    the engine are the mapped fields of the request whose value is not
    [None]. *)
Lemma build_sampling_params_lookup config request key :
  _build_sampling_params config request !! key
  = match (list_to_map (param_mapping config request) : gmap string value) !! key with
    | Some v => if is_not_None v then Some v else None
    | None => None
    end.
Proof.
  unfold _build_sampling_params. apply list_to_map_filter_not_None.
  unfold param_mapping. destruct (skip_tokenizer_init config); cbn;
    apply (bool_decide_unpack _); vm_compute; exact I.
Qed.

Lemma get_supplied (d : gmap string value) key :
  (if is_not_None (get d key) then Some (get d key) else None)
  = SglangView.supplied d key.
Proof.
  unfold get, SglangView.supplied. destruct (d !! key) as [v|]; [|reflexivity].
  now destruct v.
Qed.

(** Field by field: which key of the request reaches the engine under
    which name. *)
Lemma build_sampling_params_fields config request :
  _build_sampling_params config request !! "temperature"
    = SglangView.supplied (SglangView.sampling_source config request) "temperature"
  /\ _build_sampling_params config request !! "top_p"
     = SglangView.supplied (SglangView.sampling_source config request) "top_p"
  /\ _build_sampling_params config request !! "top_k"
     = SglangView.supplied (SglangView.sampling_source config request) "top_k"
  /\ _build_sampling_params config request !! "max_new_tokens"
     = SglangView.supplied (SglangView.stop_source config request) "max_tokens"
  /\ _build_sampling_params config request !! "ignore_eos"
     = (if skip_tokenizer_init config
        then SglangView.supplied (SglangView.stop_source config request) "ignore_eos"
        else None)
  /\ (forall key,
        ~ In key SglangView.engine_parameter_names ->
        _build_sampling_params config request !! key = None).
Proof.
  unfold SglangView.sampling_source, SglangView.stop_source.
  repeat split; try (intros key Hkey); rewrite build_sampling_params_lookup;
    unfold param_mapping; destruct (skip_tokenizer_init config);
    cbn [list_to_map foldr uncurry fst snd];
    try (repeat (rewrite lookup_insert_ne by discriminate);
         first [rewrite lookup_insert_eq; apply get_supplied
               |now rewrite lookup_empty]).
  all: repeat (rewrite lookup_insert_ne
                 by (intros <-; apply Hkey; cbn; tauto)).
  all: now rewrite lookup_empty.
Qed.

Lemma engine_call_args_nil (evs : list event) :
  engine_call_events evs = [] -> SglangView.engine_call_args evs = [].
Proof.
  induction evs as [|e evs IH]; [reflexivity|].
  destruct e; cbn; try exact IH. discriminate.
Qed.

(** The engine calls of a run of the decode handler. *)
Lemma generate_engine_call_args env config request context :
  SglangView.engine_call_args (events (generate env config request context))
  = match _get_input_param env config request with
    | inl _ => []
    | inr input =>
        if serves_decode (serving_mode config) then
          if cancelled context 0 then []
          else
            match prefill_client_generate env (prefill_request_of config request) with
            | [] => []
            | info :: _ =>
                [ {| input_param := input;
                     sampling_params := _build_sampling_params config request;
                     stream := true;
                     bootstrap := Some info |} ]
            end
        else
          [ {| input_param := input;
               sampling_params := _build_sampling_params config request;
               stream := true;
               bootstrap := None |} ]
    end.
Proof.
  unfold generate.
  destruct (_get_input_param env config request) as [e|input]; [reflexivity|].
  destruct (serves_decode (serving_mode config)).
  - destruct (prefill_client_generate env (prefill_request_of config request))
      as [|info more]; destruct (cancelled context 0); try reflexivity.
    cbn [events app].
    change (SglangView.engine_call_args (PrefillCall ?r :: ?evs))
      with (SglangView.engine_call_args evs).
    change (SglangView.engine_call_args (PrefillRead ?i :: ?evs))
      with (SglangView.engine_call_args evs).
    change (SglangView.engine_call_args (EngineCall ?a :: ?evs))
      with (a :: SglangView.engine_call_args evs).
    now rewrite (engine_call_args_nil _ (proj1 (process_stream_calls _ _ _ _ _))).
  - cbn [events].
    change (SglangView.engine_call_args (EngineCall ?a :: ?evs))
      with (a :: SglangView.engine_call_args evs).
    now rewrite (engine_call_args_nil _ (proj1 (process_stream_calls _ _ _ _ _))).
Qed.

(** *** The rendezvous of the decode handler with its prefill worker *)

(** C3, as the code has it. In DECODE mode the handler calls the paired
    prefill worker and reads the first item of its stream, and no
    other; then it checks the context and, if it is stopped or killed,
    ends its own stream without an item, without an error and without
    an engine call, whether or not the prefill stream gave an item;
    otherwise, if the prefill stream gave no item, it fails with
    [RuntimeError] (the spec's MissingBootstrapInfo) without an engine
    call; otherwise it calls the engine, once, after the item has been
    read and with the bootstrap data of that item. *)
Theorem decode_generate_handshake env config request context input :
  serving_mode config = DECODE ->
  _get_input_param env config request = inr input ->
  (exists rest,
     events (generate env config request context)
       = PrefillCall (prefill_request_of config request) :: rest) /\
  prefill_reads (events (generate env config request context))
    = match prefill_client_generate env (prefill_request_of config request) with
      | info :: _ => [PrefillRead info]
      | [] => []
      end /\
  (cancelled context 0 = true ->
     raised (generate env config request context) = None
     /\ yielded_items (events (generate env config request context)) = []
     /\ engine_call_events (events (generate env config request context)) = []) /\
  (cancelled context 0 = false ->
   prefill_client_generate env (prefill_request_of config request) = [] ->
     raised (generate env config request context)
       = Some (RuntimeError "No bootstrap info received from prefill worker")
     /\ yielded_items (events (generate env config request context)) = []
     /\ engine_call_events (events (generate env config request context)) = []) /\
  (forall info more,
     cancelled context 0 = false ->
     prefill_client_generate env (prefill_request_of config request) = info :: more ->
     exists args tail,
       events (generate env config request context)
         = PrefillCall (prefill_request_of config request)
           :: PrefillRead info :: EngineCall args :: tail
       /\ input_param args = input
       /\ bootstrap args = Some info
       /\ tail = events (process_stream env config context 1 (async_generate env args))
       /\ engine_call_events tail = []
       /\ prefill_reads tail = []).
Proof.
  intros Hmode Hin. unfold generate. rewrite Hin, Hmode. cbn [serves_decode].
  destruct (prefill_client_generate env (prefill_request_of config request))
    as [|info0 more0];
    destruct (cancelled context 0); cbn [events raised].
  - repeat split; eauto; try discriminate.
  - repeat split; eauto; try discriminate.
  - repeat split; eauto; try discriminate.
  - split; [eauto|]. split.
    { cbn [app]. unfold prefill_reads. cbn [List.filter is_prefill_read]. f_equal.
      apply process_stream_calls. }
    split; [discriminate|]. split; [discriminate|].
    intros info more _ [= <- <-].
    eexists _, _. split; [reflexivity|]. cbn [input_param bootstrap].
    split; [reflexivity|]. split; [reflexivity|]. split; [reflexivity|].
    apply process_stream_calls.
Qed.

Lemma decode_generate_handshake_witness :
  exists args tail,
    events (generate (Samples.sg_env [Samples.sg_bootstrap]
                        [Samples.sg_tokens (Some [4]) None])
              (Samples.sg_config DECODE true) Samples.sg_request
              (Some Samples.quiet_context))
      = PrefillCall (prefill_request_of (Samples.sg_config DECODE true) Samples.sg_request)
        :: PrefillRead Samples.sg_bootstrap :: EngineCall args :: tail
    /\ input_param args = InputIds [1; 2; 3]
    /\ bootstrap args = Some Samples.sg_bootstrap.
Proof.
  destruct (proj2 (proj2 (proj2 (proj2
              (decode_generate_handshake
                 (Samples.sg_env [Samples.sg_bootstrap] [Samples.sg_tokens (Some [4]) None])
                 (Samples.sg_config DECODE true) Samples.sg_request
                 (Some Samples.quiet_context) (InputIds [1; 2; 3]) eq_refl eq_refl))))
              Samples.sg_bootstrap [] eq_refl eq_refl)
    as [args [tail [H1 [H2 [H3 _]]]]].
  exists args, tail. split; [exact H1|]. split; [exact H2|exact H3].
Defined.

(** C3 fails as stated: when the prefill stream ends without an item
    and the context is already stopped, the request does not fail with
    [RuntimeError]; its stream ends without an error. *)
Lemma decode_generate_cancelled_without_bootstrap :
  prefill_client_generate (Samples.sg_env [] [])
    (prefill_request_of (Samples.sg_config DECODE true) Samples.sg_request) = []
  /\ raised (generate (Samples.sg_env [] []) (Samples.sg_config DECODE true)
               Samples.sg_request (Some (Samples.stopped_from 0))) = None
  /\ raised (generate (Samples.sg_env [] []) (Samples.sg_config DECODE true)
               Samples.sg_request (Some (Samples.stopped_from 0)))
     <> Some (RuntimeError "No bootstrap info received from prefill worker").
Proof. repeat split. discriminate. Qed.

(** *** The prefill handler *)

Lemma randint_range a b st : a <= b -> a <= (randint a b st).1 <= b.
Proof.
  intros Hab. unfold randint. cbn [fst].
  pose proof (Z.mod_pos_bound (raw st (cursor st)) (b - a + 1)). lia.
Qed.

Lemma consume_loop_yields context failure results :
  forall tick task,
    yielded_items
      (events (PrefillWorkerHandler.consume_loop context failure tick task results)) = [].
Proof.
  induction results as [|res rest IH]; intros tick task.
  { cbn. destruct failure; [reflexivity|now destruct task]. }
  cbn [PrefillWorkerHandler.consume_loop].
  destruct (start_monitor context task res) as [e|[entered task']] eqn:Hsm;
    [reflexivity|].
  destruct (start_monitor_chunks _ _ _ _ _ Hsm) as [_ [_ [_ [_ Hy]]]].
  destruct (cancelled context tick); cbn [events]; unfold yielded_items in *;
    rewrite omap_app, Hy; [now destruct task'|apply IH].
Qed.

(** C6. Every run of the prefill handler yields one item, first and
    alone: the bootstrap info made of the host and port of the handler
    and of a room drawn anew from [[0, 2^63 - 1]]. The engine is called
    after that item, with that room, and its results go to a task of
    their own, detached from the generator, which yields nothing. *)
Theorem prefill_generate_bootstrap env h request context random :
  (exists rest,
     events (PrefillWorkerHandler.foreground
               (PrefillWorkerHandler.generate env h request context random))
       = Yield (BootstrapItem
                  {| bootstrap_host := PrefillWorkerHandler.handler_bootstrap_host h;
                     bootstrap_port := PrefillWorkerHandler.handler_bootstrap_port h;
                     bootstrap_room := (_generate_bootstrap_room random).1 |}) :: rest
     /\ yielded_items rest = []) /\
  0 <= (_generate_bootstrap_room random).1 <= 2 ^ 63 - 1 /\
  (_generate_bootstrap_room random).1
    = raw random (cursor random) mod 2 ^ 63 /\
  cursor (PrefillWorkerHandler.random_after
            (PrefillWorkerHandler.generate env h request context random))
    = S (cursor random) /\
  (forall input,
     _get_input_param env (PrefillWorkerHandler.config h) (dpr_request request)
       = inr input ->
     exists args,
       events (PrefillWorkerHandler.foreground
                 (PrefillWorkerHandler.generate env h request context random))
         = [Yield (BootstrapItem
                     {| bootstrap_host := PrefillWorkerHandler.handler_bootstrap_host h;
                        bootstrap_port := PrefillWorkerHandler.handler_bootstrap_port h;
                        bootstrap_room := (_generate_bootstrap_room random).1 |});
            EngineCall args; CreateTask (async_generate env args)]
       /\ bootstrap args
          = Some {| bootstrap_host := PrefillWorkerHandler.handler_bootstrap_host h;
                    bootstrap_port := PrefillWorkerHandler.handler_bootstrap_port h;
                    bootstrap_room := (_generate_bootstrap_room random).1 |}
       /\ sampling_params args = dpr_sampling_params request
       /\ raised (PrefillWorkerHandler.foreground
                    (PrefillWorkerHandler.generate env h request context random)) = None
       /\ PrefillWorkerHandler.background
            (PrefillWorkerHandler.generate env h request context random)
          = Some (PrefillWorkerHandler._consume_results context (async_generate env args))
       /\ yielded_items (events (PrefillWorkerHandler._consume_results context
                             (async_generate env args))) = []).
Proof.
  unfold PrefillWorkerHandler.generate.
  pose proof (randint_range 0 (2 ^ 63 - 1) random ltac:(lia)) as Hrange.
  unfold _generate_bootstrap_room.
  destruct (randint 0 (2 ^ 63 - 1) random) as [room random'] eqn:Hr.
  cbn [fst] in *.
  assert (Hroom : room = raw random (cursor random) mod 2 ^ 63
                  /\ cursor random' = S (cursor random)).
  { unfold randint in Hr. injection Hr as <- <-. split; [|reflexivity].
    rewrite Z.add_0_l. f_equal. }
  destruct Hroom as [Hroom Hcur].
  destruct (_get_input_param env (PrefillWorkerHandler.config h) (dpr_request request))
    as [e|input0] eqn:Hin; cbn [PrefillWorkerHandler.foreground events raised
      PrefillWorkerHandler.background PrefillWorkerHandler.random_after].
  - split; [eexists; split; reflexivity|].
    split; [exact Hrange|]. split; [exact Hroom|]. split; [exact Hcur|].
    intros input [=].
  - split; [eexists; split; reflexivity|].
    split; [exact Hrange|]. split; [exact Hroom|]. split; [exact Hcur|].
    intros input [= <-]. eexists. split; [reflexivity|].
    cbn [bootstrap sampling_params]. repeat split.
    apply consume_loop_yields.
Qed.

Lemma prefill_generate_bootstrap_witness :
  exists args,
    events (PrefillWorkerHandler.foreground
              (PrefillWorkerHandler.generate
                 (Samples.sg_env [] [Samples.sg_tokens (Some [4]) None])
                 Samples.sg_prefill_handler
                 (prefill_request_of (Samples.sg_config DECODE true) Samples.sg_request)
                 (Some Samples.quiet_context) Samples.sg_random))
      = [Yield (BootstrapItem
                  {| bootstrap_host := "10.0.0.1"; bootstrap_port := 8998;
                     bootstrap_room := 5 |});
         EngineCall args;
         CreateTask (Samples.sg_stream [Samples.sg_tokens (Some [4]) None])].
Proof.
  destruct (proj2 (proj2 (proj2 (proj2
              (prefill_generate_bootstrap
                 (Samples.sg_env [] [Samples.sg_tokens (Some [4]) None])
                 Samples.sg_prefill_handler
                 (prefill_request_of (Samples.sg_config DECODE true) Samples.sg_request)
                 (Some Samples.quiet_context) Samples.sg_random))))
              (InputIds [1; 2; 3]) eq_refl)
    as [args [H _]].
  exists args. exact H.
Defined.

End SglangFacts.

(** ** The streams of both back-ends *)

Module StreamFacts.
Import Py.



(** The scenario of the spec: against an engine that streams the
    cumulative [[4]], [[4; 5]] and then [[4; 5]] finished, the
    aggregated handler yields [[4]], [[5]] and a last chunk without
    tokens whose finish reason is ["stop"]. *)
Example scenario_chunks :
  Trtllm.yielded
    (Trtllm.events
       (Trtllm.generate_locally Samples.scenario_engine
          (Samples.trt_handler Trtllm.AGGREGATED)
          (Samples.trt_request [] (VInt 5) None) None))
  = [ Trtllm.set_token_ids [4] Trtllm.empty_chunk;
      Trtllm.set_token_ids [5] Trtllm.empty_chunk;
      Trtllm.set_finish_reason "stop" (Trtllm.set_token_ids [] Trtllm.empty_chunk) ].
Proof. vm_compute. reflexivity. Qed.




End StreamFacts.

(** ** The sampling parameters of both back-ends *)

Module SamplingFacts.
Import Py.

(** C8, as the code has it. In the TensorRT-LLM handler, for a request
    that has its sampling options and a [max_tokens] among its stop
    conditions, the sampling parameters of the engine call are a copy
    of the defaults of the handler in which exactly the attributes
    named by a sampling option whose value is true in Python's sense
    (present and not [None], [False], [0], [0.0], [""] or [[]]) are
    overridden, all others keeping the default, and in which
    [max_tokens], [ignore_eos] and [min_tokens] are then overridden by
    the stop conditions, each only if it is supplied with such a
    value. The SGLang handler keeps no defaults: [temperature],
    [top_p] and [top_k] of the sampling options (of the request
    itself when it is OpenAI-shaped) reach the engine under their own
    names, [max_tokens] of the stop conditions (of the request itself)
    under the name [max_new_tokens], and [ignore_eos] of the stop
    conditions under its own name for token-based requests only, each
    exactly when it is supplied with a value other than [None];
    nothing else is handed over, and these are the sampling
    parameters of the engine call of every run. *)
Theorem sampling_params_derivation :
  (forall defaults request items sc mt,
     Trtllm.sampling_options request = Some items ->
     NoDup items.*1 ->
     Trtllm.stop_conditions request = Some sc ->
     Trtllm.max_tokens sc = Some mt ->
     exists sp,
       Trtllm.derive_sampling_params defaults request = inr sp /\
       (forall key,
          sp !! key =
            Trtllm.described_attribute defaults (list_to_map items) mt
              (default VNone (Trtllm.ignore_eos sc))
              (default VNone (Trtllm.min_tokens sc)) key) /\
       (forall env h embeddings request0 dp,
          Trtllm.default_sampling_params h = defaults ->
          Trtllm.publishers_error h = None ->
          Trtllm.decode_disaggregated_params (Trtllm.codec env)
            (Trtllm.disaggregation_mode h) request0 = (request, inr dp) ->
          exists evs,
            Trtllm.events (Trtllm.generate_locally env h request0 embeddings) =
              Trtllm.EngineCall (Trtllm.processed_input_of h request0 embeddings)
                (Trtllm.install_test_logits_processor env sp) dp
                (negb (Trtllm.is_prefill (Trtllm.disaggregation_mode h))) :: evs
            /\ Trtllm.engine_calls evs = [])) /\
  (forall config request,
     Sglang.DecodeWorkerHandler._build_sampling_params config request !! "temperature"
       = SglangView.supplied (SglangView.sampling_source config request) "temperature"
     /\ Sglang.DecodeWorkerHandler._build_sampling_params config request !! "top_p"
        = SglangView.supplied (SglangView.sampling_source config request) "top_p"
     /\ Sglang.DecodeWorkerHandler._build_sampling_params config request !! "top_k"
        = SglangView.supplied (SglangView.sampling_source config request) "top_k"
     /\ Sglang.DecodeWorkerHandler._build_sampling_params config request
          !! "max_new_tokens"
        = SglangView.supplied (SglangView.stop_source config request) "max_tokens"
     /\ Sglang.DecodeWorkerHandler._build_sampling_params config request !! "ignore_eos"
        = (if Sglang.skip_tokenizer_init config
           then SglangView.supplied (SglangView.stop_source config request) "ignore_eos"
           else None)
     /\ (forall key,
           ~ In key SglangView.engine_parameter_names ->
           Sglang.DecodeWorkerHandler._build_sampling_params config request !! key
           = None)
     /\ (forall env context,
           Forall (fun args =>
                     Sglang.sampling_params args
                     = Sglang.DecodeWorkerHandler._build_sampling_params config request)
             (SglangView.engine_call_args
                (Sglang.events
                   (Sglang.DecodeWorkerHandler.generate env config request context))))
     /\ (forall env context input,
           Sglang.serves_decode (Sglang.serving_mode config) = false ->
           Sglang._get_input_param env config request = inr input ->
           SglangView.engine_call_args
             (Sglang.events
                (Sglang.DecodeWorkerHandler.generate env config request context))
           = [ {| Sglang.input_param := input;
                  Sglang.sampling_params :=
                    Sglang.DecodeWorkerHandler._build_sampling_params config request;
                  Sglang.stream := true;
                  Sglang.bootstrap := None |} ])).
Proof.
  split.
  - exact TrtllmFacts.derive_sampling_params_attributes.
  - intros config request.
    destruct (SglangFacts.build_sampling_params_fields config request)
      as [H1 [H2 [H3 [H4 [H5 H6]]]]].
    repeat (split; [assumption|]). split.
    + intros env context. rewrite SglangFacts.generate_engine_call_args.
      destruct (Sglang._get_input_param env config request); [constructor|].
      destruct (Sglang.serves_decode _); [|now repeat constructor].
      destruct (Sglang.cancelled context 0); [constructor|].
      destruct (Sglang.prefill_client_generate env _); now repeat constructor.
    + intros env context input Hmode Hin.
      now rewrite SglangFacts.generate_engine_call_args, Hin, Hmode.
Qed.

Lemma sampling_params_derivation_witness :
  exists sp,
    Trtllm.derive_sampling_params Samples.trt_defaults
      (Samples.trt_request
         [("temperature", VFloat (7 # 10)); ("top_k", VInt 0); ("seed", VInt 3)]
         (VInt 5) None) = inr sp
    /\ sp !! "temperature" = Some (VFloat (7 # 10))
    /\ sp !! "top_k" = Some (VInt 50)
    /\ sp !! "seed" = None
    /\ sp !! "max_tokens" = Some (VInt 5)
    /\ sp !! "min_tokens" = Some (VInt 0).
Proof.
  destruct (proj1 sampling_params_derivation Samples.trt_defaults
              (Samples.trt_request
                 [("temperature", VFloat (7 # 10)); ("top_k", VInt 0); ("seed", VInt 3)]
                 (VInt 5) None)
              [("temperature", VFloat (7 # 10)); ("top_k", VInt 0); ("seed", VInt 3)]
              {| Trtllm.max_tokens := Some (VInt 5); Trtllm.ignore_eos := None;
                 Trtllm.min_tokens := None |} (VInt 5))
    as [sp [Hsp [Hkey _]]].
  - reflexivity.
  - apply (bool_decide_unpack _). vm_compute. exact I.
  - reflexivity.
  - reflexivity.
  - exists sp. split; [exact Hsp|]. rewrite !Hkey. vm_compute. auto.
Defined.

(** C8 fails as stated. A request supplies [top_k = 0] and
    [temperature = 0.0]. The TensorRT-LLM handler treats both as not
    supplied and keeps its defaults ([50] and [1.0]); the SGLang
    handler treats [top_k = 0] as supplied and hands it to the engine.
    Whether [0] counts as empty or not, one of the two departs from
    the claim. *)
Lemma zero_is_supplied_for_one_backend_only :
  (exists sp,
     Trtllm.derive_sampling_params Samples.trt_defaults
       (Samples.trt_request [("top_k", VInt 0); ("temperature", VFloat 0)] (VInt 5) None)
     = inr sp
     /\ sp !! "top_k" = Some (VInt 50)
     /\ sp !! "temperature" = Some (VFloat 1)) /\
  Sglang.DecodeWorkerHandler._build_sampling_params
    (Samples.sg_config Sglang.AGGREGATED true) Samples.sg_zero_request !! "top_k"
  = Some (VInt 0).
Proof.
  split.
  - eexists. split; [reflexivity|]. split; vm_compute; reflexivity.
  - vm_compute. reflexivity.
Qed.

End SamplingFacts.

(** ** More on the TensorRT-LLM handler *)

Module TrtllmRunFacts.
Import Py Trtllm TrtllmView.

(** One turn of the loop, by cases. *)
Lemma stream_loop_cons c h request_id model_name n res rest :
  stream_loop c h request_id model_name n (res :: rest) =
    if ends_stream (disaggregation_mode (start_publisher h).2) res then
      match outputs res with
      | [] => ((start_publisher h).1, Some IndexError, (start_publisher h).2)
      | output :: _ =>
          match publish_kv_metrics (start_publisher h).2 output with
          | inl e => ((start_publisher h).1, Some e, (start_publisher h).2)
          | inr published =>
              ((start_publisher h).1 ++ published ++
                 [Yield (final_chunk (start_publisher h).2 output request_id model_name)],
               None, (start_publisher h).2)
          end
      end
    else
      match outputs res with
      | [] => ((start_publisher h).1 ++ [Yield error_chunk], None, (start_publisher h).2)
      | output :: _ =>
          match delta_chunk c (start_publisher h).2 output n request_id model_name with
          | inl e => ((start_publisher h).1, Some e, (start_publisher h).2)
          | inr out =>
              ((start_publisher h).1 ++ Yield out ::
                 (stream_loop c (start_publisher h).2 request_id model_name
                    (length (out_token_ids output)) rest).1.1,
               (stream_loop c (start_publisher h).2 request_id model_name
                  (length (out_token_ids output)) rest).1.2,
               (stream_loop c (start_publisher h).2 request_id model_name
                  (length (out_token_ids output)) rest).2)
          end
      end.
Proof.
  cbn [stream_loop]. unfold ends_stream.
  destruct (start_publisher h) as [started h1]. cbn [fst snd].
  destruct (finished res && negb (is_prefill (disaggregation_mode h1))).
  - destruct (outputs res); [reflexivity|].
    now destruct (publish_kv_metrics h1 _).
  - destruct (outputs res) as [|output ?]; [reflexivity|].
    destruct (delta_chunk _ _ _ _ _ _); [reflexivity|].
    now destruct (stream_loop _ _ _ _ _ rest) as [[evs r] h'].
Qed.

Lemma start_publisher_fields h :
  default_sampling_params (start_publisher h).2 = default_sampling_params h
  /\ publisher (start_publisher h).2 = publisher h
  /\ disaggregation_mode (start_publisher h).2 = disaggregation_mode h
  /\ multimodal_processor (start_publisher h).2 = multimodal_processor h.
Proof. unfold start_publisher. now destruct (_ && _). Qed.

Lemma start_publisher_again h :
  start_publisher (start_publisher h).2 = ([], (start_publisher h).2).
Proof.
  unfold start_publisher.
  destruct (first_generation h) eqn:Hf, (publisher h) as [p|] eqn:Hp; cbn;
    rewrite ?Hf, ?Hp; reflexivity.
Qed.

(** The two shapes of a run of [generate_locally]. *)
Lemma generate_locally_run_cases env h request embeddings :
  (events (generate_locally env h request embeddings) = []
   /\ is_Some (raised (generate_locally env h request embeddings))
   /\ handler_after (generate_locally env h request embeddings) = h)
  \/ (exists sp dp evs,
        events (generate_locally env h request embeddings)
          = EngineCall (processed_input_of h request embeddings) sp dp
              (negb (is_prefill (disaggregation_mode h))) :: evs
        /\ engine_calls evs = []).
Proof.
  destruct (publishers_error h) as [e|] eqn:Hp.
  { left. rewrite (TrtllmFacts.generate_locally_publisher_error _ _ _ _ _ Hp). eauto. }
  destruct (decode_disaggregated_params (codec env) (disaggregation_mode h) request)
    as [request1 [e|dp]] eqn:Hd.
  { left. rewrite (TrtllmFacts.generate_locally_rejected _ _ _ _ _ _ Hp Hd). eauto. }
  destruct (derive_sampling_params (default_sampling_params h) request1)
    as [e|sp] eqn:Hs.
  { left. rewrite (TrtllmFacts.generate_locally_no_max_tokens _ _ _ _ _ _ _ Hp Hd Hs).
    eauto. }
  right. rewrite (TrtllmFacts.generate_locally_engine_call _ _ _ _ _ _ _ Hp Hd Hs).
  cbn [events]. eexists _, _, _. split; [reflexivity|].
  apply TrtllmFacts.stream_loop_no_engine_call.
Qed.

(** X1. A run of [generate_locally] either raises before it has done
    anything (no event, the handler as it was), or calls the engine
    first and exactly once: with the inputs of the request, streaming
    unless the mode is PREFILL, and nothing is published or yielded
    before that call. *)
Theorem generate_locally_calls_engine_once env h request embeddings :
  (events (generate_locally env h request embeddings) = []
   /\ is_Some (raised (generate_locally env h request embeddings))
   /\ handler_after (generate_locally env h request embeddings) = h)
  \/ (exists sp dp evs,
        events (generate_locally env h request embeddings)
          = EngineCall (processed_input_of h request embeddings) sp dp
              (negb (is_prefill (disaggregation_mode h))) :: evs
        /\ engine_calls evs = []).
Proof. exact (generate_locally_run_cases env h request embeddings). Qed.

(** The handler and the publisher starts after the loop. *)
Lemma stream_loop_handler c request_id model_name stream :
  forall h n,
    (stream_loop c h request_id model_name n stream).2
      = match stream with [] => h | _ :: _ => (start_publisher h).2 end
    /\ publisher_starts (stream_loop c h request_id model_name n stream).1.1
       = match stream with [] => [] | _ :: _ => (start_publisher h).1 end.
Proof.
  assert (Hstarted : forall h, publisher_starts (start_publisher h).1 = (start_publisher h).1).
  { intros h. unfold start_publisher. now destruct (_ && _). }
  assert (Hpub : forall h output evs, publish_kv_metrics h output = inr evs ->
                  publisher_starts evs = []).
  { intros h output evs H. unfold publish_kv_metrics in H.
    repeat match type of H with
           | context [match ?x with _ => _ end] => destruct x
           end; inversion H; reflexivity. }
  induction stream as [|res rest IH]; intros h n; [now split|].
  rewrite stream_loop_cons.
  destruct (ends_stream _ res).
  - destruct (outputs res) as [|output ?]; [now split; cbn [fst snd]; rewrite ?Hstarted|].
    destruct (publish_kv_metrics _ output) as [e|published] eqn:Hk;
      cbn [fst snd]; [now rewrite Hstarted|].
    split; [reflexivity|]. unfold publisher_starts in *.
    rewrite !List.filter_app, Hstarted, (Hpub _ _ _ Hk). cbn. now rewrite app_nil_r.
  - destruct (outputs res) as [|output ?].
    { cbn [fst snd]. split; [reflexivity|]. unfold publisher_starts in *.
      rewrite List.filter_app, Hstarted. cbn. now rewrite app_nil_r. }
    destruct (delta_chunk _ _ _ _ _ _) as [e|out]; cbn [fst snd];
      [now rewrite Hstarted|].
    destruct (IH (start_publisher h).2 (length (out_token_ids output))) as [IHh IHs].
    rewrite IHh, start_publisher_again in *. cbn [fst snd] in *.
    split; [now destruct rest|].
    unfold publisher_starts in *. rewrite List.filter_app, Hstarted.
    cbn [List.filter is_publisher_start]. rewrite IHs.
    destruct rest; now rewrite app_nil_r.
Qed.

(** X2. A run changes nothing of the handler but the flag
    [first_generation]: the default sampling parameters (the run works
    on a copy), the publisher, the mode and the multimodal processor
    are as before, and the flag is never set back to true. *)
Theorem generate_locally_handler_frame env h request embeddings :
  default_sampling_params (handler_after (generate_locally env h request embeddings))
    = default_sampling_params h
  /\ publisher (handler_after (generate_locally env h request embeddings)) = publisher h
  /\ disaggregation_mode (handler_after (generate_locally env h request embeddings))
     = disaggregation_mode h
  /\ multimodal_processor (handler_after (generate_locally env h request embeddings))
     = multimodal_processor h
  /\ (first_generation (handler_after (generate_locally env h request embeddings)) = true
      -> first_generation h = true).
Proof.
  destruct (generate_locally_run_cases env h request embeddings)
    as [[_ [_ ->]]|_]; [now repeat split|].
  destruct (publishers_error h) as [e|] eqn:Hp.
  { rewrite (TrtllmFacts.generate_locally_publisher_error _ _ _ _ _ Hp).
    now repeat split. }
  destruct (decode_disaggregated_params (codec env) (disaggregation_mode h) request)
    as [request1 [e|dp]] eqn:Hd.
  { rewrite (TrtllmFacts.generate_locally_rejected _ _ _ _ _ _ Hp Hd). now repeat split. }
  destruct (derive_sampling_params (default_sampling_params h) request1)
    as [e|sp] eqn:Hs.
  { rewrite (TrtllmFacts.generate_locally_no_max_tokens _ _ _ _ _ _ _ Hp Hd Hs).
    now repeat split. }
  rewrite (TrtllmFacts.generate_locally_engine_call _ _ _ _ _ _ _ Hp Hd Hs).
  cbn [handler_after]. rewrite (proj1 (stream_loop_handler _ _ _ _ _ _)).
  destruct (generate_async env _ _ _ _); [now repeat split|].
  destruct (start_publisher_fields h) as [-> [-> [-> ->]]].
  repeat split. intros H. unfold start_publisher in H.
  destruct (first_generation h) eqn:E; [reflexivity|]. cbn in H. congruence.
Qed.

Lemma generate_locally_handler_frame_witness :
  first_generation (Samples.trt_handler PREFILL) = true.
Proof.
  apply (proj2 (proj2 (proj2 (proj2
           (generate_locally_handler_frame Samples.scenario_engine
              (Samples.trt_handler PREFILL)
              (Samples.trt_request [] (VInt 5) (Some Samples.wire_params)) None))))).
  reflexivity.
Defined.

(** X3. The publisher is started by the first snapshot of the first
    engine call and by nothing else: [self.publisher.start()] is
    called in a run exactly when [first_generation] is set, there is a
    publisher and the engine streams at least one snapshot, and then
    once; after such a run [first_generation] is cleared, and in every
    other case it is as it was. *)
Theorem publisher_started_by_first_snapshot env h request embeddings :
  publisher_starts (events (generate_locally env h request embeddings))
    = (if first_generation h && bool_decide (is_Some (publisher h))
          && negb (bool_decide
                     (engine_stream env
                        (events (generate_locally env h request embeddings)) = []))
       then [PublisherStart] else [])
  /\ first_generation (handler_after (generate_locally env h request embeddings))
     = first_generation h
       && negb (bool_decide (is_Some (publisher h))
                && negb (bool_decide
                           (engine_stream env
                              (events (generate_locally env h request embeddings)) = []))).
Proof.
  destruct (generate_locally_run_cases env h request embeddings)
    as [[-> [_ ->]]|_].
  { cbn. rewrite !andb_false_r. cbn. now rewrite andb_true_r. }
  destruct (publishers_error h) as [e|] eqn:Hp.
  { rewrite (TrtllmFacts.generate_locally_publisher_error _ _ _ _ _ Hp).
    cbn. rewrite !andb_false_r. cbn. now rewrite andb_true_r. }
  destruct (decode_disaggregated_params (codec env) (disaggregation_mode h) request)
    as [request1 [e|dp]] eqn:Hd.
  { rewrite (TrtllmFacts.generate_locally_rejected _ _ _ _ _ _ Hp Hd).
    cbn. rewrite !andb_false_r. cbn. now rewrite andb_true_r. }
  destruct (derive_sampling_params (default_sampling_params h) request1)
    as [e|sp] eqn:Hs.
  { rewrite (TrtllmFacts.generate_locally_no_max_tokens _ _ _ _ _ _ _ Hp Hd Hs).
    cbn. rewrite !andb_false_r. cbn. now rewrite andb_true_r. }
  rewrite (TrtllmFacts.generate_locally_engine_call _ _ _ _ _ _ _ Hp Hd Hs).
  cbn [events handler_after engine_stream].
  change (publisher_starts (EngineCall ?i ?s ?d ?b :: ?evs)) with (publisher_starts evs).
  destruct (stream_loop_handler (codec env) (request_id_of request1)
              (model_name_of request1)
              (generate_async env (processed_input_of h request embeddings)
                 (install_test_logits_processor env sp) dp
                 (negb (is_prefill (disaggregation_mode h)))) h 0) as [-> ->].
  destruct (generate_async env _ _ _ _) as [|res rest].
  { cbn. rewrite !andb_false_r. cbn. now rewrite andb_true_r. }
  unfold start_publisher.
  rewrite (bool_decide_eq_false_2 (res :: rest = [])) by discriminate.
  cbn [negb]. rewrite !andb_true_r.
  destruct (first_generation h) eqn:Hf, (bool_decide (is_Some (publisher h)));
    cbn; rewrite ?Hf; split; reflexivity.
Qed.

(** *** The loop, snapshot by snapshot *)

Lemma passed_spec mode res :
  passed mode res = true ->
  ends_stream mode res = false /\ exists output others, outputs res = output :: others.
Proof.
  unfold passed. intros H. apply andb_true_iff in H as [H1 H2].
  apply negb_true_iff in H1, H2. split; [exact H1|].
  destruct (outputs res) as [|output others]; [|eauto].
  now rewrite bool_decide_eq_true_2 in H2.
Qed.

(** The loop over a stream that carries on after its first part. *)
Lemma stream_loop_split c request_id model_name mode pre post :
  forall h n,
    disaggregation_mode h = mode ->
    Forall (fun res => passed mode res = true) pre ->
    stream_loop c h request_id model_name n (pre ++ post) =
      match (stream_loop c h request_id model_name n pre).1.2 with
      | Some e => stream_loop c h request_id model_name n pre
      | None =>
          ((stream_loop c h request_id model_name n pre).1.1 ++
             (stream_loop c (stream_loop c h request_id model_name n pre).2
                request_id model_name (count_after n pre) post).1.1,
           (stream_loop c (stream_loop c h request_id model_name n pre).2
              request_id model_name (count_after n pre) post).1.2,
           (stream_loop c (stream_loop c h request_id model_name n pre).2
              request_id model_name (count_after n pre) post).2)
      end.
Proof.
  induction pre as [|res pre IH]; intros h n Hmode Hpre.
  { cbn. now destruct (stream_loop c h request_id model_name n post) as [[evs r] h']. }
  apply Forall_cons in Hpre as [Hres Hpre].
  destruct (passed_spec _ _ Hres) as [Hend [output [others Hout]]].
  change ((res :: pre) ++ post) with (res :: (pre ++ post)).
  rewrite !stream_loop_cons.
  destruct (start_publisher_fields h) as [_ [_ [Hm1 _]]]. rewrite Hm1, Hmode, Hend, Hout.
  cbn [count_after]. rewrite Hout.
  destruct (delta_chunk c _ output n request_id model_name) as [e|out];
    [reflexivity|]. cbn [fst snd].
  rewrite (IH (start_publisher h).2 (length (out_token_ids output)))
    by (rewrite ?Hm1; assumption).
  destruct (stream_loop c (start_publisher h).2 request_id model_name
              (length (out_token_ids output)) pre) as [[evs1 [e|]] h1]; cbn [fst snd].
  - reflexivity.
  - now rewrite <- app_assoc.
Qed.

(** X4. Reading a stream in two parts: as long as the loop goes past
    every snapshot of the first part, its run over the whole stream is
    its run over the first part, followed, unless that raised, by its
    run over the second part, with the handler as the first part left
    it and the token count of the last snapshot of the first part. *)
Theorem stream_loop_app c request_id model_name mode pre post :
  forall h n,
    disaggregation_mode h = mode ->
    Forall (fun res => passed mode res = true) pre ->
    stream_loop c h request_id model_name n (pre ++ post) =
      match (stream_loop c h request_id model_name n pre).1.2 with
      | Some e => stream_loop c h request_id model_name n pre
      | None =>
          ((stream_loop c h request_id model_name n pre).1.1 ++
             (stream_loop c (stream_loop c h request_id model_name n pre).2
                request_id model_name (count_after n pre) post).1.1,
           (stream_loop c (stream_loop c h request_id model_name n pre).2
              request_id model_name (count_after n pre) post).1.2,
           (stream_loop c (stream_loop c h request_id model_name n pre).2
              request_id model_name (count_after n pre) post).2)
      end.
Proof. exact (stream_loop_split c request_id model_name mode pre post). Qed.

Lemma stream_loop_app_witness :
  yielded
    (stream_loop Samples.plain_codec (Samples.trt_handler AGGREGATED) "r1" "m" 0
       ([ {| finished := false; outputs := [Samples.trt_output [4] None] |} ]
        ++ [ {| finished := false; outputs := [Samples.trt_output [4; 5] None] |} ])).1.1
  = [set_token_ids [4] empty_chunk; set_token_ids [5] empty_chunk].
Proof.
  rewrite (stream_loop_app Samples.plain_codec "r1" "m" AGGREGATED
             [ {| finished := false; outputs := [Samples.trt_output [4] None] |} ]
             [ {| finished := false; outputs := [Samples.trt_output [4; 5] None] |} ]
             (Samples.trt_handler AGGREGATED) 0 eq_refl).
  - reflexivity.
  - repeat constructor.
Defined.

Lemma stream_loop_stop c h request_id model_name n res rest :
  passed (disaggregation_mode h) res = false ->
  stream_loop c h request_id model_name n (res :: rest)
    = stream_loop c h request_id model_name n [res].
Proof.
  intros Hp. rewrite !stream_loop_cons.
  destruct (start_publisher_fields h) as [_ [_ [-> _]]].
  unfold passed in Hp.
  destruct (ends_stream (disaggregation_mode h) res); [reflexivity|].
  destruct (outputs res); [reflexivity|].
  rewrite bool_decide_eq_false_2 in Hp by discriminate. discriminate.
Qed.

Lemma stream_loop_mode c request_id model_name stream h n :
  disaggregation_mode (stream_loop c h request_id model_name n stream).2
    = disaggregation_mode h.
Proof.
  rewrite (proj1 (stream_loop_handler _ _ _ _ _ _)).
  destruct stream; [reflexivity|]. apply start_publisher_fields.
Qed.

Lemma stream_loop_frame c request_id model_name stream h n :
  publisher (stream_loop c h request_id model_name n stream).2 = publisher h
  /\ multimodal_processor (stream_loop c h request_id model_name n stream).2
     = multimodal_processor h.
Proof.
  rewrite (proj1 (stream_loop_handler _ _ _ _ _ _)).
  destruct stream; [now split|].
  now destruct (start_publisher_fields h) as [_ [-> [_ ->]]].
Qed.

(** X5. The loop reads nothing after the snapshot that stops it: once
    it has gone past the snapshots [pre], a snapshot that ends the
    stream or has no outputs makes the rest of the engine's stream
    irrelevant. *)
Theorem stream_loop_reads_nothing_after_stop c request_id model_name mode pre res rest h n :
  disaggregation_mode h = mode ->
  Forall (fun res => passed mode res = true) pre ->
  passed mode res = false ->
  stream_loop c h request_id model_name n (pre ++ res :: rest)
    = stream_loop c h request_id model_name n (pre ++ [res]).
Proof.
  intros Hmode Hpre Hres.
  rewrite !(stream_loop_split c request_id model_name mode pre _ h n Hmode Hpre).
  rewrite stream_loop_stop; [reflexivity|].
  now rewrite stream_loop_mode, Hmode.
Qed.

Lemma stream_loop_reads_nothing_after_stop_witness :
  stream_loop Samples.plain_codec (Samples.trt_handler AGGREGATED) "r1" "m" 0
    ([ {| finished := false; outputs := [Samples.trt_output [4] None] |} ]
     ++ {| finished := true; outputs := [Samples.trt_output [4] (Some "stop")] |}
        :: [ {| finished := false; outputs := [Samples.trt_output [4; 5; 6] None] |} ])
  = stream_loop Samples.plain_codec (Samples.trt_handler AGGREGATED) "r1" "m" 0
      ([ {| finished := false; outputs := [Samples.trt_output [4] None] |} ]
       ++ [ {| finished := true; outputs := [Samples.trt_output [4] (Some "stop")] |} ]).
Proof.
  apply (stream_loop_reads_nothing_after_stop Samples.plain_codec "r1" "m" AGGREGATED).
  - reflexivity.
  - repeat constructor.
  - reflexivity.
Defined.

(** *** The snapshot that stops the loop *)

Lemma stream_loop_after c request_id model_name mode pre post h n :
  disaggregation_mode h = mode ->
  Forall (fun res => passed mode res = true) pre ->
  (stream_loop c h request_id model_name n pre).1.2 = None ->
  stream_loop c h request_id model_name n (pre ++ post) =
    ((stream_loop c h request_id model_name n pre).1.1 ++
       (stream_loop c (stream_loop c h request_id model_name n pre).2
          request_id model_name (count_after n pre) post).1.1,
     (stream_loop c (stream_loop c h request_id model_name n pre).2
        request_id model_name (count_after n pre) post).1.2,
     (stream_loop c (stream_loop c h request_id model_name n pre).2
        request_id model_name (count_after n pre) post).2).
Proof.
  intros Hmode Hpre Hclean.
  rewrite (stream_loop_split c request_id model_name mode pre post h n Hmode Hpre).
  now rewrite Hclean.
Qed.

Lemma kv_perf_published_app (a b : list event) :
  kv_perf_published (a ++ b) = kv_perf_published a ++ kv_perf_published b.
Proof. apply omap_app. Qed.

Lemma start_publisher_publishes_nothing h :
  kv_perf_published (start_publisher h).1 = [].
Proof. unfold start_publisher. now destruct (_ && _). Qed.

(** X6. A snapshot without outputs, met after the loop has gone past
    the snapshots [pre] without raising: if it is not finished (or the
    mode is PREFILL) the handler yields the single chunk
    [{"finish_reason": "error", "token_ids": []}] and ends its stream
    normally; if it is finished outside PREFILL mode the handler reads
    [res.outputs[0]] first and raises [IndexError], and the consumer
    gets no chunk for it. *)
Theorem snapshot_without_outputs c request_id model_name mode pre res rest h n :
  disaggregation_mode h = mode ->
  Forall (fun res => passed mode res = true) pre ->
  (stream_loop c h request_id model_name n pre).1.2 = None ->
  outputs res = [] ->
  (stream_loop c h request_id model_name n (pre ++ res :: rest)).1.2
    = (if ends_stream mode res then Some IndexError else None)
  /\ yielded (stream_loop c h request_id model_name n (pre ++ res :: rest)).1.1
     = yielded (stream_loop c h request_id model_name n pre).1.1
       ++ (if ends_stream mode res then [] else [error_chunk]).
Proof.
  intros Hmode Hpre Hclean Hout.
  rewrite (stream_loop_after c request_id model_name mode pre _ h n Hmode Hpre Hclean).
  cbn [fst snd]. rewrite stream_loop_cons.
  destruct (start_publisher_fields (stream_loop c h request_id model_name n pre).2)
    as [_ [_ [-> _]]].
  rewrite stream_loop_mode, Hmode, Hout.
  destruct (ends_stream mode res); cbn [fst snd];
    rewrite !TrtllmFacts.yielded_app, ?TrtllmFacts.start_publisher_yields;
    split; reflexivity.
Qed.

Lemma snapshot_without_outputs_witness :
  (stream_loop Samples.plain_codec (Samples.trt_handler AGGREGATED) "r1" "m" 0
     ([ {| finished := false; outputs := [Samples.trt_output [4] None] |} ]
      ++ {| finished := true; outputs := [] |} :: [])).1.2 = Some IndexError
  /\ yielded
       (stream_loop Samples.plain_codec (Samples.trt_handler AGGREGATED) "r1" "m" 0
          ([ {| finished := false; outputs := [Samples.trt_output [4] None] |} ]
           ++ {| finished := false; outputs := [] |} :: [])).1.1
     = [set_token_ids [4] empty_chunk; error_chunk].
Proof.
  split.
  - apply (proj1 (snapshot_without_outputs Samples.plain_codec "r1" "m" AGGREGATED
                    [ {| finished := false; outputs := [Samples.trt_output [4] None] |} ]
                    {| finished := true; outputs := [] |} []
                    (Samples.trt_handler AGGREGATED) 0 eq_refl
                    ltac:(repeat constructor) eq_refl eq_refl)).
  - apply (proj2 (snapshot_without_outputs Samples.plain_codec "r1" "m" AGGREGATED
                    [ {| finished := false; outputs := [Samples.trt_output [4] None] |} ]
                    {| finished := false; outputs := [] |} []
                    (Samples.trt_handler AGGREGATED) 0 eq_refl
                    ltac:(repeat constructor) eq_refl eq_refl)).
Defined.

(** The latency the finished output is published with. *)
Lemma publish_kv_metrics_ok h output tm p :
  timing_of output = Some tm ->
  publisher h = Some p ->
  (kv_cache_size tm == 0)%Q
  \/ (kv_cache_transfer_start tm < kv_cache_transfer_end tm)%Q ->
  publish_kv_metrics h output
    = inr [PublishKvPerf
             (if Qeq_bool (kv_cache_size tm) 0 then (-1)%Q
              else (kv_cache_transfer_end tm - kv_cache_transfer_start tm)%Q)].
Proof.
  unfold timing_of, publish_kv_metrics. intros Ht Hp Hok.
  destruct (request_perf_metrics output) as [pm|]; [|discriminate].
  rewrite Ht. unfold KvMetrics.result.
  destruct (Qeq_dec (kv_cache_size tm) 0) as [Hz|Hnz].
  - rewrite KvMetricsFacts.result_zero by exact Hz. cbn [snd]. rewrite Hp.
    apply Qeq_bool_iff in Hz. now rewrite Hz.
  - destruct Hok as [Hz|Hlt]; [contradiction|].
    rewrite KvMetricsFacts.result_transfer by assumption. cbn [snd]. rewrite Hp.
    apply KvMetricsFacts.Qeq_bool_false_iff in Hnz. now rewrite Hnz.
Qed.

(** X7. The snapshot that ends the stream, met after the loop has gone
    past the snapshots [pre] without raising, with timing metrics on
    its first output, a publisher, and either no byte transferred or a
    transfer that starts before it ends: the handler publishes one
    latency, [-1] when [kv_cache_size] is [0] and [end - start]
    otherwise, then yields the final chunk and ends normally; the
    latency is published before the final chunk is yielded. *)
Theorem finished_snapshot_publishes_latency c request_id model_name mode pre res rest h n
  output others tm p :
  disaggregation_mode h = mode ->
  Forall (fun res => passed mode res = true) pre ->
  (stream_loop c h request_id model_name n pre).1.2 = None ->
  ends_stream mode res = true ->
  outputs res = output :: others ->
  timing_of output = Some tm ->
  publisher h = Some p ->
  (kv_cache_size tm == 0)%Q
  \/ (kv_cache_transfer_start tm < kv_cache_transfer_end tm)%Q ->
  exists before final,
    (stream_loop c h request_id model_name n (pre ++ res :: rest)).1.1
      = before
        ++ [PublishKvPerf
              (if Qeq_bool (kv_cache_size tm) 0 then (-1)%Q
               else (kv_cache_transfer_end tm - kv_cache_transfer_start tm)%Q);
            Yield final]
    /\ (stream_loop c h request_id model_name n (pre ++ res :: rest)).1.2 = None
    /\ yielded before = yielded (stream_loop c h request_id model_name n pre).1.1
    /\ (multimodal_processor h = None ->
        chunk_finish_reason final = Some "stop" /\ chunk_token_ids final = Some []).
Proof.
  intros Hmode Hpre Hclean Hend Hout Ht Hp Hok.
  rewrite (stream_loop_after c request_id model_name mode pre _ h n Hmode Hpre Hclean).
  cbn [fst snd]. rewrite stream_loop_cons.
  destruct (start_publisher_fields (stream_loop c h request_id model_name n pre).2)
    as [_ [Hp1 [Hm1 Hmm1]]].
  rewrite Hm1, stream_loop_mode, Hmode, Hend, Hout.
  assert (Hpub : publisher (start_publisher (stream_loop c h request_id model_name n pre).2).2
                 = Some p).
  { rewrite Hp1. now rewrite (proj1 (stream_loop_frame _ _ _ _ _ _)). }
  rewrite (publish_kv_metrics_ok _ _ _ _ Ht Hpub Hok). cbn [fst snd].
  eexists (_ ++ _), _. split; [now rewrite <- app_assoc|].
  split; [reflexivity|]. split.
  - now rewrite TrtllmFacts.yielded_app, TrtllmFacts.start_publisher_yields, app_nil_r.
  - intros Hmm.
    destruct (TrtllmFacts.final_chunk_fields
                (start_publisher (stream_loop c h request_id model_name n pre).2).2
                output request_id model_name) as [Hct [Hcf _]]; [|now split].
    now rewrite Hmm1, (proj2 (stream_loop_frame _ _ _ _ _ _)).
Qed.

Lemma finished_snapshot_publishes_latency_witness :
  exists before final,
    (stream_loop Samples.plain_codec (Samples.trt_publishing_handler AGGREGATED)
       "r1" "m" 0
       ([] ++ {| finished := true; outputs := [Samples.trt_timed_output 1024 0 2] |}
              :: [])).1.1
      = before ++ [PublishKvPerf (2 - 0)%Q; Yield final]
    /\ (stream_loop Samples.plain_codec (Samples.trt_publishing_handler AGGREGATED)
          "r1" "m" 0
          ([] ++ {| finished := true; outputs := [Samples.trt_timed_output 1024 0 2] |}
                 :: [])).1.2 = None.
Proof.
  destruct (finished_snapshot_publishes_latency Samples.plain_codec "r1" "m" AGGREGATED
              [] {| finished := true; outputs := [Samples.trt_timed_output 1024 0 2] |}
              [] (Samples.trt_publishing_handler AGGREGATED) 0
              (Samples.trt_timed_output 1024 0 2) []
              {| kv_cache_size := 1024; kv_cache_transfer_start := 0;
                 kv_cache_transfer_end := 2; first_token_time := 2 |}
              {| check_error_queue := None |}
              eq_refl ltac:(constructor) eq_refl eq_refl eq_refl eq_refl eq_refl
              ltac:(right; reflexivity))
    as [before [final [H1 [H2 _]]]].
  exists before, final. split; [exact H1|exact H2].
Defined.

Lemma publish_kv_metrics_fails h output tm :
  timing_of output = Some tm ->
  (~ (kv_cache_size tm == 0)%Q /\
   ~ (kv_cache_transfer_start tm < kv_cache_transfer_end tm)%Q ->
   publish_kv_metrics h output = inl AssertionError)
  /\ ((kv_cache_size tm == 0)%Q
      \/ (kv_cache_transfer_start tm < kv_cache_transfer_end tm)%Q ->
      publisher h = None ->
      publish_kv_metrics h output = inl (AttributeError "publish_kv_perf")).
Proof.
  unfold timing_of, publish_kv_metrics. intros Ht.
  destruct (request_perf_metrics output) as [pm|]; [|discriminate].
  rewrite Ht. unfold KvMetrics.result. split.
  - intros [Hnz Hnlt]. now rewrite KvMetricsFacts.result_assert.
  - intros Hok Hp. destruct (Qeq_dec (kv_cache_size tm) 0) as [Hz|Hnz].
    + rewrite KvMetricsFacts.result_zero by exact Hz. cbn [snd]. now rewrite Hp.
    + destruct Hok as [Hz|Hlt]; [contradiction|].
      rewrite KvMetricsFacts.result_transfer by assumption. cbn [snd]. now rewrite Hp.
Qed.

(** X8. The same snapshot, when publishing fails: with bytes
    transferred and a transfer that does not start before it ends the
    handler raises [AssertionError]; with valid timing but no publisher
    it raises [AttributeError] ([self.publisher] is [None]). In both
    cases the stream ends with the exception and the final chunk is
    never yielded: the consumer has received the chunks of the
    snapshots before, and nothing else. *)
Theorem finished_snapshot_publish_failure c request_id model_name mode pre res rest h n
  output others tm :
  disaggregation_mode h = mode ->
  Forall (fun res => passed mode res = true) pre ->
  (stream_loop c h request_id model_name n pre).1.2 = None ->
  ends_stream mode res = true ->
  outputs res = output :: others ->
  timing_of output = Some tm ->
  (~ (kv_cache_size tm == 0)%Q /\
   ~ (kv_cache_transfer_start tm < kv_cache_transfer_end tm)%Q ->
   (stream_loop c h request_id model_name n (pre ++ res :: rest)).1.2
     = Some AssertionError
   /\ yielded (stream_loop c h request_id model_name n (pre ++ res :: rest)).1.1
      = yielded (stream_loop c h request_id model_name n pre).1.1)
  /\ ((kv_cache_size tm == 0)%Q
      \/ (kv_cache_transfer_start tm < kv_cache_transfer_end tm)%Q ->
      publisher h = None ->
      (stream_loop c h request_id model_name n (pre ++ res :: rest)).1.2
        = Some (AttributeError "publish_kv_perf")
      /\ yielded (stream_loop c h request_id model_name n (pre ++ res :: rest)).1.1
         = yielded (stream_loop c h request_id model_name n pre).1.1).
Proof.
  intros Hmode Hpre Hclean Hend Hout Ht.
  rewrite (stream_loop_after c request_id model_name mode pre _ h n Hmode Hpre Hclean).
  cbn [fst snd]. rewrite stream_loop_cons.
  destruct (start_publisher_fields (stream_loop c h request_id model_name n pre).2)
    as [_ [Hp1 [Hm1 _]]].
  rewrite Hm1, stream_loop_mode, Hmode, Hend, Hout.
  destruct (publish_kv_metrics_fails
              (start_publisher (stream_loop c h request_id model_name n pre).2).2
              output tm Ht) as [Hassert Hattr].
  split.
  - intros Hbad. rewrite (Hassert Hbad). cbn [fst snd].
    now rewrite TrtllmFacts.yielded_app, TrtllmFacts.start_publisher_yields, app_nil_r.
  - intros Hok Hp. rewrite (Hattr Hok).
    + cbn [fst snd].
      now rewrite TrtllmFacts.yielded_app, TrtllmFacts.start_publisher_yields, app_nil_r.
    + now rewrite Hp1, (proj1 (stream_loop_frame _ _ _ _ _ _)).
Qed.

Lemma finished_snapshot_publish_failure_witness :
  (stream_loop Samples.plain_codec (Samples.trt_publishing_handler AGGREGATED)
     "r1" "m" 0
     ([] ++ {| finished := true; outputs := [Samples.trt_timed_output 1024 3 2] |}
            :: [])).1.2 = Some AssertionError
  /\ (stream_loop Samples.plain_codec (Samples.trt_handler AGGREGATED) "r1" "m" 0
        ([] ++ {| finished := true; outputs := [Samples.trt_timed_output 1024 0 2] |}
               :: [])).1.2 = Some (AttributeError "publish_kv_perf").
Proof.
  split.
  - apply (proj1 (finished_snapshot_publish_failure Samples.plain_codec "r1" "m"
                    AGGREGATED []
                    {| finished := true; outputs := [Samples.trt_timed_output 1024 3 2] |}
                    [] (Samples.trt_publishing_handler AGGREGATED) 0
                    (Samples.trt_timed_output 1024 3 2) []
                    {| kv_cache_size := 1024; kv_cache_transfer_start := 3;
                       kv_cache_transfer_end := 2; first_token_time := 2 |}
                    eq_refl ltac:(constructor) eq_refl eq_refl eq_refl eq_refl)).
    split; discriminate.
  - apply (proj2 (finished_snapshot_publish_failure Samples.plain_codec "r1" "m"
                    AGGREGATED []
                    {| finished := true; outputs := [Samples.trt_timed_output 1024 0 2] |}
                    [] (Samples.trt_handler AGGREGATED) 0
                    (Samples.trt_timed_output 1024 0 2) []
                    {| kv_cache_size := 1024; kv_cache_transfer_start := 0;
                       kv_cache_transfer_end := 2; first_token_time := 2 |}
                    eq_refl ltac:(constructor) eq_refl eq_refl eq_refl eq_refl)).
    + right. reflexivity.
    + reflexivity.
Defined.

(** *** What a whole run never does *)

(** A run is empty or an engine call followed by the loop. *)
Lemma generate_locally_loop env h request embeddings :
  (events (generate_locally env h request embeddings) = []
   /\ (publishers_error h = None ->
       exists msg, raised (generate_locally env h request embeddings)
                   = Some (ValueError msg)
                   \/ raised (generate_locally env h request embeddings)
                      = Some (KeyError msg)))
  \/ exists request_id model_name sp dp streaming stream,
       events (generate_locally env h request embeddings)
         = EngineCall (processed_input_of h request embeddings) sp dp streaming
           :: (stream_loop (codec env) h request_id model_name 0 stream).1.1
       /\ raised (generate_locally env h request embeddings)
          = (stream_loop (codec env) h request_id model_name 0 stream).1.2.
Proof.
  destruct (publishers_error h) as [e|] eqn:Hp.
  { left. rewrite (TrtllmFacts.generate_locally_publisher_error _ _ _ _ _ Hp).
    split; [reflexivity|discriminate]. }
  destruct (decode_disaggregated_params (codec env) (disaggregation_mode h) request)
    as [request1 [e|dp]] eqn:Hd.
  { left. rewrite (TrtllmFacts.generate_locally_rejected _ _ _ _ _ _ Hp Hd).
    split; [reflexivity|]. intros _. cbn [raised].
    unfold decode_disaggregated_params, set_max_tokens in Hd.
    destruct (is_prefill (disaggregation_mode h)), (stop_conditions request);
    repeat match type of Hd with
           | context [match ?x with _ => _ end] => destruct x
           end; inversion Hd; eauto. }
  destruct (derive_sampling_params (default_sampling_params h) request1)
    as [e|sp] eqn:Hs.
  { left. rewrite (TrtllmFacts.generate_locally_no_max_tokens _ _ _ _ _ _ _ Hp Hd Hs).
    split; [reflexivity|]. intros _. cbn [raised].
    unfold derive_sampling_params in Hs.
    repeat match type of Hs with
           | context [match ?x with _ => _ end] => destruct x
           end; inversion Hs; eauto. }
  right. rewrite (TrtllmFacts.generate_locally_engine_call _ _ _ _ _ _ _ Hp Hd Hs).
  cbn [events raised]. eexists _, _, _, _, _, _. split; reflexivity.
Qed.

Lemma publish_kv_metrics_shape h output evs :
  publish_kv_metrics h output = inr evs ->
  evs = [] \/ exists latency, evs = [PublishKvPerf latency].
Proof.
  unfold publish_kv_metrics. intros H.
  repeat match type of H with
         | context [match ?x with _ => _ end] => destruct x
         end; inversion H; eauto.
Qed.

Lemma stream_loop_kv_perf c request_id model_name stream :
  forall h n,
    (length (kv_perf_published
               (stream_loop c h request_id model_name n stream).1.1) <= 1)%nat
    /\ (is_prefill (disaggregation_mode h) = true ->
        kv_perf_published (stream_loop c h request_id model_name n stream).1.1 = []).
Proof.
  induction stream as [|res rest IH]; intros h n; [cbn; split; [lia|reflexivity]|].
  rewrite stream_loop_cons.
  pose proof (start_publisher_publishes_nothing h) as Hs.
  destruct (start_publisher_fields h) as [_ [_ [Hm _]]]. rewrite Hm.
  unfold ends_stream.
  destruct (is_prefill (disaggregation_mode h)) eqn:Hpre;
    cbn [negb]; rewrite ?andb_false_r, ?andb_true_r.
  - destruct (outputs res) as [|output ?].
    { cbn [fst]. rewrite kv_perf_published_app, Hs. cbn. split; [lia|reflexivity]. }
    destruct (delta_chunk _ _ _ _ _ _) as [e|out]; cbn [fst].
    { rewrite Hs. cbn. split; [lia|reflexivity]. }
    destruct (IH (start_publisher h).2 (length (out_token_ids output))) as [IH1 IH2].
    rewrite Hm in IH2. rewrite kv_perf_published_app, Hs. cbn [app].
    change (kv_perf_published (Yield out :: ?evs)) with (kv_perf_published evs).
    rewrite (IH2 Hpre). cbn. split; [lia|reflexivity].
  - destruct (finished res).
    + destruct (outputs res) as [|output ?]; cbn [fst].
      { rewrite Hs. cbn. split; [lia|discriminate]. }
      destruct (publish_kv_metrics _ output) as [e|published] eqn:Hk; cbn [fst].
      { rewrite Hs. cbn. split; [lia|discriminate]. }
      rewrite !kv_perf_published_app, Hs.
      destruct (publish_kv_metrics_shape _ _ _ Hk) as [->|[latency ->]];
        cbn; split; try lia; discriminate.
    + destruct (outputs res) as [|output ?]; cbn [fst].
      { rewrite kv_perf_published_app, Hs. cbn. split; [lia|discriminate]. }
      destruct (delta_chunk _ _ _ _ _ _) as [e|out]; cbn [fst].
      { rewrite Hs. cbn. split; [lia|discriminate]. }
      destruct (IH (start_publisher h).2 (length (out_token_ids output))) as [IH1 _].
      rewrite kv_perf_published_app, Hs. cbn [app].
      change (kv_perf_published (Yield out :: ?evs)) with (kv_perf_published evs).
      split; [exact IH1|discriminate].
Qed.

(** X9. KV transfer metrics are handed to the publisher at most once
    in a run, and never by a handler in PREFILL mode. *)
Theorem kv_perf_published_at_most_once env h request embeddings :
  (length (kv_perf_published (events (generate_locally env h request embeddings))) <= 1)%nat
  /\ (is_prefill (disaggregation_mode h) = true ->
      kv_perf_published (events (generate_locally env h request embeddings)) = []).
Proof.
  destruct (generate_locally_loop env h request embeddings)
    as [[-> _]|[rid [m [sp [dp [st [stream [-> _]]]]]]]].
  { cbn. split; [lia|reflexivity]. }
  change (kv_perf_published (EngineCall ?i ?s ?d ?b :: ?evs)) with (kv_perf_published evs).
  apply stream_loop_kv_perf.
Qed.

Lemma kv_perf_published_at_most_once_witness :
  kv_perf_published
    (events (generate_locally Samples.scenario_engine (Samples.trt_handler PREFILL)
               (Samples.trt_request [] (VInt 5) None) None)) = [].
Proof.
  apply (proj2 (kv_perf_published_at_most_once Samples.scenario_engine
                  (Samples.trt_handler PREFILL)
                  (Samples.trt_request [] (VInt 5) None) None)).
  reflexivity.
Defined.

Lemma delta_chunk_disaggregated_params c h output n request_id model_name out :
  delta_chunk c h output n request_id model_name = inr out ->
  (is_prefill (disaggregation_mode h) = true ->
   is_Some (chunk_disaggregated_params out)
   /\ chunk_disaggregated_params out = codec_encode c (out_disaggregated_params output))
  /\ (is_prefill (disaggregation_mode h) = false ->
      multimodal_processor h = None ->
      chunk_disaggregated_params out = None).
Proof.
  unfold delta_chunk. intros H. split.
  - intros Hp. rewrite Hp in H.
    destruct (codec_encode c (out_disaggregated_params output)) as [wire|];
      [|discriminate].
    injection H as <-. cbn. eauto.
  - intros Hp Hmm. rewrite Hp, Hmm in H. injection H as <-.
    destruct (str_truthy _), (truthy _); reflexivity.
Qed.

Lemma stream_loop_disaggregated_params c request_id model_name stream :
  forall h n,
    (is_prefill (disaggregation_mode h) = true ->
     forall k out,
       yielded (stream_loop c h request_id model_name n stream).1.1 !! k = Some out ->
       exists res,
         stream !! k = Some res
         /\ match outputs res with
            | [] => out = error_chunk
            | output :: _ =>
                is_Some (chunk_disaggregated_params out)
                /\ chunk_disaggregated_params out
                   = codec_encode c (out_disaggregated_params output)
            end)
    /\ (is_prefill (disaggregation_mode h) = false ->
        multimodal_processor h = None ->
        Forall (fun out => chunk_disaggregated_params out = None)
          (yielded (stream_loop c h request_id model_name n stream).1.1)).
Proof.
  induction stream as [|res rest IH]; intros h n;
    [split; [intros _ k out Hk; discriminate Hk|intros; constructor]|].
  rewrite stream_loop_cons.
  pose proof (TrtllmFacts.start_publisher_yields h) as Hy.
  destruct (start_publisher_fields h) as [_ [_ [Hm Hmm1]]]. rewrite Hm.
  unfold ends_stream.
  destruct (is_prefill (disaggregation_mode h)) eqn:Hpre;
    cbn [negb]; rewrite ?andb_false_r, ?andb_true_r.
  - split; [intros _ k out|discriminate].
    destruct (outputs res) as [|output more] eqn:Hout; cbn [fst].
    { rewrite TrtllmFacts.yielded_app, Hy. cbn [app].
      change (yielded [Yield error_chunk]) with [error_chunk].
      destruct k as [|k]; [|intros Hk; discriminate Hk].
      intros [= <-]. exists res. split; [reflexivity|]. now rewrite Hout. }
    destruct (delta_chunk _ _ _ _ _ _) as [e|out0] eqn:Hd; cbn [fst].
    { rewrite Hy. intros Hk. discriminate Hk. }
    rewrite TrtllmFacts.yielded_app, Hy. cbn [app].
    change (yielded (Yield out0 :: ?evs)) with (out0 :: yielded evs).
    destruct k as [|k].
    + intros [= <-]. exists res. split; [reflexivity|]. rewrite Hout.
      apply (delta_chunk_disaggregated_params _ _ _ _ _ _ _ Hd). now rewrite Hm.
    + intros Hk.
      apply (proj1 (IH (start_publisher h).2 (length (out_token_ids output)))) in Hk;
        [exact Hk|now rewrite Hm].
  - split; [discriminate|intros _ Hmm].
    assert (Hmm' : multimodal_processor (start_publisher h).2 = None)
      by now rewrite Hmm1.
    destruct (finished res).
    + destruct (outputs res) as [|output ?]; cbn [fst]; [rewrite Hy; constructor|].
      destruct (publish_kv_metrics _ output) as [e|published] eqn:Hk; cbn [fst];
        [rewrite Hy; constructor|].
      rewrite !TrtllmFacts.yielded_app, Hy,
        (TrtllmFacts.publish_kv_metrics_yields _ _ _ Hk).
      cbn. repeat constructor. unfold final_chunk. rewrite Hmm'.
      now destruct (out_disaggregated_params output).
    + destruct (outputs res) as [|output ?]; cbn [fst].
      { rewrite TrtllmFacts.yielded_app, Hy. repeat constructor. }
      destruct (delta_chunk _ _ _ _ _ _) as [e|out] eqn:Hd; cbn [fst].
      { rewrite Hy. constructor. }
      rewrite TrtllmFacts.yielded_app, Hy. cbn [app].
      change (yielded (Yield out :: ?evs)) with (out :: yielded evs).
      constructor.
      * apply (delta_chunk_disaggregated_params _ _ _ _ _ _ _ Hd);
          [now rewrite Hm|exact Hmm'].
      * apply IH; [now rewrite Hm|exact Hmm'].
Qed.

(** A run is empty or the engine call followed by the loop over the
    stream the engine answers it with. *)
Lemma generate_locally_over_engine_stream env h request embeddings :
  events (generate_locally env h request embeddings) = []
  \/ exists request_id model_name,
       yielded (events (generate_locally env h request embeddings))
       = yielded (stream_loop (codec env) h request_id model_name 0
                    (engine_stream env
                       (events (generate_locally env h request embeddings)))).1.1.
Proof.
  destruct (publishers_error h) as [e|] eqn:Hp.
  { left. now rewrite (TrtllmFacts.generate_locally_publisher_error _ _ _ _ _ Hp). }
  destruct (decode_disaggregated_params (codec env) (disaggregation_mode h) request)
    as [request1 [e|dp]] eqn:Hd.
  { left. now rewrite (TrtllmFacts.generate_locally_rejected _ _ _ _ _ _ Hp Hd). }
  destruct (derive_sampling_params (default_sampling_params h) request1)
    as [e|sp] eqn:Hs.
  { left. now rewrite (TrtllmFacts.generate_locally_no_max_tokens _ _ _ _ _ _ _ Hp Hd Hs). }
  right. rewrite (TrtllmFacts.generate_locally_engine_call _ _ _ _ _ _ _ Hp Hd Hs).
  cbn [events engine_stream]. eexists _, _. reflexivity.
Qed.

(** X10. Disaggregated parameters on the way out. In PREFILL mode the
    [k]-th chunk the handler yields belongs to the [k]-th snapshot of
    the engine's stream and carries, under [disaggregated_params],
    what the codec encodes of the [disaggregated_params] of that
    snapshot's first output; the one exception is the error chunk of
    a snapshot without outputs. Outside PREFILL mode (token flow, no
    multimodal processor) no chunk carries any. *)
Theorem disaggregated_params_only_from_prefill env h request embeddings :
  (is_prefill (disaggregation_mode h) = true ->
   forall k out,
     yielded (events (generate_locally env h request embeddings)) !! k = Some out ->
     exists res,
       engine_stream env (events (generate_locally env h request embeddings)) !! k
         = Some res
       /\ match outputs res with
          | [] => out = error_chunk
          | output :: _ =>
              is_Some (chunk_disaggregated_params out)
              /\ chunk_disaggregated_params out
                 = codec_encode (codec env) (out_disaggregated_params output)
          end)
  /\ (is_prefill (disaggregation_mode h) = false ->
      multimodal_processor h = None ->
      Forall (fun out => chunk_disaggregated_params out = None)
        (yielded (events (generate_locally env h request embeddings)))).
Proof.
  destruct (generate_locally_over_engine_stream env h request embeddings)
    as [->|[rid [m ->]]].
  { split; [intros _ k out Hk; discriminate Hk|intros; constructor]. }
  apply stream_loop_disaggregated_params.
Qed.

Lemma disaggregated_params_only_from_prefill_witness :
  Forall (fun out => chunk_disaggregated_params out = None)
    (yielded
       (events (generate_locally Samples.scenario_engine
                  (Samples.trt_handler AGGREGATED)
                  (Samples.trt_request [] (VInt 5) None) None)))
  /\ exists res,
       engine_stream Samples.prefill_engine
         (events (generate_locally Samples.prefill_engine
                    (Samples.trt_handler PREFILL)
                    (Samples.trt_request [] (VInt 5) None) None)) !! 0%nat = Some res
       /\ match outputs res with
          | [] =>
              set_disaggregated_params Samples.wire_params
                (set_finish_reason "length" (set_token_ids [4] empty_chunk))
              = error_chunk
          | output :: _ =>
              is_Some (chunk_disaggregated_params
                         (set_disaggregated_params Samples.wire_params
                            (set_finish_reason "length" (set_token_ids [4] empty_chunk))))
              /\ chunk_disaggregated_params
                   (set_disaggregated_params Samples.wire_params
                      (set_finish_reason "length" (set_token_ids [4] empty_chunk)))
                 = codec_encode (codec Samples.prefill_engine)
                     (out_disaggregated_params output)
          end.
Proof.
  split.
  - apply (proj2 (disaggregated_params_only_from_prefill Samples.scenario_engine
                    (Samples.trt_handler AGGREGATED)
                    (Samples.trt_request [] (VInt 5) None) None)); reflexivity.
  - apply (proj1 (disaggregated_params_only_from_prefill Samples.prefill_engine
                    (Samples.trt_handler PREFILL)
                    (Samples.trt_request [] (VInt 5) None) None) eq_refl 0%nat).
    reflexivity.
Defined.




(** *** The merge of the sampling options *)

(** X12. The sampling options never add an attribute to the sampling
    parameters nor remove one: whatever the options, the merged
    parameters have exactly the attributes of the defaults. *)
Theorem merge_sampling_options_keeps_attributes items :
  forall defaults : gmap string value,
    dom (merge_sampling_options defaults items) = dom defaults.
Proof.
  unfold merge_sampling_options.
  induction items as [|[k v] items IH]; intros defaults; [reflexivity|].
  cbn [fold_left]. rewrite IH. unfold merge_option.
  destruct (negb (truthy v)); [reflexivity|].
  destruct (decide (is_Some (defaults !! k))) as [Hk|Hk]; [|reflexivity].
  now apply dom_insert_lookup_L.
Qed.

(** X13. The order in which the dictionary of sampling options is
    walked does not matter: two listings of the same items (no key
    twice) give the same sampling parameters. *)
Theorem merge_sampling_options_order defaults items items' :
  NoDup items.*1 ->
  items ≡ₚ items' ->
  merge_sampling_options defaults items = merge_sampling_options defaults items'.
Proof.
  intros Hnd Hperm. apply map_eq. intros key.
  assert (Hnd' : NoDup items'.*1) by now rewrite <- Hperm.
  rewrite !TrtllmFacts.merge_sampling_options_lookup by assumption.
  now rewrite (list_to_map_proper (M := gmap string) items items' Hnd Hperm).
Qed.

Lemma merge_sampling_options_order_witness :
  merge_sampling_options Samples.trt_defaults
    [("temperature", VFloat (7 # 10)); ("top_k", VInt 3)]
  = merge_sampling_options Samples.trt_defaults
      [("top_k", VInt 3); ("temperature", VFloat (7 # 10))].
Proof.
  apply merge_sampling_options_order.
  - apply (bool_decide_unpack _). vm_compute. exact I.
  - apply perm_swap.
Defined.

End TrtllmRunFacts.

(** ** More on the SGLang handlers *)

Module SglangRunFacts.
Import Py Sglang Sglang.DecodeWorkerHandler SglangView.

(** *** Requests without their input *)

(** X14. A request without its input ([token_ids] when the tokenizer
    is skipped, [messages] otherwise) fails with [KeyError]: in the
    decode handler before the prefill worker or the engine is
    contacted; in the prefill handler after the bootstrap info has
    been yielded, without an engine call and without a background
    task. *)
Theorem request_without_input env config request context :
  (skip_tokenizer_init config = true -> token_ids request = None ->
   generate env config request context
     = {| events := []; raised := Some (KeyError "token_ids") |})
  /\ (skip_tokenizer_init config = false -> messages request = None ->
      generate env config request context
        = {| events := []; raised := Some (KeyError "messages") |})
  /\ (forall h sampling_params random key,
        PrefillWorkerHandler.config h = config ->
        (skip_tokenizer_init config = true /\ token_ids request = None
         /\ key = "token_ids")
        \/ (skip_tokenizer_init config = false /\ messages request = None
            /\ key = "messages") ->
        yielded_items
          (events (PrefillWorkerHandler.foreground
                     (PrefillWorkerHandler.generate env h
                        {| dpr_request := request;
                           dpr_sampling_params := sampling_params |} context random)))
          = [BootstrapItem
               {| bootstrap_host := PrefillWorkerHandler.handler_bootstrap_host h;
                  bootstrap_port := PrefillWorkerHandler.handler_bootstrap_port h;
                  bootstrap_room := (_generate_bootstrap_room random).1 |}]
        /\ raised (PrefillWorkerHandler.foreground
                     (PrefillWorkerHandler.generate env h
                        {| dpr_request := request;
                           dpr_sampling_params := sampling_params |} context random))
           = Some (KeyError key)
        /\ engine_call_events
             (events (PrefillWorkerHandler.foreground
                        (PrefillWorkerHandler.generate env h
                           {| dpr_request := request;
                              dpr_sampling_params := sampling_params |} context random)))
           = []
        /\ PrefillWorkerHandler.background
             (PrefillWorkerHandler.generate env h
                {| dpr_request := request;
                   dpr_sampling_params := sampling_params |} context random)
           = None).
Proof.
  split; [|split].
  - intros Hs Ht. unfold generate, _get_input_param. now rewrite Hs, Ht.
  - intros Hs Hm. unfold generate, _get_input_param. now rewrite Hs, Hm.
  - intros h sampling_params random key Hc [[Hs [Ht ->]]|[Hs [Hm ->]]];
      unfold PrefillWorkerHandler.generate, _get_input_param; cbn [dpr_request];
      rewrite Hc, Hs, ?Ht, ?Hm;
      now destruct (_generate_bootstrap_room random) as [room random'].
Qed.

Lemma request_without_input_witness :
  generate (Samples.sg_env [] []) (Samples.sg_config DECODE true)
    Samples.sg_request_without_input (Some Samples.quiet_context)
  = {| events := []; raised := Some (KeyError "token_ids") |}
  /\ raised (PrefillWorkerHandler.foreground
               (PrefillWorkerHandler.generate (Samples.sg_env [] [])
                  {| PrefillWorkerHandler.config := Samples.sg_config PREFILL false;
                     PrefillWorkerHandler.handler_bootstrap_host := "10.0.0.1";
                     PrefillWorkerHandler.handler_bootstrap_port := 8998 |}
                  {| dpr_request := Samples.sg_request_without_input;
                     dpr_sampling_params := ∅ |} None Samples.sg_random))
     = Some (KeyError "messages").
Proof.
  split.
  - apply (proj1 (request_without_input (Samples.sg_env [] [])
                    (Samples.sg_config DECODE true) Samples.sg_request_without_input
                    (Some Samples.quiet_context))); reflexivity.
  - apply (proj2 (proj2 (request_without_input (Samples.sg_env [] [])
                           (Samples.sg_config PREFILL false)
                           Samples.sg_request_without_input None))
             {| PrefillWorkerHandler.config := Samples.sg_config PREFILL false;
                PrefillWorkerHandler.handler_bootstrap_host := "10.0.0.1";
                PrefillWorkerHandler.handler_bootstrap_port := 8998 |}
             ∅ Samples.sg_random "messages" eq_refl).
    right. now repeat split.
Defined.

(** *** A cancelled stream *)

(** The look-up of the request id raises only on a ["meta_info"] that
    holds [None]. *)
Lemma start_monitor_not_null context task res :
  meta_info res <> Null ->
  exists entered task', start_monitor context task res = inr (entered, task').
Proof.
  intros Hn. destruct (start_monitor context task res) as [e|[entered task']] eqn:Hsm;
    [|eauto].
  apply SglangFacts.start_monitor_inl in Hsm as [_ [_ [_ Hnull]]]. contradiction.
Qed.



Lemma quiet_for_S context tick n :
  quiet_for context tick (S n) ->
  cancelled context tick = false /\ quiet_for context (S tick) n.
Proof.
  intros H. split.
  - rewrite <- (Nat.add_0_r tick). apply H. lia.
  - intros i Hi. replace (S tick + i)%nat with (tick + S i)%nat by lia. apply H. lia.
Qed.



(** *** The shape of a run of a stream function *)

Lemma loop_trace_entered context task res entered task' evs b :
  start_monitor context task res = inr (entered, task') ->
  loop_trace task' evs b ->
  loop_trace task (entered ++ evs) b.
Proof.
  intros H. apply SglangFacts.start_monitor_inr in H
    as [[-> ->]|[-> [_ [rid [-> ->]]]]]; [tauto|].
  intros Ht. now constructor.
Qed.

Lemma loop_trace_entered_raise context task res entered task' :
  start_monitor context task res = inr (entered, task') ->
  loop_trace task entered false.
Proof.
  intros H. rewrite <- (app_nil_r entered).
  eapply loop_trace_entered; [exact H|constructor].
Qed.

Lemma token_loop_trace context failure stream :
  forall tick n task,
    loop_trace task (events (token_loop context failure tick n task stream))
      (ended_normally (token_loop context failure tick n task stream)).
Proof.
  unfold ended_normally.
  induction stream as [|res rest IH]; intros tick n task.
  { cbn [token_loop]. destruct failure; constructor. }
  cbn [token_loop].
  destruct (start_monitor context task res) as [e|[entered task']] eqn:Hsm;
    [constructor|].
  destruct (cancelled context tick).
  { eapply loop_trace_entered; [exact Hsm|constructor]. }
  destruct (read_finish_reason res) as [e|finish_reason];
    [exact (loop_trace_entered_raise _ _ _ _ _ Hsm)|].
  destruct (if_finish_reason finish_reason) as [fr|].
  - destruct (fr_type fr); [|exact (loop_trace_entered_raise _ _ _ _ _ Hsm)].
    cbn [events raised].
    eapply loop_trace_entered; [exact Hsm|]. constructor. apply IH.
  - destruct (output_ids res); [|exact (loop_trace_entered_raise _ _ _ _ _ Hsm)].
    cbn [events raised].
    eapply loop_trace_entered; [exact Hsm|]. constructor. apply IH.
Qed.

Lemma text_loop_trace env config context failure stream :
  forall tick n task,
    loop_trace task (events (text_loop env config context failure tick n task stream))
      (ended_normally (text_loop env config context failure tick n task stream)).
Proof.
  unfold ended_normally.
  induction stream as [|res rest IH]; intros tick n task.
  { cbn [text_loop]. destruct failure; constructor. }
  cbn [text_loop].
  destruct (start_monitor context task res) as [e|[entered task']] eqn:Hsm;
    [constructor|].
  destruct (cancelled context tick).
  { eapply loop_trace_entered; [exact Hsm|constructor]. }
  destruct (read_finish_reason res) as [e|finish_reason];
    [exact (loop_trace_entered_raise _ _ _ _ _ Hsm)|].
  destruct (finish_reason_type_of finish_reason) as [e|t];
    [exact (loop_trace_entered_raise _ _ _ _ _ Hsm)|].
  destruct (read_id res); [|exact (loop_trace_entered_raise _ _ _ _ _ Hsm)].
  cbn [events raised].
  eapply loop_trace_entered; [exact Hsm|]. constructor. apply IH.
Qed.

Lemma consume_loop_trace context failure results :
  forall tick task,
    loop_trace task
      (events (PrefillWorkerHandler.consume_loop context failure tick task results))
      (ended_normally (PrefillWorkerHandler.consume_loop context failure tick task results)).
Proof.
  unfold ended_normally.
  induction results as [|res rest IH]; intros tick task.
  { cbn [PrefillWorkerHandler.consume_loop]. destruct failure; constructor. }
  cbn [PrefillWorkerHandler.consume_loop].
  destruct (start_monitor context task res) as [e|[entered task']] eqn:Hsm;
    [constructor|].
  destruct (cancelled context tick).
  { eapply loop_trace_entered; [exact Hsm|constructor]. }
  cbn [events raised]. eapply loop_trace_entered; [exact Hsm|]. apply IH.
Qed.



Lemma loop_trace_monitor_shape task evs b :
  loop_trace task evs b -> monitor_shape task (monitor_events evs).
Proof.
  induction 1 as [task|task|task i evs b _ IH|rid evs b _ IH].
  - destruct task; cbn; auto.
  - destruct task; cbn; auto.
  - exact IH.
  - change (monitor_events (MonitorEnter rid :: evs))
      with (MonitorEnter rid :: monitor_events evs).
    cbn in IH. destruct IH as [-> | ->]; cbn; eauto.
Qed.

Lemma loop_trace_joined task evs :
  loop_trace task evs true -> running_monitor task evs = None.
Proof.
  remember true as b eqn:Hb. induction 1 as [task|task|task i evs b _ IH|rid evs b _ IH].
  - now destruct task.
  - discriminate.
  - exact (IH Hb).
  - exact (IH Hb).
Qed.

Lemma loop_trace_left_running task evs :
  loop_trace task evs false -> monitor_left_running task evs.
Proof.
  remember false as b eqn:Hb. induction 1 as [task|task|task i evs b _ IH|rid evs b _ IH].
  - discriminate.
  - left. now split.
  - exact (IH Hb).
  - destruct (IH Hb) as [[H1 H2]|[H _]]; [|discriminate H].
    right. split; [reflexivity|]. exists rid. split.
    + change (monitor_events (MonitorEnter rid :: evs))
        with (MonitorEnter rid :: monitor_events evs).
      now rewrite H1.
    + exact H2.
Qed.


(** *** The calls of the decode handler *)




(** X17. In every mode a run of the decode handler calls the engine
    at most once, always streaming and with the sampling parameters
    built from the request; the call carries bootstrap data exactly
    in DECODE mode. *)
Theorem generate_calls_engine_at_most_once env config request context :
  (length (engine_call_args (events (generate env config request context))) <= 1)%nat
  /\ Forall (fun args =>
               stream args = true
               /\ sampling_params args = _build_sampling_params config request
               /\ (is_Some (bootstrap args)
                   <-> serves_decode (serving_mode config) = true))
       (engine_call_args (events (generate env config request context))).
Proof.
  rewrite SglangFacts.generate_engine_call_args.
  destruct (_get_input_param env config request) as [e|input];
    [cbn; split; [lia|constructor]|].
  destruct (serves_decode (serving_mode config)) eqn:Hmode.
  - destruct (cancelled context 0); [cbn; split; [lia|constructor]|].
    destruct (prefill_client_generate env (prefill_request_of config request))
      as [|info more]; [cbn; split; [lia|constructor]|].
    cbn [length]. split; [lia|]. repeat constructor. cbn. eauto.
  - cbn [length]. split; [lia|].
    repeat constructor; cbn; intros H; [now destruct H|discriminate].
Qed.

(** *** The life of the monitor *)

(** X18. A stream starts at most one monitor task: over a run of the
    token stream, of the text stream or of the prefill worker's
    background consumer, the monitor is entered at most once and left
    at most once, the exit coming after the entry and for the same
    engine request id. *)
Theorem monitor_entered_at_most_once env config context tick stream :
  monitor_shape None
    (monitor_events (events (_process_token_stream context tick stream)))
  /\ monitor_shape None
       (monitor_events (events (_process_text_stream env config context tick stream)))
  /\ monitor_shape None
       (monitor_events (events (PrefillWorkerHandler._consume_results context stream))).
Proof.
  split; [|split]; eapply loop_trace_monitor_shape.
  - apply token_loop_trace.
  - apply text_loop_trace.
  - apply consume_loop_trace.
Qed.

(** *** The background consumer of the prefill handler *)

Lemma consume_loop_engine_failure context e results :
  forall tick task,
    quiet_for context tick (length results) ->
    Forall (fun res => meta_info res <> Null) results ->
    raised (PrefillWorkerHandler.consume_loop context (Some e) tick task results)
    = Some e.
Proof.
  induction results as [|res rest IH]; intros tick task Hq Hwf; [reflexivity|].
  cbn [length] in Hq. apply quiet_for_S in Hq as [Hq0 Hq].
  apply Forall_cons in Hwf as [Hn Hwf].
  cbn [PrefillWorkerHandler.consume_loop].
  destruct (start_monitor_not_null context task res Hn) as [entered [task' ->]].
  rewrite Hq0. cbn [raised]. now apply IH.
Qed.

(** X19. The background task of the prefill handler is not shielded
    from errors. When its run ends normally, by exhaustion of the
    engine's stream or by the cancellation check, the monitor it may
    have started is joined. When it raises, the clean-up is skipped
    and a monitor that was entered is left running; this is what
    happens when the engine's stream fails before the context signals
    (the task raises what the engine raised) and when a snapshot read
    before a monitor is running has a ["meta_info"] that holds
    [None]. *)
Theorem consume_results_joins_unless_it_raises context results :
  (raised (PrefillWorkerHandler._consume_results context results) = None ->
   running_monitor None
     (events (PrefillWorkerHandler._consume_results context results)) = None)
  /\ (forall e,
        raised (PrefillWorkerHandler._consume_results context results) = Some e ->
        monitor_left_running None
          (events (PrefillWorkerHandler._consume_results context results)))
  /\ (forall e,
        failure results = Some e ->
        quiet_for context 0 (length (snapshots results)) ->
        Forall (fun res => meta_info res <> Null) (snapshots results) ->
        raised (PrefillWorkerHandler._consume_results context results) = Some e)
  /\ (forall res rest,
        is_Some context ->
        snapshots results = res :: rest -> meta_info res = Null ->
        PrefillWorkerHandler._consume_results context results
        = {| events := []; raised := Some (AttributeError "get") |}).
Proof.
  pose proof (consume_loop_trace context (failure results) (snapshots results) 0%nat None)
    as Ht.
  unfold PrefillWorkerHandler._consume_results, ended_normally in *.
  split; [|split; [|split]].
  - intros Hr. rewrite Hr in Ht. now apply loop_trace_joined.
  - intros e Hr. rewrite Hr in Ht. now apply loop_trace_left_running.
  - intros e -> Hq Hwf. now apply consume_loop_engine_failure.
  - intros res rest [c ->] -> Hn. cbn [PrefillWorkerHandler.consume_loop].
    unfold start_monitor. now rewrite Hn.
Qed.

Lemma consume_results_joins_unless_it_raises_witness :
  raised (PrefillWorkerHandler._consume_results (Some Samples.quiet_context)
            (Samples.sg_failing_stream [Samples.sg_tokens (Some [4]) None]))
    = Some (RuntimeError "engine failed")
  /\ monitor_left_running None
       (events (PrefillWorkerHandler._consume_results (Some Samples.quiet_context)
                  (Samples.sg_failing_stream [Samples.sg_tokens (Some [4]) None])))
  /\ PrefillWorkerHandler._consume_results (Some Samples.quiet_context)
       (Samples.sg_stream [Samples.sg_null_meta])
     = {| events := []; raised := Some (AttributeError "get") |}.
Proof.
  assert (Hr : raised (PrefillWorkerHandler._consume_results (Some Samples.quiet_context)
                         (Samples.sg_failing_stream [Samples.sg_tokens (Some [4]) None]))
               = Some (RuntimeError "engine failed")).
  { apply (proj1 (proj2 (proj2 (consume_results_joins_unless_it_raises
                                  (Some Samples.quiet_context)
                                  (Samples.sg_failing_stream
                                     [Samples.sg_tokens (Some [4]) None]))))
             (RuntimeError "engine failed") eq_refl).
    - intros i Hi. reflexivity.
    - repeat constructor. discriminate. }
  split; [exact Hr|]. split.
  - exact (proj1 (proj2 (consume_results_joins_unless_it_raises
                           (Some Samples.quiet_context)
                           (Samples.sg_failing_stream
                              [Samples.sg_tokens (Some [4]) None])))
             (RuntimeError "engine failed") Hr).
  - apply (proj2 (proj2 (proj2 (consume_results_joins_unless_it_raises
                                  (Some Samples.quiet_context)
                                  (Samples.sg_stream [Samples.sg_null_meta]))))
             Samples.sg_null_meta []); [cbn; eauto|reflexivity|reflexivity].
Defined.

(** *** The chat-completion chunks *)

Lemma text_loop_envelope env config context failure stream :
  forall tick n task,
    Forall (fun c =>
              delta_role c = "assistant"
              /\ object c = "chat.completion.chunk"
              /\ chat_model c = served_model_name config)
      (chat_chunks (events (text_loop env config context failure tick n task stream)))
    /\ map created
         (chat_chunks (events (text_loop env config context failure tick n task stream)))
       = map (time env)
           (seq tick
              (length (chat_chunks
                         (events (text_loop env config context failure tick n task
                                    stream))))).
Proof.
  induction stream as [|res rest IH]; intros tick n task.
  { cbn [text_loop]. destruct failure; cbn [events]; [now split|].
    destruct (SglangFacts.cleanup_chunks task) as [_ [-> _]]. now split. }
  cbn [text_loop].
  destruct (start_monitor context task res) as [e|[entered task']] eqn:Hsm;
    [now split|].
  destruct (SglangFacts.start_monitor_chunks _ _ _ _ _ Hsm) as [_ [Hs _]].
  destruct (cancelled context tick).
  { cbn [events]. rewrite SglangFacts.chat_chunks_app, Hs.
    destruct (SglangFacts.cleanup_chunks task') as [_ [-> _]]. now split. }
  destruct (read_finish_reason res) as [e|finish_reason];
    [cbn [events]; rewrite Hs; now split|].
  destruct (finish_reason_type_of finish_reason) as [e|t];
    [cbn [events]; rewrite Hs; now split|].
  destruct (read_id res) as [rid|]; [|cbn [events]; rewrite Hs; now split].
  destruct (IH (S tick) (String.length (default "" (text res))) task') as [IH1 IH2].
  cbn [events]. rewrite SglangFacts.chat_chunks_app, Hs. cbn [app].
  change (chat_chunks (Yield (ChatItem ?c) :: ?evs)) with (c :: chat_chunks evs).
  split.
  - constructor; [now repeat split|exact IH1].
  - cbn [map length seq created]. now rewrite IH2.
Qed.

(** X20. Every chat-completion chunk of a text stream has the role
    ["assistant"], the object ["chat.completion.chunk"] and the served
    model name of the configuration, and the chunks are stamped in
    order: the [k]-th chunk carries the time read at the [k]-th turn of
    the loop. *)
Theorem chat_chunk_envelope env config context tick stream :
  Forall (fun c =>
            delta_role c = "assistant"
            /\ object c = "chat.completion.chunk"
            /\ chat_model c = served_model_name config)
    (chat_chunks (events (_process_text_stream env config context tick stream)))
  /\ map created
       (chat_chunks (events (_process_text_stream env config context tick stream)))
     = map (time env)
         (seq tick
            (length (chat_chunks
                       (events (_process_text_stream env config context tick stream))))).
Proof. apply text_loop_envelope. Qed.

(** *** The sampling parameters handed to the SGLang engine *)

(** X21. The sampling parameters the SGLang handler builds hold no
    [None] and only the engine's names [temperature], [top_p],
    [top_k], [max_new_tokens] and, for token-based requests only,
    [ignore_eos]; the request's [max_tokens] is handed over under the
    name [max_new_tokens] and never under its own, read from the stop
    conditions of a token-based request and from the top level of an
    OpenAI-shaped one. *)
Theorem build_sampling_params_shape config request :
  (forall key v,
     _build_sampling_params config request !! key = Some v ->
     v <> VNone
     /\ In key engine_parameter_names
     /\ (key = "ignore_eos" -> skip_tokenizer_init config = true))
  /\ _build_sampling_params config request !! "max_tokens" = None
  /\ _build_sampling_params config request !! "max_new_tokens"
     = supplied (if skip_tokenizer_init config
                 then default ∅ (stop_conditions request)
                 else fields request) "max_tokens".
Proof.
  split; [|split].
  - intros key v. rewrite SglangFacts.build_sampling_params_lookup.
    destruct (list_to_map (param_mapping config request) !! key) as [w|] eqn:E;
      [|discriminate].
    destruct (is_not_None w) eqn:Hw; [|discriminate].
    intros [= <-]. split; [now destruct w|].
    apply elem_of_list_to_map_2 in E. unfold param_mapping in E.
    destruct (skip_tokenizer_init config);
      repeat (apply elem_of_cons in E as [[= -> _]|E];
              [cbn; split; [tauto|try discriminate; auto]|]);
      now apply elem_of_nil in E.
  - rewrite SglangFacts.build_sampling_params_lookup.
    unfold param_mapping. now destruct (skip_tokenizer_init config).
  - rewrite SglangFacts.build_sampling_params_lookup.
    unfold param_mapping.
    destruct (skip_tokenizer_init config); cbn [list_to_map foldr uncurry fst snd];
      repeat (rewrite lookup_insert_ne by discriminate);
      rewrite lookup_insert_eq; apply SglangFacts.get_supplied.
Qed.

Lemma build_sampling_params_shape_witness :
  _build_sampling_params (Samples.sg_config AGGREGATED true) Samples.sg_request
    !! "temperature" = Some (VInt 0)
  /\ VInt 0 <> VNone
  /\ In "temperature" engine_parameter_names.
Proof.
  assert (E : _build_sampling_params (Samples.sg_config AGGREGATED true)
                Samples.sg_request !! "temperature" = Some (VInt 0))
    by (rewrite SglangFacts.build_sampling_params_lookup; vm_compute; reflexivity).
  split; [exact E|].
  destruct (proj1 (build_sampling_params_shape (Samples.sg_config AGGREGATED true)
                     Samples.sg_request) "temperature" (VInt 0) E) as [H1 [H2 _]].
  split; [exact H1|exact H2].
Defined.

(** *** The rendezvous of the two workers *)

(** X22. When the prefill client answers with what the prefill handler
    yields for the request it is sent, and both workers read their
    input alike, the decode worker and the prefill worker call their
    engines with the same arguments: the same input, the same sampling
    parameters, streaming, and the same bootstrap host, port and
    room. *)
Theorem rendezvous_engine_calls env envp config h request context contextp random :
  serves_decode (serving_mode config) = true ->
  skip_tokenizer_init (PrefillWorkerHandler.config h) = skip_tokenizer_init config ->
  (forall m, apply_chat_template envp m = apply_chat_template env m) ->
  cancelled context 0 = false ->
  prefill_client_generate env (prefill_request_of config request)
    = bootstrap_items
        (yielded_items
           (events (PrefillWorkerHandler.foreground
                      (PrefillWorkerHandler.generate envp h
                         (prefill_request_of config request) contextp random)))) ->
  engine_call_args (events (generate env config request context))
  = engine_call_args
      (events (PrefillWorkerHandler.foreground
                 (PrefillWorkerHandler.generate envp h
                    (prefill_request_of config request) contextp random))).
Proof.
  intros Hmode Hskip Htpl Hc Hclient.
  rewrite SglangFacts.generate_engine_call_args, Hmode, Hc.
  unfold PrefillWorkerHandler.generate in *.
  destruct (_generate_bootstrap_room random) as [room random'].
  assert (Hin : _get_input_param envp (PrefillWorkerHandler.config h) request
                = _get_input_param env config request).
  { unfold _get_input_param. rewrite Hskip.
    destruct (skip_tokenizer_init config); [reflexivity|].
    destruct (messages request); [now rewrite Htpl|reflexivity]. }
  cbn [prefill_request_of dpr_request dpr_sampling_params] in *.
  rewrite Hin in *.
  destruct (_get_input_param env config request) as [e|input]; [reflexivity|].
  cbn in Hclient. now rewrite Hclient.
Qed.

Lemma rendezvous_engine_calls_witness :
  engine_call_args
    (events (generate
               (Samples.sg_env
                  [{| bootstrap_host := "10.0.0.1"; bootstrap_port := 8998;
                      bootstrap_room := 5 |}]
                  [Samples.sg_tokens (Some [4]) None])
               (Samples.sg_config DECODE true) Samples.sg_request
               (Some Samples.quiet_context)))
  = engine_call_args
      (events (PrefillWorkerHandler.foreground
                 (PrefillWorkerHandler.generate (Samples.sg_env [] [])
                    Samples.sg_prefill_handler
                    (prefill_request_of (Samples.sg_config DECODE true)
                       Samples.sg_request)
                    None Samples.sg_random))).
Proof.
  apply rendezvous_engine_calls; try reflexivity.
Defined.

(** *** Malformed snapshots *)








(** *** Errors and the monitor *)

(** X24. A stream function that raises never runs its clean-up: the
    run holds no exit from the monitor, and a monitor that was entered
    before the error is still running when the exception leaves the
    function. A run that ends normally leaves no monitor running. *)
Theorem stream_error_skips_cleanup env config context tick stream :
  (forall e,
     raised (_process_token_stream context tick stream) = Some e ->
     monitor_left_running None (events (_process_token_stream context tick stream)))
  /\ (forall e,
        raised (_process_text_stream env config context tick stream) = Some e ->
        monitor_left_running None
          (events (_process_text_stream env config context tick stream)))
  /\ (raised (_process_token_stream context tick stream) = None ->
      running_monitor None (events (_process_token_stream context tick stream)) = None)
  /\ (raised (_process_text_stream env config context tick stream) = None ->
      running_monitor None
        (events (_process_text_stream env config context tick stream)) = None).
Proof.
  pose proof (token_loop_trace context (failure stream) (snapshots stream) tick 0%nat None)
    as Htok.
  pose proof (text_loop_trace env config context (failure stream) (snapshots stream)
                tick 0%nat None) as Htxt.
  unfold _process_token_stream, _process_text_stream, ended_normally in *.
  split; [|split; [|split]].
  - intros e Hr. rewrite Hr in Htok. now apply loop_trace_left_running.
  - intros e Hr. rewrite Hr in Htxt. now apply loop_trace_left_running.
  - apply SglangFacts.token_loop_joins_monitor.
  - apply SglangFacts.text_loop_joins_monitor.
Qed.

Lemma stream_error_skips_cleanup_witness :
  monitor_left_running None
    (events (_process_text_stream (Samples.sg_env [] []) (Samples.sg_config AGGREGATED false)
               (Some Samples.quiet_context) 0
               (Samples.sg_stream [Samples.sg_text "a" None; Samples.sg_null_meta]))).
Proof.
  apply (proj1 (proj2 (stream_error_skips_cleanup (Samples.sg_env [] [])
                         (Samples.sg_config AGGREGATED false)
                         (Some Samples.quiet_context) 0%nat
                         (Samples.sg_stream
                            [Samples.sg_text "a" None; Samples.sg_null_meta])))
           (TypeError "'NoneType' object is not subscriptable")).
  reflexivity.
Defined.

End SglangRunFacts.

(** ** The rest of the SGLang base handler *)

Module SglangBaseFacts.
Import Py Sglang SglangBase SglangView.

(** *** The bootstrap address *)

Lemma before_colon_append h rest :
  has_colon h = false ->
  before_colon (String.append h (String ":" rest)) = h.
Proof.
  induction h as [|c h IH]; intros Hc; [reflexivity|].
  cbn [has_colon] in Hc. apply orb_false_iff in Hc as [Hc1 Hc2].
  change (String.append (String c h) (String ":" rest))
    with (String c (String.append h (String ":" rest))).
  cbn [before_colon]. rewrite Hc1. f_equal. now apply IH.
Qed.

Lemma before_colon_id s : has_colon s = false -> before_colon s = s.
Proof.
  induction s as [|c s IH]; intros Hc; [reflexivity|].
  cbn [has_colon] in Hc. apply orb_false_iff in Hc as [Hc1 Hc2].
  cbn [before_colon]. rewrite Hc1. f_equal. now apply IH.
Qed.

Lemma before_colon_has_no_colon s : has_colon (before_colon s) = false.
Proof.
  induction s as [|c s IH]; [reflexivity|].
  cbn [before_colon]. destruct (Ascii.eqb c ":") eqn:E; [reflexivity|].
  cbn [has_colon]. now rewrite E, IH.
Qed.

(** X25. The bootstrap port is always the engine's
    [disaggregation_bootstrap_port]. The bootstrap host is resolved
    from the part of [dist_init_addr] before its first colon, so that
    the port of a [host:port] address plays no part; an address
    without a colon is resolved whole; without an address, or with an
    empty one, the host is the local IP and no name is resolved. What
    the resolver raises is raised. *)
Theorem get_bootstrap_info_host_and_port {E : Type} (net : Network E) server_args :
  (forall host port,
     _get_bootstrap_info net server_args = inr (host, port) ->
     port = disaggregation_bootstrap_port server_args)
  /\ (forall h rest,
        has_colon h = false ->
        dist_init_addr server_args = Some (String.append h (String ":" rest)) ->
        _get_bootstrap_info net server_args
        = match gethostbyname net h with
          | inl e => inl e
          | inr ip => inr (ip, disaggregation_bootstrap_port server_args)
          end)
  /\ (forall addr,
        has_colon addr = false -> addr <> "" ->
        dist_init_addr server_args = Some addr ->
        _get_bootstrap_info net server_args
        = match gethostbyname net addr with
          | inl e => inl e
          | inr ip => inr (ip, disaggregation_bootstrap_port server_args)
          end)
  /\ (dist_init_addr server_args = None \/ dist_init_addr server_args = Some "" ->
      _get_bootstrap_info net server_args
      = match get_ip net with
        | inl e => inl e
        | inr ip => inr (ip, disaggregation_bootstrap_port server_args)
        end).
Proof.
  unfold _get_bootstrap_info. split; [|split; [|split]].
  - intros host port.
    destruct (str_truthy _);
      [destruct (gethostbyname net _)|destruct (get_ip net)]; congruence.
  - intros h rest Hc ->. cbn [default id].
    rewrite before_colon_append by exact Hc.
    now destruct h.
  - intros addr Hc Hne ->. cbn [default id]. rewrite before_colon_id by exact Hc.
    destruct addr; [congruence|reflexivity].
  - now intros [-> | ->].
Qed.

Lemma get_bootstrap_info_host_and_port_witness :
  _get_bootstrap_info
    {| gethostbyname := fun name => if String.eqb name "node-0" then inr "10.0.0.1"
                                    else inl (KeyError name);
       get_ip := inr "127.0.0.1" |}
    {| disaggregation_bootstrap_port := 8998; dist_init_addr := Some "node-0:5000" |}
  = inr ("10.0.0.1", 8998).
Proof.
  apply (proj1 (proj2 (get_bootstrap_info_host_and_port
                         {| gethostbyname :=
                              fun name => if String.eqb name "node-0" then inr "10.0.0.1"
                                          else inl (KeyError name);
                            get_ip := inr "127.0.0.1" |}
                         {| disaggregation_bootstrap_port := 8998;
                            dist_init_addr := Some "node-0:5000" |}))
           "node-0" "5000"); reflexivity.
Defined.

(** X26. A prefill handler that was constructed announces the engine's
    own bootstrap address: whatever the request, the context and the
    random source, the one item its [generate] yields carries the host
    that [_get_bootstrap_info] resolved, the engine's
    [disaggregation_bootstrap_port], and a room in the range of
    63-bit unsigned numbers. *)
Theorem prefill_handler_announces_engine_address {E : Type} (net : Network E)
  server_args config h env request context random :
  __init__ net server_args config = inr h ->
  PrefillWorkerHandler.config h = config
  /\ _get_bootstrap_info net server_args
     = inr (PrefillWorkerHandler.handler_bootstrap_host h,
            disaggregation_bootstrap_port server_args)
  /\ exists room,
       0 <= room <= 2 ^ 63 - 1
       /\ yielded_items
            (events (PrefillWorkerHandler.foreground
                       (PrefillWorkerHandler.generate env h request context random)))
          = [BootstrapItem
               {| bootstrap_host := PrefillWorkerHandler.handler_bootstrap_host h;
                  bootstrap_port := disaggregation_bootstrap_port server_args;
                  bootstrap_room := room |}].
Proof.
  unfold __init__. intros Hinit.
  destruct (_get_bootstrap_info net server_args) as [e|[host port]] eqn:Hinfo;
    [discriminate|].
  injection Hinit as <-. cbn [PrefillWorkerHandler.config
                                PrefillWorkerHandler.handler_bootstrap_host
                                PrefillWorkerHandler.handler_bootstrap_port].
  assert (Hport : port = disaggregation_bootstrap_port server_args).
  { revert Hinfo. unfold _get_bootstrap_info.
    destruct (str_truthy _);
      [destruct (gethostbyname net _)|destruct (get_ip net)]; congruence. }
  subst port. split; [reflexivity|]. split; [reflexivity|].
  exists (_generate_bootstrap_room random).1. split.
  - apply SglangFacts.randint_range. lia.
  - unfold PrefillWorkerHandler.generate.
    destruct (_generate_bootstrap_room random) as [room random'].
    cbn [fst PrefillWorkerHandler.handler_bootstrap_host
           PrefillWorkerHandler.handler_bootstrap_port].
    now destruct (_get_input_param env _ _).
Qed.

Lemma prefill_handler_announces_engine_address_witness :
  exists room,
    0 <= room <= 2 ^ 63 - 1
    /\ yielded_items
         (events (PrefillWorkerHandler.foreground
                    (PrefillWorkerHandler.generate (Samples.sg_env [] [])
                       {| PrefillWorkerHandler.config := Samples.sg_config PREFILL true;
                          PrefillWorkerHandler.handler_bootstrap_host := "127.0.0.1";
                          PrefillWorkerHandler.handler_bootstrap_port := 8998 |}
                       {| dpr_request := Samples.sg_request; dpr_sampling_params := ∅ |}
                       None Samples.sg_random)))
       = [BootstrapItem
            {| bootstrap_host := "127.0.0.1"; bootstrap_port := 8998;
               bootstrap_room := room |}].
Proof.
  exact (proj2 (proj2 (prefill_handler_announces_engine_address
                         {| gethostbyname := fun name => inl (KeyError name);
                            get_ip := inr "127.0.0.1" |}
                         {| disaggregation_bootstrap_port := 8998;
                            dist_init_addr := None |}
                         (Samples.sg_config PREFILL true) _ (Samples.sg_env [] [])
                         {| dpr_request := Samples.sg_request;
                            dpr_sampling_params := ∅ |}
                         None Samples.sg_random eq_refl))).
Defined.

(** *** The monitor task *)

(** X27. The monitor task never lets anything out: neither what
    [abort_request] raises nor the cancellation of the task leaves
    [_handle_cancellation]. It calls [abort_request] at most once, for
    the engine request id it was given and with [abort_all=False], and
    it does so exactly when there is a context, the wait ended with
    the signal and the engine has a tokenizer manager. Leaving the
    monitor, in whatever state the task is, raises nothing and aborts
    nothing. *)
Theorem monitor_task_is_contained engine sglang_request_id context w st :
  propagated (_handle_cancellation engine sglang_request_id context w) = None
  /\ (effects (_handle_cancellation engine sglang_request_id context w) = []
      \/ effects (_handle_cancellation engine sglang_request_id context w)
         = [AbortRequest sglang_request_id false])
  /\ (effects (_handle_cancellation engine sglang_request_id context w)
      = [AbortRequest sglang_request_id false]
      <-> is_Some context /\ w = Signalled /\ is_Some (tokenizer_manager engine))
  /\ propagated (monitor_exit engine sglang_request_id context st) = None
  /\ effects (monitor_exit engine sglang_request_id context st) = [].
Proof.
  unfold monitor_exit, await_cancelled, _handle_cancellation.
  destruct context as [c|], w, (tokenizer_manager engine) as [tm|], st;
    cbn; try destruct (abort_request tm sglang_request_id false) as [[e|]|]; cbn;
    repeat split; auto; try discriminate; try (intros [[x Hx] _]; discriminate);
    try (intros [_ [Hx _]]; discriminate); try (intros [_ [_ [x Hx]]]; discriminate);
    eauto.
Qed.

End SglangBaseFacts.

(** ** The mock NIM statistics server *)

Module MockNimFacts.
Import PrimFloat MockNim.

#[local] Set Warnings "-inexact-float".

Lemma serve_cons c time random rest :
  serve c ((time, random) :: rest)
  = ((serve (c + 1) rest).1,
     (handle_stats_request c time random).2 :: (serve (c + 1) rest).2).
Proof.
  cbn [serve handle_stats_request]. now destruct (serve (c + 1) rest).
Qed.

(** X28. The counters count: served one request after another from a
    request count [c], the server answers the [k]-th request (from 0)
    with [total_requests = c + 1 + k] and leaves the count at [c] plus
    the number of requests; in every answer
    [total_tokens_generated] is 127 times [total_requests] and
    [active_requests] is [total_requests] modulo 15, between 0 and
    14. *)
Theorem stats_counters requests :
  forall c,
    (serve c requests).1 = c + Z.of_nat (length requests)
    /\ length (serve c requests).2 = length requests
    /\ forall k stats,
         (serve c requests).2 !! k = Some stats ->
         total_requests (counters stats) = c + 1 + Z.of_nat k
         /\ total_tokens_generated (counters stats) = 127 * total_requests (counters stats)
         /\ active_requests (gauges stats) = total_requests (counters stats) mod 15
         /\ 0 <= active_requests (gauges stats) <= 14.
Proof.
  induction requests as [|[time random] rest IH]; intros c.
  { cbn. repeat split; try lia. all: intros; discriminate. }
  rewrite serve_cons. destruct (IH (c + 1)) as [IH1 [IH2 IH3]].
  cbn [fst snd length]. split; [lia|]. split; [now rewrite IH2|].
  intros [|k] stats Hk.
  - injection Hk as <-. cbn [handle_stats_request snd counters gauges total_requests
                               total_tokens_generated active_requests].
    pose proof (Z.mod_pos_bound (c + 1) 15). lia.
  - destruct (IH3 k stats Hk) as [H1 H2]. split; [lia|exact H2].
Qed.

Lemma stats_counters_witness :
  total_requests (counters (handle_stats_request 16 0%Q 0%float).2)
  = 15 + 1 + Z.of_nat 1
  /\ active_requests (gauges (handle_stats_request 16 0%Q 0%float).2) = 2.
Proof.
  destruct (proj2 (proj2 (stats_counters [(0%Q, 0%float); (0%Q, 0%float)] 15)) 1%nat
              (handle_stats_request 16 0%Q 0%float).2 eq_refl) as [H1 [_ [H3 _]]].
  split; [exact H1|]. rewrite H3, H1. reflexivity.
Defined.

Lemma kv_cache_usage_mod n : kv_cache_usage n = kv_cache_usage (n mod 10).
Proof. unfold kv_cache_usage. now rewrite Z.mod_mod. Qed.

Lemma gpu_utilization_mod n : gpu_utilization n = gpu_utilization (n mod 20).
Proof. unfold gpu_utilization. now rewrite Z.mod_mod. Qed.

Lemma kv_cache_usage_value (k : Z) :
  0 <= k < 10 ->
  kv_cache_usage_cycle !! Z.to_nat k = Some (round (kv_cache_usage k) 2)
  /\ PrimFloat.leb 0.3 (round (kv_cache_usage k) 2) = true
  /\ PrimFloat.leb (round (kv_cache_usage k) 2) 0.93 = true.
Proof.
  intros Hk.
  assert (H : k = 0 \/ k = 1 \/ k = 2 \/ k = 3 \/ k = 4 \/ k = 5 \/ k = 6 \/ k = 7
              \/ k = 8 \/ k = 9) by lia.
  repeat (destruct H as [->|H]; [vm_compute; now repeat split|]).
  subst k. vm_compute. now repeat split.
Qed.

Lemma gpu_utilization_value (k : Z) :
  0 <= k < 20 ->
  gpu_utilization_cycle !! Z.to_nat k = Some (round (gpu_utilization k) 1)
  /\ round (gpu_utilization k) 1 = gpu_utilization k
  /\ PrimFloat.leb 50 (round (gpu_utilization k) 1) = true
  /\ PrimFloat.leb (round (gpu_utilization k) 1) 97.5 = true.
Proof.
  intros Hk.
  assert (H : k = 0 \/ k = 1 \/ k = 2 \/ k = 3 \/ k = 4 \/ k = 5 \/ k = 6 \/ k = 7
              \/ k = 8 \/ k = 9 \/ k = 10 \/ k = 11 \/ k = 12 \/ k = 13 \/ k = 14
              \/ k = 15 \/ k = 16 \/ k = 17 \/ k = 18 \/ k = 19) by lia.
  repeat (destruct H as [->|H]; [vm_compute; now repeat split|]).
  subst k. vm_compute. now repeat split.
Qed.

(** X29. The gauges cycle as the source's comments say, in binary64
    arithmetic. With [n] the request count after the increment,
    [kv_cache_usage_perc] is the float that the [n mod 10]-th of the
    literals 0.3, 0.37, ..., 0.93 denotes and [gpu_utilization_perc]
    the float that the [n mod 20]-th of 50, 52.5, ..., 97.5 denotes, so
    that the first lies between 0.3 and 0.93 and the second between 50
    and 97.5; the first repeats every 10 requests, the second every 20
    and [active_requests] every 15, whatever the clock and the random
    number. The rounding leaves [gpu_utilization] as it is, but not
    [kv_cache_usage]: for [n mod 10 = 9] the sum computed before the
    rounding is above 0.93. *)
Theorem stats_gauges_cycle c time random :
  kv_cache_usage_cycle !! Z.to_nat ((c + 1) mod 10)
  = Some (kv_cache_usage_perc (gauges (handle_stats_request c time random).2))
  /\ PrimFloat.leb 0.3 (kv_cache_usage_perc (gauges (handle_stats_request c time random).2))
     = true
  /\ PrimFloat.leb (kv_cache_usage_perc (gauges (handle_stats_request c time random).2)) 0.93
     = true
  /\ gpu_utilization_cycle !! Z.to_nat ((c + 1) mod 20)
     = Some (gpu_utilization_perc (gauges (handle_stats_request c time random).2))
  /\ gpu_utilization_perc (gauges (handle_stats_request c time random).2)
     = gpu_utilization (c + 1)
  /\ PrimFloat.leb 50 (gpu_utilization_perc (gauges (handle_stats_request c time random).2))
     = true
  /\ PrimFloat.leb (gpu_utilization_perc (gauges (handle_stats_request c time random).2)) 97.5
     = true
  /\ (forall time' random',
        kv_cache_usage_perc (gauges (handle_stats_request (c + 10) time' random').2)
        = kv_cache_usage_perc (gauges (handle_stats_request c time random).2)
        /\ gpu_utilization_perc (gauges (handle_stats_request (c + 20) time' random').2)
           = gpu_utilization_perc (gauges (handle_stats_request c time random).2)
        /\ active_requests (gauges (handle_stats_request (c + 15) time' random').2)
           = active_requests (gauges (handle_stats_request c time random).2))
  /\ PrimFloat.ltb 0.93 (kv_cache_usage 9) = true
  /\ kv_cache_usage_perc (gauges (handle_stats_request 8 time random).2)
     <> kv_cache_usage 9.
Proof.
  unfold handle_stats_request.
  cbn [snd gauges kv_cache_usage_perc gpu_utilization_perc active_requests
         memory_used_gb].
  pose proof (Z.mod_pos_bound (c + 1) 10 eq_refl) as H10.
  pose proof (Z.mod_pos_bound (c + 1) 20 eq_refl) as H20.
  destruct (kv_cache_usage_value _ H10) as [Hkv [Hkl Hku]].
  destruct (gpu_utilization_value _ H20) as [Hgpu [Hge [Hgl Hgu]]].
  rewrite (kv_cache_usage_mod (c + 1)), (gpu_utilization_mod (c + 1)).
  repeat (split; [assumption|]).
  split; [|split; [vm_compute; reflexivity|]].
  2:{ intros H.
      assert (E : PrimFloat.ltb (round (kv_cache_usage (8 + 1)) 2)
                    (kv_cache_usage 9)
                  = PrimFloat.ltb (kv_cache_usage 9) (kv_cache_usage 9))
        by (now rewrite H).
      vm_compute in E. discriminate E. }
  intros time' random'.
  rewrite (kv_cache_usage_mod (c + 10 + 1)), (gpu_utilization_mod (c + 20 + 1)).
  replace (c + 10 + 1) with (c + 1 + 1 * 10) by lia.
  replace (c + 20 + 1) with (c + 1 + 1 * 20) by lia.
  replace (c + 15 + 1) with (c + 1 + 1 * 15) by lia.
  now rewrite !Z.mod_add by lia.
Qed.

End MockNimFacts.
